(** * Multi-source social media analytics platform: collection, quality
      gating and tiered storage, verified against their description.

    The development follows the Python sources module by module:

    - [RateLimiter], [APIRateLimiter]   app/rate_limiter.py
    - [BaseCollector]                   src/collectors/base_collector.py
    - [Orchestrator]                    src/collectors/orchestrator.py
    - [DataQuality]                     src/storage/data_quality.py
    - [DataPipeline]                    src/storage/data_pipeline.py
    - [RedditCollector]                 src/collectors/reddit_collector.py
    - [NewsCollector]                   src/collectors/news_collector.py

    Modelling conventions.  Wall-clock readings, sleep durations and
    computed quality scores are exact rationals ([Q]): the rounding of
    binary64 arithmetic on them is outside the model, and its range is
    modelled where the code can leave it, in the power of the backoff
    delay, which raises [OverflowError].
    Floats inside collected payloads are binary64 values.  Python
    integers are [Z] (or [nat] for counters that only grow from zero).
    A function that can raise returns a [result]; a method that mutates
    [self] returns the new object next to its value. *)

From Stdlib Require Import ZArith QArith Qabs Qround Lqa Lia List Ascii String Bool Floats.
From stdpp Require Import gmap strings.
Import ListNotations.

Local Open Scope Q_scope.

(** ** Python helpers shared by the modules *)

(** Strict comparison on rationals, as a boolean. *)
Definition Qlt_bool (x y : Q) : bool := negb (Qle_bool y x).

(** Python's [max(a, b)]: the first argument unless the second is
    strictly larger. *)
Definition pymax (a b : Q) : Q := if Qlt_bool a b then b else a.

(** Python's [min(a, b)]: the first argument unless the second is
    strictly smaller. *)
Definition pymin (a b : Q) : Q := if Qlt_bool b a then b else a.

(** [x ** k] for a non-negative integer exponent. *)
Fixpoint pypow (x : Q) (k : nat) : Q :=
  match k with
  | O => 1
  | S k' => x * pypow x k'
  end.

(** [x % 1]: the fractional part, in [0, 1) for every sign of [x]. *)
Definition frac (x : Q) : Q := x - inject_Z (Qfloor x).

(** [needle in haystack] on strings. *)
Fixpoint contains (needle haystack : string) : bool :=
  String.prefix needle haystack
  || match haystack with
     | EmptyString => false
     | String _ rest => contains needle rest
     end.

(** [str.lower] on ASCII letters (strings are byte strings here). *)
Definition lower_char (c : ascii) : ascii :=
  let n := nat_of_ascii c in
  if ((65 <=? n) && (n <=? 90))%nat then ascii_of_nat (n + 32) else c.

Fixpoint lower (s : string) : string :=
  match s with
  | EmptyString => EmptyString
  | String c rest => String (lower_char c) (lower rest)
  end.

(** ** Python values, exceptions and results *)

(** A [datetime]: its wall-clock reading in microseconds since the epoch
    and, when it is timezone-aware, its UTC offset in microseconds. *)
Record datetime := {
  wall_us : Z;
  utcoffset_us : option Z
}.

(** The values a collected payload can hold.  Floats are binary64: the
    code only inspects their type, their truth value and their sign. *)
#[warnings="-register-all"]
Inductive pyval :=
| PNone
| PBool (b : bool)
| PInt (z : Z)
| PFloat (f : float)
| PStr (s : string)
| PDatetime (dt : datetime)
| PList (l : list pyval)
| PDict (d : list (string * pyval)).

(** A payload or a keyword-argument dictionary: [Dict[str, Any]]. *)
Abbreviation Item := (gmap string pyval).

(** Exceptions.  [Exn cls msg] is an exception of class [cls];
    [CollectionError] is the wrapper the description speaks of, with the
    source name, the underlying cause and the number of attempts. *)
Inductive PyExn :=
| Exn (cls : string) (msg : string)
| CollectionError (source : string) (cause : PyExn) (attempts : Z).

Inductive result (A : Type) :=
| Ok (a : A)
| Raise (e : PyExn).
Arguments Ok {A} a.
Arguments Raise {A} e.

Definition bind {A B : Type} (m : result A) (k : A -> result B) : result B :=
  match m with
  | Ok a => k a
  | Raise e => Raise e
  end.

Notation "x <- m ;; k" := (bind m (fun x => k))
  (at level 100, m at next level, right associativity).

(** The call returned. *)
Definition is_ok {A : Type} (r : result A) : bool :=
  match r with
  | Ok _ => true
  | Raise _ => false
  end.

(** What Python raises when a float operation leaves the range of
    binary64. *)
Definition overflow_error : PyExn :=
  Exn "OverflowError" "(34, 'Numerical result out of range')".

(** A result of this magnitude or more rounds to infinity in binary64
    (the largest float is [2^1024 - 2^971]). *)
Definition float_overflow_threshold : Q := inject_Z (2 ^ 1024 - 2 ^ 970).

(** [x ** k] for a float [x] and a non-negative integer [k]: the power
    when it is in the range of binary64, [OverflowError] when it is
    not.  The rounding of a power in range is outside the model (the
    powers of 2.0 are exact). *)
Definition float_pow (x : Q) (k : nat) : result Q :=
  if Qle_bool float_overflow_threshold (Qabs (pypow x k))
  then Raise overflow_error
  else Ok (pypow x k).

(** ** Facts about the helpers *)

Lemma Qlt_bool_iff (x y : Q) : Qlt_bool x y = true <-> x < y.
Proof.
  unfold Qlt_bool. rewrite negb_true_iff. split.
  - intros H. apply Qnot_le_lt. intros Hle.
    apply Qle_bool_iff in Hle. congruence.
  - intros H. destruct (Qle_bool y x) eqn:E; [|reflexivity].
    apply Qle_bool_iff in E. lra.
Qed.

Lemma Qlt_bool_false (x y : Q) : Qlt_bool x y = false <-> y <= x.
Proof.
  unfold Qlt_bool. rewrite negb_false_iff. apply Qle_bool_iff.
Qed.

Lemma pymax_cases (a b : Q) :
  (a < b /\ pymax a b = b) \/ (b <= a /\ pymax a b = a).
Proof.
  unfold pymax. destruct (Qlt_bool a b) eqn:E.
  - left. split; [now apply Qlt_bool_iff | reflexivity].
  - right. split; [now apply Qlt_bool_false | reflexivity].
Qed.

Lemma pymin_cases (a b : Q) :
  (b < a /\ pymin a b = b) \/ (a <= b /\ pymin a b = a).
Proof.
  unfold pymin. destruct (Qlt_bool b a) eqn:E.
  - left. split; [now apply Qlt_bool_iff | reflexivity].
  - right. split; [now apply Qlt_bool_false | reflexivity].
Qed.

Lemma frac_range (x : Q) : 0 <= frac x /\ frac x < 1.
Proof.
  unfold frac. pose proof (Qfloor_le x) as Hlo.
  pose proof (Qlt_floor x) as Hhi.
  rewrite inject_Z_plus in Hhi. change (inject_Z 1) with 1 in Hhi.
  split; lra.
Qed.

Lemma pypow_ge_1 (x : Q) (k : nat) : 1 <= x -> 1 <= pypow x k.
Proof.
  intros Hx. induction k as [|k IH]; simpl; [lra|].
  assert (0 <= (x - 1) * pypow x k) by (apply Qmult_le_0_compat; lra).
  lra.
Qed.

Lemma pypow_2 (k : nat) : pypow 2 k == inject_Z (2 ^ Z.of_nat k).
Proof.
  induction k as [|k IH]; [reflexivity|].
  cbn [pypow]. rewrite IH, Nat2Z.inj_succ, Z.pow_succ_r by lia.
  rewrite inject_Z_mult. reflexivity.
Qed.

(** The powers of 2.0 overflow from the exponent 1024 on. *)
Lemma float_pow_2 (k : nat) :
  ((k < 1024)%nat -> float_pow 2 k = Ok (pypow 2 k)) /\
  ((1024 <= k)%nat -> float_pow 2 k = Raise overflow_error).
Proof.
  assert (Habs : Qabs (pypow 2 k) == inject_Z (2 ^ Z.of_nat k)).
  { rewrite Qabs_pos; [apply pypow_2|].
    pose proof (pypow_ge_1 2 k ltac:(lra)). lra. }
  unfold float_pow, float_overflow_threshold.
  split; intros Hk.
  - destruct (Qle_bool _ _) eqn:E; [|reflexivity]. exfalso.
    apply Qle_bool_iff in E. rewrite Habs, <- Zle_Qle in E.
    assert (H1 : (2 ^ Z.of_nat k <= 2 ^ 1023)%Z)
      by (apply Z.pow_le_mono_r; lia).
    assert (H2 : (2 ^ 1023 < 2 ^ 1024 - 2 ^ 970)%Z)
      by (vm_compute; reflexivity).
    apply (Z.lt_irrefl (2 ^ 1023)%Z).
    eapply Z.lt_le_trans; [exact H2|].
    eapply Z.le_trans; [exact E | exact H1].
  - destruct (Qle_bool _ _) eqn:E; [reflexivity|]. exfalso.
    assert (Hle : inject_Z (2 ^ 1024 - 2 ^ 970) <= Qabs (pypow 2 k)).
    { rewrite Habs, <- Zle_Qle.
      assert (H1 : (2 ^ 1024 <= 2 ^ Z.of_nat k)%Z)
        by (apply Z.pow_le_mono_r; lia).
      assert (H2 : (2 ^ 1024 - 2 ^ 970 <= 2 ^ 1024)%Z)
        by (vm_compute; discriminate).
      eapply Z.le_trans; [exact H2 | exact H1]. }
    apply Qle_bool_iff in Hle. congruence.
Qed.

(** * app/rate_limiter.py *)

Module RateLimiter.

(** [RateLimitConfig]; [burst_limit] and [backoff_multiplier] carry the
    dataclass defaults when built with [mkConfig]. *)
Record RateLimitConfig := {
  requests_per_minute : Z;
  requests_per_hour : Z;
  requests_per_day : Z;
  burst_limit : Z;
  backoff_multiplier : Q
}.

Definition mkConfig (per_minute per_hour per_day : Z) : RateLimitConfig :=
  {| requests_per_minute := per_minute;
     requests_per_hour := per_hour;
     requests_per_day := per_day;
     burst_limit := 10;
     backoff_multiplier := 2 |}.

(** The keys of [self.request_times]. *)
Inductive window := minute | hour | day.

(** A [RateLimiter] object (the lock serialises the methods and has no
    state of its own in a sequential model). *)
Record RateLimiter := {
  config : RateLimitConfig;
  times_minute : list Q;
  times_hour : list Q;
  times_day : list Q;
  last_request_time : Q;
  consecutive_failures : nat
}.

Definition new (c : RateLimitConfig) : RateLimiter :=
  {| config := c; times_minute := []; times_hour := []; times_day := [];
     last_request_time := 0; consecutive_failures := O |}.

Definition request_times (rl : RateLimiter) (w : window) : list Q :=
  match w with
  | minute => times_minute rl
  | hour => times_hour rl
  | day => times_day rl
  end.

Definition set_request_times (w : window) (l : list Q) (rl : RateLimiter)
  : RateLimiter :=
  match w with
  | minute =>
      {| config := config rl; times_minute := l; times_hour := times_hour rl;
         times_day := times_day rl; last_request_time := last_request_time rl;
         consecutive_failures := consecutive_failures rl |}
  | hour =>
      {| config := config rl; times_minute := times_minute rl; times_hour := l;
         times_day := times_day rl; last_request_time := last_request_time rl;
         consecutive_failures := consecutive_failures rl |}
  | day =>
      {| config := config rl; times_minute := times_minute rl;
         times_hour := times_hour rl; times_day := l;
         last_request_time := last_request_time rl;
         consecutive_failures := consecutive_failures rl |}
  end.

Definition set_failures (n : nat) (rl : RateLimiter) : RateLimiter :=
  {| config := config rl; times_minute := times_minute rl;
     times_hour := times_hour rl; times_day := times_day rl;
     last_request_time := last_request_time rl;
     consecutive_failures := n |}.

(** [_clean_old_requests]: keep the requests newer than [max_age]
    seconds; [now] is the reading of [time.time()]. *)
Definition _clean_old_requests (now : Q) (w : window) (max_age : Q)
    (rl : RateLimiter) : RateLimiter :=
  let cutoff_time := now - max_age in
  set_request_times w
    (List.filter (fun req_time => Qlt_bool cutoff_time req_time)
                 (request_times rl w))
    rl.

Definition len (l : list Q) : Z := Z.of_nat (List.length l).

(** [_can_make_request]: prunes the three windows, then compares their
    sizes with the caps. *)
Definition _can_make_request (now : Q) (rl : RateLimiter)
  : bool * RateLimiter :=
  let rl := _clean_old_requests now minute 60 rl in
  let rl := _clean_old_requests now hour 3600 rl in
  let rl := _clean_old_requests now day 86400 rl in
  if (requests_per_minute (config rl) <=? len (request_times rl minute))%Z
  then (false, rl)
  else if (requests_per_hour (config rl) <=? len (request_times rl hour))%Z
  then (false, rl)
  else if (requests_per_day (config rl) <=? len (request_times rl day))%Z
  then (false, rl)
  else (true, rl).

(** [_calculate_delay]: zero without failures, otherwise the capped
    exponential backoff with jitter, never below one second.  The power
    is taken before the cap, in floating point, and raises when it
    overflows. *)
Definition _calculate_delay (now : Q) (rl : RateLimiter) : result Q :=
  match consecutive_failures rl with
  | O => Ok 0
  | _ =>
      power <- float_pow (backoff_multiplier (config rl))
                 (consecutive_failures rl) ;;
      let base_delay := pymin 60 power in
      let jitter := base_delay * 0.1 * (0.5 - frac now) in
      Ok (pymax 1 (base_delay + jitter))
  end.

(** [min(l)] of a non-empty list, written for [x :: l]. *)
Definition list_min (x : Q) (l : list Q) : Q := fold_left pymin l x.

(** The contribution of one window to the delay:
    [if self.request_times[w]: delay = max(delay, span - (now - min(...)))]. *)
Definition window_delay (current_time : Q) (span : Q) (times : list Q)
    (delay : Q) : Q :=
  match times with
  | [] => delay
  | x :: l => pymax delay (span - (current_time - list_min x l))
  end.

(** [wait_if_needed]: the delay slept, or the exception raised, and the
    limiter after the call.  The call starts at [now] and returns at
    [now + delay]; the timestamp appended to the windows is
    [current_time], read on entry.  When the backoff computation raises,
    the windows have been pruned and nothing is appended. *)
Definition wait_if_needed (now : Q) (rl : RateLimiter)
  : result Q * RateLimiter :=
  let current_time := now in
  let delay := 0 in
  let '(can, rl) := _can_make_request now rl in
  let delay :=
    if can then delay
    else
      let delay := window_delay current_time 60 (request_times rl minute) delay in
      let delay := window_delay current_time 3600 (request_times rl hour) delay in
      window_delay current_time 86400 (request_times rl day) delay in
  match _calculate_delay now rl with
  | Raise e => (Raise e, rl)
  | Ok backoff_delay =>
      let delay := pymax delay backoff_delay in
      (* time.sleep(delay) when delay > 0 *)
      let rl := set_request_times minute (request_times rl minute ++ [current_time]) rl in
      let rl := set_request_times hour (request_times rl hour ++ [current_time]) rl in
      let rl := set_request_times day (request_times rl day ++ [current_time]) rl in
      (Ok delay, rl)
  end.

Definition record_success (rl : RateLimiter) : RateLimiter :=
  set_failures O rl.

Definition record_failure (rl : RateLimiter) : RateLimiter :=
  set_failures (S (consecutive_failures rl)) rl.

(** [APIRateLimiter.limiters]: the per-source limiters of the program. *)
Definition limiters : gmap string RateLimiter :=
  <["reddit" := new (mkConfig 60 3600 86400)]>
  (<["news" := new (mkConfig 1 4 100)]>
  (<["twitter" := new (mkConfig 1 2 50)]> ∅)).

(** A sequence of callers of one limiter.  Each caller arrives at its
    arrival time, takes the lock as soon as the previous call has
    returned, and is admitted when [wait_if_needed] returns, that is
    [delay] seconds after it started; a caller whose call raises is not
    admitted and releases the lock at once.  The result lists the
    admission times. *)
Fixpoint serve (arrivals : list Q) (free_at : Q) (rl : RateLimiter)
  : list Q :=
  match arrivals with
  | [] => []
  | a :: rest =>
      let start := pymax a free_at in
      match wait_if_needed start rl with
      | (Ok delay, rl') =>
          let finished := start + delay in
          finished :: serve rest finished rl'
      | (Raise _, rl') => serve rest start rl'
      end
  end.

(** Number of admissions in the 60 second window starting at [t]. *)
Definition admitted_in_window (t : Q) (admissions : list Q) : nat :=
  List.length
    (List.filter (fun x => Qle_bool t x && Qlt_bool x (t + 60)) admissions).

(** A window after [_clean_old_requests]. *)
Definition pruned (now : Q) (span : Q) (times : list Q) : list Q :=
  List.filter (fun req_time => Qlt_bool (now - span) req_time) times.

(** The limiter after the pruning at the head of a call. *)
Definition cleaned (now : Q) (rl : RateLimiter) : RateLimiter :=
  {| config := config rl;
     times_minute := pruned now 60 (times_minute rl);
     times_hour := pruned now 3600 (times_hour rl);
     times_day := pruned now 86400 (times_day rl);
     last_request_time := last_request_time rl;
     consecutive_failures := consecutive_failures rl |}.

(** The limiter after a call that returned. *)
Definition recorded (now : Q) (rl : RateLimiter) : RateLimiter :=
  {| config := config rl;
     times_minute := pruned now 60 (times_minute rl) ++ [now];
     times_hour := pruned now 3600 (times_hour rl) ++ [now];
     times_day := pruned now 86400 (times_day rl) ++ [now];
     last_request_time := last_request_time rl;
     consecutive_failures := consecutive_failures rl |}.

(** The wait the three windows ask for. *)
Definition window_wait (now : Q) (rl : RateLimiter) : Q :=
  let m := pruned now 60 (times_minute rl) in
  let h := pruned now 3600 (times_hour rl) in
  let d := pruned now 86400 (times_day rl) in
  if negb (requests_per_minute (config rl) <=? len m)%Z
     && negb (requests_per_hour (config rl) <=? len h)%Z
     && negb (requests_per_day (config rl) <=? len d)%Z
  then 0
  else window_delay now 86400 d
         (window_delay now 3600 h (window_delay now 60 m 0)).

(** *** Properties of the rate limiter *)

Lemma consecutive_failures_iter (k : nat) (rl : RateLimiter) :
  consecutive_failures (Nat.iter k record_failure rl)
  = (k + consecutive_failures rl)%nat.
Proof.
  induction k as [|k IH]; simpl; [reflexivity|]. now rewrite IH.
Qed.

Lemma config_iter (k : nat) (rl : RateLimiter) :
  config (Nat.iter k record_failure rl) = config rl.
Proof.
  induction k as [|k IH]; simpl; [reflexivity | exact IH].
Qed.

(** With a multiplier of at least one the base delay is at least one
    second, so the floor of one second in [_calculate_delay] stays within
    the jitter band. *)
Lemma calculate_delay_band (now : Q) (rl : RateLimiter) (delay : Q) :
  1 <= backoff_multiplier (config rl) ->
  (0 < consecutive_failures rl)%nat ->
  _calculate_delay now rl = Ok delay ->
  let base :=
    pymin 60 (pypow (backoff_multiplier (config rl))
                    (consecutive_failures rl)) in
  0.9 * base <= delay /\ delay <= 1.1 * base.
Proof.
  intros Hm Hk Hd. cbn zeta. unfold _calculate_delay in Hd.
  destruct (consecutive_failures rl) as [|k] eqn:Ek; [lia|].
  unfold float_pow in Hd. destruct (Qle_bool _ _); [discriminate Hd|].
  unfold bind in Hd. cbv zeta in Hd. injection Hd as <-.
  change (backoff_multiplier (config rl)
          * pypow (backoff_multiplier (config rl)) k)
    with (pypow (backoff_multiplier (config rl)) (S k)).
  set (base := pymin 60 (pypow (backoff_multiplier (config rl)) (S k))).
  assert (Hbase : 1 <= base).
  { unfold base.
    pose proof (pypow_ge_1 (backoff_multiplier (config rl)) (S k) Hm) as Hp.
    destruct (pymin_cases 60 (pypow (backoff_multiplier (config rl)) (S k)))
      as [[_ ->] | [_ ->]]; lra. }
  destruct (frac_range now) as [Hf0 Hf1].
  set (f := frac now) in *.
  assert (H0 : 0 <= base * f) by (apply Qmult_le_0_compat; lra).
  assert (H1 : 0 <= base * (1 - f)) by (apply Qmult_le_0_compat; lra).
  assert (Hj : base * 0.1 * (0.5 - f) == 0.05 * base - 0.1 * (base * f))
    by ring.
  assert (H1' : base * (1 - f) == base - base * f) by ring.
  destruct (pymax_cases 1 (base + base * 0.1 * (0.5 - f)))
    as [[Hlt ->] | [Hle ->]]; split; lra.
Qed.

(** With the default multiplier 2.0 the delay is computed for fewer
    than 1024 failures and the computation raises from 1024 on. *)
Lemma calculate_delay_default (now : Q) (rl : RateLimiter) :
  backoff_multiplier (config rl) = 2 ->
  ((consecutive_failures rl < 1024)%nat ->
   exists delay, _calculate_delay now rl = Ok delay) /\
  ((1024 <= consecutive_failures rl)%nat ->
   _calculate_delay now rl = Raise overflow_error).
Proof.
  intros Hm. unfold _calculate_delay. rewrite Hm.
  destruct (float_pow_2 (consecutive_failures rl)) as [Hlt Hge].
  destruct (consecutive_failures rl) as [|k] eqn:Ek.
  - split; [eauto | lia].
  - split; intros Hk.
    + rewrite (Hlt Hk). cbn [bind]. eauto.
    + now rewrite (Hge Hk).
Qed.

Lemma limiters_multiplier (name : string) (rl0 : RateLimiter) :
  limiters !! name = Some rl0 ->
  backoff_multiplier (config rl0) = 2 /\ consecutive_failures rl0 = O.
Proof.
  unfold limiters. intros H.
  repeat (apply lookup_insert_Some in H as [[_ <-] | [_ H]];
          [split; reflexivity|]).
  rewrite lookup_empty in H. discriminate.
Qed.

Lemma can_make_request_state (now : Q) (rl : RateLimiter) :
  snd (_can_make_request now rl) = cleaned now rl /\
  fst (_can_make_request now rl)
  = negb (requests_per_minute (config rl)
          <=? len (pruned now 60 (times_minute rl)))%Z
    && negb (requests_per_hour (config rl)
             <=? len (pruned now 3600 (times_hour rl)))%Z
    && negb (requests_per_day (config rl)
             <=? len (pruned now 86400 (times_day rl)))%Z.
Proof.
  unfold _can_make_request, _clean_old_requests, cleaned, pruned.
  cbn [set_request_times request_times config times_minute times_hour
       times_day last_request_time consecutive_failures].
  destruct (requests_per_minute (config rl) <=? _)%Z;
    [cbn; split; reflexivity|].
  destruct (requests_per_hour (config rl) <=? _)%Z;
    [cbn; split; reflexivity|].
  destruct (requests_per_day (config rl) <=? _)%Z;
    cbn; split; reflexivity.
Qed.

Lemma calculate_delay_ext (now : Q) (rl rl' : RateLimiter) :
  config rl' = config rl ->
  consecutive_failures rl' = consecutive_failures rl ->
  _calculate_delay now rl' = _calculate_delay now rl.
Proof. unfold _calculate_delay. now intros -> ->. Qed.

(** [wait_if_needed] in terms of the pruned windows. *)
Lemma wait_if_needed_spec (now : Q) (rl : RateLimiter) :
  wait_if_needed now rl
  = match _calculate_delay now rl with
    | Ok backoff_delay =>
        (Ok (pymax (window_wait now rl) backoff_delay), recorded now rl)
    | Raise e => (Raise e, cleaned now rl)
    end.
Proof.
  unfold wait_if_needed, window_wait.
  destruct (can_make_request_state now rl) as [Hsnd Hfst].
  destruct (_can_make_request now rl) as [can rl'].
  cbn [fst snd] in *. subst can rl'.
  rewrite (calculate_delay_ext now rl (cleaned now rl) eq_refl eq_refl).
  destruct (_calculate_delay now rl); reflexivity.
Qed.

(** The first call on a fresh limiter does not wait; a second call one
    second later, over the cap of one per minute, waits for the day
    window as well: 86399 seconds. *)
Example first_call_does_not_wait :
  fst (wait_if_needed 5 (new (mkConfig 1 4 100))) = Ok 0.
Proof. reflexivity. Qed.

Example second_call_waits_for_the_day_window :
  exists delay,
    fst (wait_if_needed 1 (snd (wait_if_needed 0 (new (mkConfig 1 4 100)))))
    = Ok delay /\
    Qred delay = 86399.
Proof. eexists. split; [reflexivity | vm_compute; reflexivity]. Qed.

(** C8 (evaluation of the code).  For each per-source limiter of
    [APIRateLimiter], in any state that shares its configuration: with
    [0 < k < 1024] consecutive failures the backoff delay lies within
    ten percent of [min(60, multiplier ^ k)], and [record_success] leaves
    the counter and the backoff delay at zero whatever number of
    [record_failure] calls came before.  From 1024 failures on the
    power [2.0 ** k] is out of the range of binary64: [_calculate_delay]
    raises [OverflowError] instead of returning the capped delay, and
    [wait_if_needed] raises with it. *)
Theorem backoff_delay_raises_from_1024_failures :
  forall (name : string) (rl0 rl : RateLimiter) (now : Q),
    limiters !! name = Some rl0 ->
    config rl = config rl0 ->
    ((0 < consecutive_failures rl < 1024)%nat ->
     exists delay,
       _calculate_delay now rl = Ok delay /\
       let base :=
         pymin 60 (pypow (backoff_multiplier (config rl))
                         (consecutive_failures rl)) in
       0.9 * base <= delay /\ delay <= 1.1 * base) /\
    ((1024 <= consecutive_failures rl)%nat ->
     _calculate_delay now rl = Raise overflow_error /\
     fst (wait_if_needed now rl) = Raise overflow_error) /\
    (forall j : nat,
       consecutive_failures
         (record_success (Nat.iter j record_failure rl)) = O /\
       _calculate_delay now
         (record_success (Nat.iter j record_failure rl)) = Ok 0).
Proof.
  intros name rl0 rl now Hin Hcfg.
  destruct (limiters_multiplier name rl0 Hin) as [Hm _].
  assert (Hm' : backoff_multiplier (config rl) = 2) by now rewrite Hcfg.
  destruct (calculate_delay_default now rl Hm') as [Hlt Hge].
  split; [|split].
  - intros [Hk0 Hk]. destruct (Hlt Hk) as [delay Hd].
    exists delay. split; [exact Hd|].
    apply (calculate_delay_band now rl delay); [rewrite Hm'; lra | exact Hk0 |
                                                exact Hd].
  - intros Hk. split; [exact (Hge Hk)|].
    now rewrite wait_if_needed_spec, (Hge Hk).
  - intros j. split; reflexivity.
Qed.

(** The "news" limiter after 1024 recorded failures. *)
Lemma backoff_delay_raises_from_1024_failures_witness :
  _calculate_delay 0 (Nat.iter 1024 record_failure (new (mkConfig 1 4 100)))
  = Raise overflow_error.
Proof.
  pose proof (backoff_delay_raises_from_1024_failures "news"
                (new (mkConfig 1 4 100))
                (Nat.iter 1024 record_failure (new (mkConfig 1 4 100)))
                0 eq_refl (config_iter 1024 _)) as (_ & Hge & _).
  apply Hge. rewrite consecutive_failures_iter. cbn. lia.
Defined.

(** C4 (evaluation of the code).  The "news" limiter allows one request
    per minute.  Three callers arrive at seconds 0, 1 and 86400.  The
    second is held until second 86400 but is recorded in the windows at
    its arrival time, second 1; the third then finds the minute window
    empty and is admitted at once.  Two calls are admitted within the
    same 60 second window, above the cap of one. *)
Theorem news_limiter_admits_two_in_one_minute :
  let news := new (mkConfig 1 4 100) in
  let admissions := serve [0; 1; 86400] 0 news in
  limiters !! "news" = Some news /\
  List.map Qred admissions = [0; 86400; 86400] /\
  (requests_per_minute (config news)
   < Z.of_nat (admitted_in_window 86400 admissions))%Z.
Proof.
  split; [reflexivity|]. split; vm_compute; reflexivity.
Qed.

(** ** More of the limiter: what a call records and when it waits *)

Lemma pymax_ge_l (a b : Q) : a <= pymax a b.
Proof. destruct (pymax_cases a b) as [[H ->] | [H ->]]; lra. Qed.

Lemma pymax_ge_r (a b : Q) : b <= pymax a b.
Proof. destruct (pymax_cases a b) as [[H ->] | [H ->]]; lra. Qed.

Lemma list_min_le (l : list Q) :
  forall x, list_min x l <= x /\ forall t, In t l -> list_min x l <= t.
Proof.
  unfold list_min. induction l as [|y l IH]; intros x; cbn [fold_left].
  - split; [lra | intros t []].
  - destruct (IH (pymin x y)) as [H1 H2].
    destruct (pymin_cases x y) as [[Hlt Hm] | [Hle Hm]]; rewrite Hm in *.
    + split; [lra|]. intros t [<- | Ht]; [lra | now apply H2].
    + split; [lra|]. intros t [<- | Ht]; [lra | now apply H2].
Qed.

Lemma list_min_In (l : list Q) :
  forall x, In (list_min x l) (x :: l).
Proof.
  unfold list_min. induction l as [|y l IH]; intros x; cbn [fold_left].
  - now left.
  - destruct (IH (pymin x y)) as [H | H].
    + rewrite <- H.
      destruct (pymin_cases x y) as [[_ ->] | [_ ->]];
        [right; now left | now left].
    + right. now right.
Qed.

Lemma window_delay_ge (now span : Q) (times : list Q) (delay : Q) :
  delay <= window_delay now span times delay.
Proof.
  destruct times as [|x l]; cbn [window_delay]; [lra | apply pymax_ge_l].
Qed.

Lemma window_delay_nil (now span : Q) (delay : Q) :
  window_delay now span [] delay = delay.
Proof. reflexivity. Qed.

Lemma window_wait_nonneg (now : Q) (rl : RateLimiter) :
  0 <= window_wait now rl.
Proof.
  unfold window_wait. cbn zeta. destruct (_ && _); [lra|].
  pose proof (window_delay_ge now 60 (pruned now 60 (times_minute rl)) 0).
  pose proof (window_delay_ge now 3600 (pruned now 3600 (times_hour rl))
                (window_delay now 60 (pruned now 60 (times_minute rl)) 0)).
  pose proof (window_delay_ge now 86400 (pruned now 86400 (times_day rl))
                (window_delay now 3600 (pruned now 3600 (times_hour rl))
                   (window_delay now 60 (pruned now 60 (times_minute rl)) 0))).
  lra.
Qed.

(** Whenever the backoff delay of a limiter with recorded failures is
    computed, it lies between 1 and 63 seconds, for every multiplier. *)
Lemma calculate_delay_range (now : Q) (rl : RateLimiter) (delay : Q) :
  _calculate_delay now rl = Ok delay ->
  0 <= delay /\
  ((0 < consecutive_failures rl)%nat -> 1 <= delay /\ delay <= 63).
Proof.
  unfold _calculate_delay. intros Hd.
  destruct (consecutive_failures rl) as [|k].
  - injection Hd as <-. split; [lra | lia].
  - destruct (float_pow _ _) as [power|e]; [|discriminate Hd].
    cbn [bind] in Hd. cbn zeta in Hd. injection Hd as <-.
    set (base := pymin 60 power).
    assert (Hbase : base <= 60).
    { unfold base. destruct (pymin_cases 60 power) as [[? ->] | [? ->]]; lra. }
    destruct (frac_range now) as [Hf0 Hf1]. set (f := frac now) in *.
    assert (Hexpr : base + base * 0.1 * (0.5 - f) <= 63).
    { destruct (Qlt_le_dec base 0) as [Hneg | Hpos].
      - assert (0 <= (- base) * (1.05 - 0.1 * f))
          by (apply Qmult_le_0_compat; lra).
        assert (base + base * 0.1 * (0.5 - f)
                == - ((- base) * (1.05 - 0.1 * f))) by ring.
        lra.
      - assert (0 <= base * f) by (apply Qmult_le_0_compat; lra).
        assert (base + base * 0.1 * (0.5 - f)
                == 1.05 * base - 0.1 * (base * f)) by ring.
        lra. }
    pose proof (pymax_ge_l 1 (base + base * 0.1 * (0.5 - f))) as H1.
    destruct (pymax_cases 1 (base + base * 0.1 * (0.5 - f)))
      as [[? Heq] | [? Heq]]; rewrite Heq in *;
      (split; [lra | intros _; split; lra]).
Qed.

Lemma pruned_expired (now span : Q) (times : list Q) :
  Forall (fun t => t <= now - span) times -> pruned now span times = [].
Proof.
  unfold pruned. induction 1 as [|t l Ht _ IH]; [reflexivity|].
  cbn [List.filter]. replace (Qlt_bool (now - span) t) with false; [exact IH|].
  symmetry. now apply Qlt_bool_false.
Qed.

Lemma pruned_recent (now span : Q) (times : list Q) (t : Q) :
  In t (pruned now span times) -> now - span < t.
Proof.
  unfold pruned. intros H. apply filter_In in H as [_ H].
  now apply Qlt_bool_iff.
Qed.

(** X1.  A call returns exactly when its backoff delay can be computed
    (with the default multiplier 2.0: with fewer than 1024 recorded
    failures).  A call that returns is let through and recorded,
    whatever the caps and whether or not it had to wait: its delay is
    not negative and its entry time is appended to the three pruned
    windows.  A call that raises has pruned the windows and is not
    recorded.  Either way the configuration and the failure counter are
    untouched, and [last_request_time] is never written. *)
Theorem wait_if_needed_records_the_calls_it_admits :
  forall (now : Q) (rl : RateLimiter),
    let rl' := snd (wait_if_needed now rl) in
    config rl' = config rl /\
    consecutive_failures rl' = consecutive_failures rl /\
    last_request_time rl' = last_request_time rl /\
    match fst (wait_if_needed now rl) with
    | Ok delay =>
        0 <= delay /\
        times_minute rl' = pruned now 60 (times_minute rl) ++ [now] /\
        times_hour rl' = pruned now 3600 (times_hour rl) ++ [now] /\
        times_day rl' = pruned now 86400 (times_day rl) ++ [now]
    | Raise e =>
        _calculate_delay now rl = Raise e /\
        times_minute rl' = pruned now 60 (times_minute rl) /\
        times_hour rl' = pruned now 3600 (times_hour rl) /\
        times_day rl' = pruned now 86400 (times_day rl)
    end /\
    (backoff_multiplier (config rl) = 2 ->
     (is_ok (fst (wait_if_needed now rl)) = true <->
      (consecutive_failures rl < 1024)%nat)).
Proof.
  intros now rl. cbn zeta. rewrite wait_if_needed_spec.
  pose proof (window_wait_nonneg now rl) as Hw.
  destruct (_calculate_delay now rl) as [backoff|e] eqn:Ed; cbn [fst snd].
  - split; [reflexivity|]. split; [reflexivity|]. split; [reflexivity|].
    split.
    + split; [|cbn; repeat split; reflexivity].
      pose proof (pymax_ge_l (window_wait now rl) backoff). lra.
    + intros Hm. destruct (calculate_delay_default now rl Hm) as [_ Hge].
      cbn [is_ok]. split; [|reflexivity]. intros _.
      destruct (Nat.lt_ge_cases (consecutive_failures rl) 1024) as [H|H];
        [exact H|].
      rewrite (Hge H) in Ed. discriminate Ed.
  - split; [reflexivity|]. split; [reflexivity|]. split; [reflexivity|].
    split; [cbn; repeat split; reflexivity|].
    intros Hm. destruct (calculate_delay_default now rl Hm) as [Hlt _].
    cbn [is_ok]. split; [discriminate|]. intros H.
    destruct (Hlt H) as [d Hd]. rewrite Hd in Ed. discriminate Ed.
Qed.

(** X2.  A call that finds each pruned window below its cap, on a
    limiter without recorded failures, returns at once. *)
Theorem call_under_the_caps_does_not_wait :
  forall (now : Q) (rl : RateLimiter),
    consecutive_failures rl = O ->
    (len (pruned now 60 (times_minute rl))
     < requests_per_minute (config rl))%Z ->
    (len (pruned now 3600 (times_hour rl))
     < requests_per_hour (config rl))%Z ->
    (len (pruned now 86400 (times_day rl))
     < requests_per_day (config rl))%Z ->
    fst (wait_if_needed now rl) = Ok 0.
Proof.
  intros now rl Hf Hm Hh Hd.
  rewrite wait_if_needed_spec. unfold _calculate_delay, window_wait.
  rewrite Hf. cbn zeta.
  rewrite !(proj2 (Z.leb_gt _ _)) by assumption. reflexivity.
Qed.

Lemma call_under_the_caps_does_not_wait_witness :
  fst (wait_if_needed 30 (snd (wait_if_needed 0 (new (mkConfig 60 3600 86400)))))
  = Ok 0.
Proof.
  apply call_under_the_caps_does_not_wait;
    [reflexivity | vm_compute; reflexivity ..].
Defined.

(** X3.  The caps only bite through recorded requests: when every
    recorded request has left its window and no failure is recorded, the
    call returns at once whatever the caps are, a cap of zero included. *)
Theorem idle_limiter_never_waits :
  forall (now : Q) (rl : RateLimiter),
    consecutive_failures rl = O ->
    Forall (fun t => t <= now - 60) (times_minute rl) ->
    Forall (fun t => t <= now - 3600) (times_hour rl) ->
    Forall (fun t => t <= now - 86400) (times_day rl) ->
    fst (wait_if_needed now rl) = Ok 0.
Proof.
  intros now rl Hf Hm Hh Hd.
  rewrite wait_if_needed_spec. unfold _calculate_delay, window_wait.
  rewrite Hf. cbn zeta.
  rewrite (pruned_expired _ _ _ Hm), (pruned_expired _ _ _ Hh),
    (pruned_expired _ _ _ Hd), !window_delay_nil.
  now destruct (_ && _).
Qed.

Lemma idle_limiter_never_waits_witness :
  fst (wait_if_needed 5 (new (mkConfig 0 0 0))) = Ok 0.
Proof.
  apply idle_limiter_never_waits;
    [reflexivity | constructor | constructor | constructor].
Defined.

(** X4.  A call that finds the minute window full (with a cap of at
    least one), on a limiter with the default multiplier 2.0 and fewer
    than 1024 recorded failures, returns after a wait: the delay is
    positive and reaches at least to the moment the oldest request of
    the window is sixty seconds old. *)
Theorem full_minute_window_delays_call :
  forall (now : Q) (rl : RateLimiter),
    backoff_multiplier (config rl) = 2 ->
    (consecutive_failures rl < 1024)%nat ->
    (1 <= requests_per_minute (config rl))%Z ->
    (requests_per_minute (config rl)
     <= len (pruned now 60 (times_minute rl)))%Z ->
    exists oldest delay,
      fst (wait_if_needed now rl) = Ok delay /\
      In oldest (pruned now 60 (times_minute rl)) /\
      (forall t, In t (pruned now 60 (times_minute rl)) -> oldest <= t) /\
      0 < 60 - (now - oldest) /\
      60 - (now - oldest) <= delay.
Proof.
  intros now rl Hmult Hfail Hcap Hfull.
  destruct (calculate_delay_default now rl Hmult) as [Hlt _].
  destruct (Hlt Hfail) as [backoff Hb].
  rewrite wait_if_needed_spec, Hb. cbn [fst].
  unfold window_wait. cbn zeta.
  rewrite (proj2 (Z.leb_le _ _) Hfull). cbn [negb andb].
  destruct (pruned now 60 (times_minute rl)) as [|x l] eqn:Em;
    [unfold len in Hfull; cbn [List.length Z.of_nat] in Hfull; lia|].
  exists (list_min x l). eexists. split; [reflexivity|].
  destruct (list_min_le l x) as [Hx Hl].
  pose proof (list_min_In l x) as Hin.
  split; [exact Hin|]. split.
  - intros t [<- | Ht]; [exact Hx | now apply Hl].
  - assert (Hrecent : now - 60 < list_min x l)
      by (apply (pruned_recent now 60 (times_minute rl)); now rewrite Em).
    split; [lra|].
    cbn [window_delay].
    set (dm := pymax 0 (60 - (now - list_min x l))).
    pose proof (pymax_ge_r 0 (60 - (now - list_min x l))) as H1.
    fold dm in H1.
    pose proof (window_delay_ge now 3600 (pruned now 3600 (times_hour rl)) dm)
      as H2.
    pose proof (window_delay_ge now 86400 (pruned now 86400 (times_day rl))
                  (window_delay now 3600 (pruned now 3600 (times_hour rl)) dm))
      as H3.
    match goal with |- _ <= pymax ?a ?b => pose proof (pymax_ge_l a b) end.
    lra.
Qed.

Lemma full_minute_window_delays_call_witness :
  exists delay,
    fst (wait_if_needed 1 (snd (wait_if_needed 0 (new (mkConfig 1 4 100)))))
    = Ok delay /\
    0 < delay.
Proof.
  destruct (full_minute_window_delays_call 1
              (snd (wait_if_needed 0 (new (mkConfig 1 4 100))))
              eq_refl
              ltac:(apply Nat.ltb_lt; vm_compute; reflexivity)
              ltac:(vm_compute; discriminate) ltac:(vm_compute; discriminate))
    as (oldest & delay & Hd & _ & _ & Hpos & Hle).
  exists delay. split; [exact Hd | lra].
Defined.

(** X5.  With at least one recorded failure, a backoff delay that is
    computed lies between 1 and 63 seconds, for every multiplier.  With
    the default multiplier 2.0 it is computed for fewer than 1024
    failures, and the call then waits at least one second; from 1024
    failures on the computation raises [OverflowError] and so does the
    call. *)
Theorem backoff_delay_between_1_and_63 :
  forall (now : Q) (rl : RateLimiter),
    (0 < consecutive_failures rl)%nat ->
    (forall delay,
       _calculate_delay now rl = Ok delay -> 1 <= delay /\ delay <= 63) /\
    (backoff_multiplier (config rl) = 2 ->
     ((consecutive_failures rl < 1024)%nat ->
      exists backoff delay,
        _calculate_delay now rl = Ok backoff /\
        fst (wait_if_needed now rl) = Ok delay /\ 1 <= delay) /\
     ((1024 <= consecutive_failures rl)%nat ->
      _calculate_delay now rl = Raise overflow_error /\
      fst (wait_if_needed now rl) = Raise overflow_error)).
Proof.
  intros now rl Hk. split.
  - intros delay Hd. exact (proj2 (calculate_delay_range now rl delay Hd) Hk).
  - intros Hm. destruct (calculate_delay_default now rl Hm) as [Hlt Hge].
    split; intros Hn.
    + destruct (Hlt Hn) as [backoff Hb].
      exists backoff. eexists. split; [exact Hb|].
      rewrite wait_if_needed_spec, Hb. cbn [fst]. split; [reflexivity|].
      destruct (proj2 (calculate_delay_range now rl backoff Hb) Hk) as [H1 _].
      pose proof (pymax_ge_r (window_wait now rl) backoff). lra.
    + split; [exact (Hge Hn)|]. now rewrite wait_if_needed_spec, (Hge Hn).
Qed.

Lemma backoff_delay_between_1_and_63_witness :
  exists delay,
    fst (wait_if_needed 0 (record_failure (new (mkConfig 1 4 100)))) = Ok delay /\
    1 <= delay.
Proof.
  destruct (proj1 (proj2 (backoff_delay_between_1_and_63 0
                            (record_failure (new (mkConfig 1 4 100)))
                            ltac:(cbn; lia)) eq_refl) ltac:(cbn; lia))
    as (backoff & delay & _ & Hd & H1).
  exists delay. split; [exact Hd | exact H1].
Defined.

End RateLimiter.

(** ** [APIRateLimiter] and the [with_rate_limit] decorator *)

Module APIRateLimiter.
Import RateLimiter.

(** The object is its dictionary of limiters. *)
Abbreviation APIRateLimiter := (gmap string RateLimiter).

Definition init : APIRateLimiter := limiters.

Definition wait_for_api (now : Q) (api_name : string) (self : APIRateLimiter)
  : result Q * APIRateLimiter :=
  match self !! api_name with
  | None => (Ok 0, self)
  | Some rl =>
      let '(delay, rl') := wait_if_needed now rl in
      (delay, <[api_name := rl']> self)
  end.

Definition record_success (api_name : string) (self : APIRateLimiter)
  : APIRateLimiter :=
  match self !! api_name with
  | Some rl => <[api_name := RateLimiter.record_success rl]> self
  | None => self
  end.

Definition record_failure (api_name : string) (self : APIRateLimiter)
  : APIRateLimiter :=
  match self !! api_name with
  | Some rl => <[api_name := RateLimiter.record_failure rl]> self
  | None => self
  end.

(** The test of the decorator's handler on [str(e)]. *)
Definition mentions_rate_limit (text : string) : bool :=
  contains "rate limit" (lower text) || contains "429" text.

(** The wrapper built by [with_rate_limit(api_name)] around a function
    whose call would have the outcome [func]; [str] is the exception's
    [__str__].  The wait comes before the [try]: when it raises, the
    function is not called and the exception leaves the wrapper. *)
Definition with_rate_limit {A : Type} (str : PyExn -> string)
    (api_name : string) (now : Q) (func : result A) (self : APIRateLimiter)
  : result A * APIRateLimiter :=
  match wait_for_api now api_name self with
  | (Raise e, self) => (Raise e, self)
  | (Ok delay, self) =>
      match func with
      | Ok result => (Ok result, record_success api_name self)
      | Raise e =>
          if mentions_rate_limit (str e)
          then (Raise e, record_failure api_name self)
          else (Raise e, self)
      end
  end.

Lemma wait_for_api_lookup (now : Q) (api_name : string) (self : APIRateLimiter)
    (rl : RateLimiter) :
  self !! api_name = Some rl ->
  wait_for_api now api_name self
  = (fst (wait_if_needed now rl),
     <[api_name := snd (wait_if_needed now rl)]> self).
Proof.
  intros H. unfold wait_for_api. rewrite H.
  now destruct (wait_if_needed now rl).
Qed.

(** X6.  The three operations of [APIRateLimiter] act on the named
    limiter only: a name that is not registered waits zero seconds and
    changes nothing, and a registered name leaves every other limiter as
    it was and never adds or removes a limiter. *)
Theorem api_limiters_are_independent :
  forall (now : Q) (api_name : string) (self : APIRateLimiter),
    (self !! api_name = None ->
     wait_for_api now api_name self = (Ok 0, self) /\
     record_success api_name self = self /\
     record_failure api_name self = self) /\
    (forall other, other <> api_name ->
       snd (wait_for_api now api_name self) !! other = self !! other /\
       record_success api_name self !! other = self !! other /\
       record_failure api_name self !! other = self !! other) /\
    dom (snd (wait_for_api now api_name self)) = dom self /\
    dom (record_success api_name self) = dom self /\
    dom (record_failure api_name self) = dom self.
Proof.
  intros now api_name self.
  unfold wait_for_api, record_success, record_failure.
  destruct (self !! api_name) as [rl|] eqn:E.
  - destruct (wait_if_needed now rl) as [delay rl']. cbv beta iota. cbn [snd].
    split; [discriminate|]. split.
    + intros other Hne. rewrite !lookup_insert_ne by congruence. auto.
    + rewrite !dom_insert_lookup_L by (rewrite E; eauto). auto.
  - cbv beta iota. cbn [snd]. repeat split; reflexivity.
Qed.

(** X7.  A decorated call on a registered API whose limiter has the
    default multiplier 2.0.  With fewer than 1024 recorded failures the
    wrapper hands back what the wrapped function did: a call that
    returns resets the failure counter, and a call that raises with a
    message mentioning a rate limit or 429 increments it, so that the
    next call through the limiter waits at least one second, or raises
    when the counter has reached 1024; any other exception leaves the
    counter as it was.  With 1024 recorded failures or more the wait
    itself raises [OverflowError]: the function is not called and the
    counter stays where it is. *)
Theorem decorated_call_tracks_failures :
  forall (A : Type) (str : PyExn -> string) (api_name : string) (now : Q)
         (func : result A) (self : APIRateLimiter) (rl : RateLimiter),
    self !! api_name = Some rl ->
    backoff_multiplier (config rl) = 2 ->
    let after := snd (with_rate_limit str api_name now func self) in
    exists rl',
      after !! api_name = Some rl' /\
      ((consecutive_failures rl < 1024)%nat ->
       fst (with_rate_limit str api_name now func self) = func /\
       match func with
       | Ok _ => consecutive_failures rl' = O
       | Raise e =>
           if mentions_rate_limit (str e)
           then consecutive_failures rl' = S (consecutive_failures rl) /\
                forall later,
                  ((S (consecutive_failures rl) < 1024)%nat ->
                   exists delay,
                     fst (wait_for_api later api_name after) = Ok delay /\
                     1 <= delay) /\
                  ((1024 <= S (consecutive_failures rl))%nat ->
                   fst (wait_for_api later api_name after)
                   = Raise overflow_error)
           else consecutive_failures rl' = consecutive_failures rl
       end) /\
      ((1024 <= consecutive_failures rl)%nat ->
       fst (with_rate_limit str api_name now func self)
       = Raise overflow_error /\
       consecutive_failures rl' = consecutive_failures rl).
Proof.
  intros A str api_name now func self rl Hin Hmult. cbn zeta.
  unfold with_rate_limit. rewrite (wait_for_api_lookup _ _ _ _ Hin).
  rewrite wait_if_needed_spec.
  destruct (calculate_delay_default now rl Hmult) as [Hlt Hge].
  destruct (Nat.lt_ge_cases (consecutive_failures rl) 1024) as [Hk | Hk].
  - destruct (Hlt Hk) as [backoff ->]. cbn [fst snd].
    destruct func as [result|e].
    + cbn [fst snd]. unfold record_success. rewrite lookup_insert_eq.
      eexists. rewrite lookup_insert_eq. split; [reflexivity|].
      split; [intros _; split; reflexivity | lia].
    + destruct (mentions_rate_limit (str e)) eqn:Em; cbn [fst snd].
      * unfold record_failure. rewrite lookup_insert_eq.
        eexists. rewrite lookup_insert_eq. split; [reflexivity|].
        split; [|lia]. intros _. split; [reflexivity|].
        split; [reflexivity|].
        intros later.
        erewrite wait_for_api_lookup by apply lookup_insert_eq. cbn [fst].
        rewrite wait_if_needed_spec.
        set (rl1 := RateLimiter.record_failure (recorded now rl)).
        assert (Hm1 : backoff_multiplier (config rl1) = 2) by exact Hmult.
        assert (Hf1 : consecutive_failures rl1 = S (consecutive_failures rl))
          by reflexivity.
        destruct (calculate_delay_default later rl1 Hm1) as [Hlt1 Hge1].
        rewrite Hf1 in Hlt1, Hge1.
        split; intros Hn.
        -- destruct (Hlt1 Hn) as [b1 Hb1]. rewrite Hb1. cbn [fst].
           eexists. split; [reflexivity|].
           destruct (proj2 (calculate_delay_range later rl1 b1 Hb1)
                       ltac:(rewrite Hf1; lia)) as [H1 _].
           pose proof (pymax_ge_r (window_wait later rl1) b1). lra.
        -- now rewrite (Hge1 Hn).
      * exists (recorded now rl). rewrite lookup_insert_eq.
        split; [reflexivity|]. split; [|lia]. intros _.
        split; reflexivity.
  - rewrite (Hge Hk). cbn [fst snd].
    exists (cleaned now rl). rewrite lookup_insert_eq.
    split; [reflexivity|]. split; [lia|]. intros _. split; reflexivity.
Qed.

Lemma decorated_call_tracks_failures_witness :
  fst (with_rate_limit (fun _ => "HTTP 429 Too Many Requests") "news" 0
         (@Raise unit (Exn "HTTPError" "HTTP 429 Too Many Requests")) init)
  = Raise (Exn "HTTPError" "HTTP 429 Too Many Requests").
Proof.
  destruct (decorated_call_tracks_failures unit
              (fun _ => "HTTP 429 Too Many Requests") "news" 0
              (Raise (Exn "HTTPError" "HTTP 429 Too Many Requests"))
              init (new (mkConfig 1 4 100)) eq_refl eq_refl)
    as (rl' & _ & Hlt & _).
  exact (proj1 (Hlt ltac:(cbn; lia))).
Defined.

End APIRateLimiter.

(** * src/collectors/base_collector.py *)

Module BaseCollector.

(** The abstract methods a concrete collector supplies.  [collect_data]
    is the wire-level client: the answer to its [n]-th invocation on a
    collector is given by the oracle [collect_data n]. *)
Record CollectorImpl := {
  collect_data : nat -> Item -> result (list Item);
  validate_data : Item -> result bool;
  transform_data : Item -> result Item
}.

(** The state of a [BaseCollector]; [calls_made] counts the invocations
    of [collect_data] (it indexes the oracle and is not a field of the
    Python object). *)
Record Collector := {
  name : string;
  rate_limit_delay : Q;
  max_retries : Z;
  last_collection : option Q;
  collection_count : nat;
  error_count : nat;
  calls_made : nat
}.

(** [BaseCollector.__init__]. *)
Definition init (name : string) (rate_limit_delay : Q) (max_retries : Z)
  : Collector :=
  {| name := name; rate_limit_delay := rate_limit_delay;
     max_retries := max_retries; last_collection := None;
     collection_count := O; error_count := O; calls_made := O |}.

(** What one call does besides updating the collector: it advances the
    clock by sleeping and invokes the client. *)
Inductive event :=
| EvSleep (seconds : Q)
| EvCollect (attempt : Z).

(** A running call: the collector, the clock and the events so far. *)
Record Run := {
  self : Collector;
  clock : Q;
  events : list event
}.

(** How a call of [collect_with_retry] ends. *)
Inductive Outcome :=
| Returned (items : list Item)
| ReturnedNone
| Raised (e : PyExn).

(** [await asyncio.sleep(seconds)]. *)
Definition sleep (seconds : Q) (r : Run) : Run :=
  {| self := self r; clock := clock r + seconds;
     events := events r ++ [EvSleep seconds] |}.

(** The invocation of [self.collect_data] for [attempt]. *)
Definition invoke (attempt : Z) (r : Run) : Run :=
  let c := self r in
  {| self := {| name := name c; rate_limit_delay := rate_limit_delay c;
                max_retries := max_retries c;
                last_collection := last_collection c;
                collection_count := collection_count c;
                error_count := error_count c;
                calls_made := S (calls_made c) |};
     clock := clock r;
     events := events r ++ [EvCollect attempt] |}.

(** [self.last_collection = time.time(); self.collection_count += 1]. *)
Definition mark_success (r : Run) : Run :=
  let c := self r in
  {| self := {| name := name c; rate_limit_delay := rate_limit_delay c;
                max_retries := max_retries c;
                last_collection := Some (clock r);
                collection_count := S (collection_count c);
                error_count := error_count c;
                calls_made := calls_made c |};
     clock := clock r;
     events := events r |}.

(** [self.error_count += 1]. *)
Definition mark_error (r : Run) : Run :=
  let c := self r in
  {| self := {| name := name c; rate_limit_delay := rate_limit_delay c;
                max_retries := max_retries c;
                last_collection := last_collection c;
                collection_count := collection_count c;
                error_count := S (error_count c);
                calls_made := calls_made c |};
     clock := clock r;
     events := events r |}.

(** The validate-and-transform loop over the raw items: an item that
    fails validation is dropped, the others are transformed in order. *)
Fixpoint process_items (impl : CollectorImpl) (raw_data : list Item)
  : result (list Item) :=
  match raw_data with
  | [] => Ok []
  | item :: rest =>
      valid <- validate_data impl item ;;
      if valid : bool then
        transformed_item <- transform_data impl item ;;
        processed <- process_items impl rest ;;
        Ok (transformed_item :: processed)
      else process_items impl rest
  end.

(** [for attempt in range(self.max_retries)], from [attempt] on;
    [remaining] is the number of iterations left. *)
Fixpoint retry_loop (impl : CollectorImpl) (kwargs : Item)
    (remaining : nat) (attempt : Z) (r : Run) : Outcome * Run :=
  match remaining with
  | O => (ReturnedNone, r)
  | S remaining' =>
      let n := calls_made (self r) in
      let r := invoke attempt r in
      match raw_data <- collect_data impl n kwargs ;;
            process_items impl raw_data with
      | Ok processed_data => (Returned processed_data, mark_success r)
      | Raise e =>
          if (attempt =? max_retries (self r) - 1)%Z
          then (Raised e, r)
          else retry_loop impl kwargs remaining' (attempt + 1)%Z
                 (sleep (inject_Z (2 ^ attempt)) r)
      end
  end.

(** [if self.last_collection: ...]: wait out the rest of
    [rate_limit_delay] since the last successful collection. *)
Definition rate_limit (r : Run) : Run :=
  match last_collection (self r) with
  | None => r
  | Some last =>
      if Qeq_bool last 0 then r
      else
        let time_since_last := clock r - last in
        if Qlt_bool time_since_last (rate_limit_delay (self r))
        then sleep (rate_limit_delay (self r) - time_since_last) r
        else r
  end.

(** [collect_with_retry], called with the keyword arguments [kwargs]. *)
Definition collect_with_retry (impl : CollectorImpl) (kwargs : Item)
    (r : Run) : Outcome * Run :=
  let r := rate_limit r in
  match retry_loop impl kwargs (Z.to_nat (max_retries (self r))) 0%Z r with
  | (Raised e, r) => (Raised e, mark_error r)
  | finished => finished
  end.

(** The events of [n] failed attempts starting at [attempt]: each
    attempt but the last is followed by a sleep of [2 ** attempt]
    seconds. *)
Fixpoint failed_attempts (n : nat) (attempt : Z) : list event :=
  match n with
  | O => []
  | S O => [EvCollect attempt]
  | S n' =>
      EvCollect attempt :: EvSleep (inject_Z (2 ^ attempt))
        :: failed_attempts n' (attempt + 1)%Z
  end.

(** A collector whose client refuses every connection. *)
Definition refused : PyExn := Exn "ConnectionError" "connection refused".

Definition always_failing : CollectorImpl :=
  {| collect_data := fun _ _ => Raise refused;
     validate_data := fun _ => Ok true;
     transform_data := fun item => Ok item |}.

Definition fresh_run (c : Collector) (now : Q) : Run :=
  {| self := c; clock := now; events := [] |}.

(** A client that fails twice and then answers with one item. *)
Definition failing_twice : CollectorImpl :=
  {| collect_data :=
       fun n _ =>
         if (n <? 2)%nat then Raise refused
         else Ok [list_to_map [("id", PStr "p1")]];
     validate_data := fun _ => Ok true;
     transform_data := fun item => Ok item |}.

(** *** Properties of the retry loop *)
Example third_attempt_succeeds :
  fst (collect_with_retry failing_twice ∅ (fresh_run (init "reddit" 1 3) 0))
  = Returned [list_to_map [("id", PStr "p1")]] /\
  events (snd (collect_with_retry failing_twice ∅
                 (fresh_run (init "reddit" 1 3) 0)))
  = [EvCollect 0; EvSleep 1; EvCollect 1; EvSleep 2; EvCollect 2] /\
  error_count (self (snd (collect_with_retry failing_twice ∅
                            (fresh_run (init "reddit" 1 3) 0)))) = O.
Proof. repeat split; vm_compute; reflexivity. Qed.


Lemma rate_limit_self (r : Run) : self (rate_limit r) = self r.
Proof.
  unfold rate_limit. destruct (last_collection (self r)) as [last|];
    [|reflexivity].
  destruct (Qeq_bool last 0); [reflexivity|].
  destruct (Qlt_bool _ _); reflexivity.
Qed.

Lemma failed_attempts_S (n : nat) (attempt : Z) :
  failed_attempts (S (S n)) attempt
  = EvCollect attempt :: EvSleep (inject_Z (2 ^ attempt))
      :: failed_attempts (S n) (attempt + 1)%Z.
Proof. reflexivity. Qed.

(** When every invocation of the client raises, the loop runs all its
    remaining iterations and ends by re-raising what the last one
    raised. *)
Lemma retry_loop_all_fail (impl : CollectorImpl) (kwargs : Item) :
  (forall n, exists e, collect_data impl n kwargs = Raise e) ->
  forall (remaining : nat) (attempt : Z) (r : Run),
    (attempt + Z.of_nat (S remaining) = max_retries (self r))%Z ->
    exists e r',
      retry_loop impl kwargs (S remaining) attempt r = (Raised e, r') /\
      collect_data impl (calls_made (self r) + remaining) kwargs = Raise e /\
      calls_made (self r') = (calls_made (self r) + S remaining)%nat /\
      events r' = events r ++ failed_attempts (S remaining) attempt /\
      max_retries (self r') = max_retries (self r) /\
      name (self r') = name (self r) /\
      error_count (self r') = error_count (self r) /\
      collection_count (self r') = collection_count (self r) /\
      last_collection (self r') = last_collection (self r).
Proof.
  intros Hfail remaining.
  induction remaining as [|remaining IH]; intros attempt r Hsum.
  - destruct (Hfail (calls_made (self r))) as [e He].
    exists e, (invoke attempt r).
    cbn [retry_loop]. rewrite He. cbn [bind invoke self max_retries].
    replace (attempt =? max_retries (self r) - 1)%Z with true
      by (symmetry; apply Z.eqb_eq; lia).
    rewrite Nat.add_0_r, Nat.add_1_r. cbn. repeat split; assumption.
  - destruct (Hfail (calls_made (self r))) as [e0 He0].
    set (r1 := sleep (inject_Z (2 ^ attempt)) (invoke attempt r)).
    destruct (IH (attempt + 1)%Z r1 ltac:(cbn; lia))
      as (e & r' & Hrun & Hlast & Hcalls & Hev & Hmax & Hname & Herr & Hcnt & Hlc).
    exists e, r'.
    change (retry_loop impl kwargs (S (S remaining)) attempt r)
      with (match raw_data <- collect_data impl (calls_made (self r)) kwargs ;;
                  process_items impl raw_data with
            | Ok processed_data =>
                (Returned processed_data, mark_success (invoke attempt r))
            | Raise e =>
                if (attempt =? max_retries (self (invoke attempt r)) - 1)%Z
                then (Raised e, invoke attempt r)
                else retry_loop impl kwargs (S remaining) (attempt + 1)%Z r1
            end).
    rewrite He0. cbn [bind invoke self max_retries].
    replace (attempt =? max_retries (self r) - 1)%Z with false
      by (symmetry; apply Z.eqb_neq; lia).
    split; [exact Hrun|].
    split; [rewrite <- Hlast; f_equal; cbn; lia|].
    split; [rewrite Hcalls; cbn; lia|].
    split; [rewrite Hev, failed_attempts_S; cbn; rewrite <- !app_assoc;
            reflexivity|].
    repeat split; assumption.
Qed.

(** C3, as the code has it.  For a collector with [max_retries >= 1]
    whose client raises on every invocation, [collect_with_retry] invokes
    the client exactly [max_retries] times, sleeps [2 ** attempt] seconds
    after each failed attempt but the last, and then raises the very
    exception the last invocation raised (no wrapper is built); the error
    counter grows by one and the collection counter is unchanged. *)
Theorem collect_with_retry_exhausts_retries :
  forall (impl : CollectorImpl) (kwargs : Item) (r : Run),
    (1 <= max_retries (self r))%Z ->
    (forall n, exists e, collect_data impl n kwargs = Raise e) ->
    exists e r',
      collect_with_retry impl kwargs r = (Raised e, r') /\
      collect_data impl
        (calls_made (self r) + Z.to_nat (max_retries (self r)) - 1)%nat
        kwargs = Raise e /\
      calls_made (self r')
      = (calls_made (self r) + Z.to_nat (max_retries (self r)))%nat /\
      events r'
      = events (rate_limit r)
        ++ failed_attempts (Z.to_nat (max_retries (self r))) 0 /\
      error_count (self r') = S (error_count (self r)) /\
      collection_count (self r') = collection_count (self r).
Proof.
  intros impl kwargs r Hmax Hfail.
  unfold collect_with_retry.
  pose proof (rate_limit_self r) as Hself.
  destruct (Z.to_nat (max_retries (self r))) as [|remaining] eqn:En; [lia|].
  destruct (retry_loop_all_fail impl kwargs Hfail remaining 0%Z (rate_limit r)
              ltac:(rewrite Hself; lia))
    as (e & r' & Hrun & Hlast & Hcalls & Hev & _ & _ & Herr & Hcnt & _).
  exists e, (mark_error r').
  rewrite Hself, En, Hrun. rewrite Hself in *.
  split; [reflexivity|].
  split; [rewrite <- Hlast; f_equal; lia|].
  split; [exact Hcalls|].
  split; [exact Hev|].
  split; [cbn; now rewrite Herr | exact Hcnt].
Qed.

(** The "reddit" collector as constructed by its subclass (delay 1.0,
    three retries) over a client that refuses every connection. *)
Lemma collect_with_retry_exhausts_retries_witness :
  exists e r',
    collect_with_retry always_failing ∅ (fresh_run (init "reddit" 1 3) 0)
    = (Raised e, r') /\
    calls_made (self r') = 3%nat /\
    events r'
    = [EvCollect 0; EvSleep 1; EvCollect 1; EvSleep 2; EvCollect 2].
Proof.
  destruct (collect_with_retry_exhausts_retries always_failing ∅
              (fresh_run (init "reddit" 1 3) 0)
              ltac:(cbn; lia)
              (fun _ => ex_intro _ refused eq_refl))
    as (e & r' & Hrun & _ & Hcalls & Hev & _).
  exists e, r'. split; [exact Hrun|]. split; [exact Hcalls | exact Hev].
Defined.

(** C3, as stated, fails: what reaches the caller after the retries are
    exhausted is the client's own exception, not a [CollectionError]
    carrying the source, the cause and the attempt count. *)
Lemma collect_with_retry_raises_bare_cause :
  fst (collect_with_retry always_failing ∅ (fresh_run (init "reddit" 1 3) 0))
  = Raised refused /\
  ~ (exists source cause attempts,
       fst (collect_with_retry always_failing ∅
              (fresh_run (init "reddit" 1 3) 0))
       = Raised (CollectionError source cause attempts)).
Proof.
  split; [reflexivity|].
  intros (source & cause & attempts & H). discriminate H.
Qed.

(** ** More of the base collector *)

(** [health_check]: one invocation of the client with [limit=1], outside
    the retry loop and the counters; true when it returns. *)
Definition health_check (impl : CollectorImpl) (c : Collector)
  : bool * Collector :=
  let invoked :=
    {| name := name c; rate_limit_delay := rate_limit_delay c;
       max_retries := max_retries c; last_collection := last_collection c;
       collection_count := collection_count c; error_count := error_count c;
       calls_made := S (calls_made c) |} in
  match collect_data impl (calls_made c) (<["limit" := PInt 1]> ∅) with
  | Ok _ => (true, invoked)
  | Raise _ => (false, invoked)
  end.

(** [get_collection_stats]. *)
Record CollectionStats := {
  stats_name : string;
  stats_collection_count : nat;
  stats_error_count : nat;
  stats_last_collection : option Q;
  success_rate : Q
}.

Definition get_collection_stats (c : Collector) : CollectionStats :=
  {| stats_name := name c;
     stats_collection_count := collection_count c;
     stats_error_count := error_count c;
     stats_last_collection := last_collection c;
     success_rate :=
       inject_Z (Z.of_nat (collection_count c) - Z.of_nat (error_count c))
       / inject_Z (Z.max (Z.of_nat (collection_count c)) 1) |}.

(** An item passes the validate-and-transform step when validation
    answers, and transformation answers if the item is valid. *)
Definition item_passes (impl : CollectorImpl) (item : Item) : Prop :=
  validate_data impl item = Ok false \/
  (validate_data impl item = Ok true /\
   exists transformed, transform_data impl item = Ok transformed).

(** When validation and transformation do not raise, the processed
    items are the transformed valid items, in the order of the raw
    items. *)
Lemma process_items_filter_map (impl : CollectorImpl) (valid : Item -> bool)
    (transform : Item -> Item) (raw_data : list Item) :
  (forall item, In item raw_data -> validate_data impl item = Ok (valid item)) ->
  (forall item, In item raw_data -> valid item = true ->
     transform_data impl item = Ok (transform item)) ->
  process_items impl raw_data
  = Ok (List.map transform (List.filter valid raw_data)).
Proof.
  induction raw_data as [|item rest IH]; intros Hv Ht; [reflexivity|].
  cbn [process_items List.filter]. rewrite (Hv item) by now left.
  cbn [bind]. destruct (valid item) eqn:E.
  - rewrite (Ht item) by (now left || exact E). cbn [bind].
    rewrite IH; [reflexivity | |]; intros; [apply Hv | apply Ht]; auto;
      now right.
  - apply IH; intros; [apply Hv | apply Ht]; auto; now right.
Qed.

(** X8.  The step is all or nothing: it returns exactly when every raw item
    passes; one item on which validation or transformation raises makes
    the whole batch, and with it the attempt, fail. *)
Theorem process_items_all_or_nothing :
  forall (impl : CollectorImpl) (raw_data : list Item),
    (exists processed, process_items impl raw_data = Ok processed) <->
    Forall (item_passes impl) raw_data.
Proof.
  intros impl raw_data. induction raw_data as [|item rest IH].
  - split; [constructor | intros _; now exists []].
  - cbn [process_items]. split.
    + intros [processed H].
      destruct (validate_data impl item) as [[|]|e] eqn:Ev; cbn [bind] in H;
        [| |discriminate].
      * destruct (transform_data impl item) as [t|e] eqn:Et; cbn [bind] in H;
          [|discriminate].
        destruct (process_items impl rest) as [l|e] eqn:E; cbn [bind] in H;
          [|discriminate].
        constructor; [right; split; [exact Ev | now exists t] |].
        apply IH. now exists l.
      * constructor; [now left |]. apply IH. now exists processed.
    + intros H. inversion H as [|? ? Hitem Hrest]; subst.
      apply IH in Hrest as [processed Hp].
      destruct Hitem as [Hv | [Hv [t Ht]]]; rewrite Hv; cbn [bind];
        [|rewrite Ht; cbn [bind]]; rewrite Hp; cbn [bind]; eauto.
Qed.

(** *** The retry loop in general *)

Lemma sleep_self (seconds : Q) (r : Run) : self (sleep seconds r) = self r.
Proof. reflexivity. Qed.

Lemma retry_loop_law (impl : CollectorImpl) (kwargs : Item) :
  forall (remaining : nat) (attempt : Z) (r : Run),
    (attempt + Z.of_nat (S remaining) = max_retries (self r))%Z ->
    let o := fst (retry_loop impl kwargs (S remaining) attempt r) in
    let r' := snd (retry_loop impl kwargs (S remaining) attempt r) in
    o <> ReturnedNone /\
    (calls_made (self r) < calls_made (self r')
     <= calls_made (self r) + S remaining)%nat /\
    clock r <= clock r' /\
    error_count (self r') = error_count (self r) /\
    max_retries (self r') = max_retries (self r) /\
    (forall items, o = Returned items ->
       collection_count (self r') = S (collection_count (self r)) /\
       last_collection (self r') = Some (clock r')) /\
    (forall e, o = Raised e ->
       collection_count (self r') = collection_count (self r) /\
       last_collection (self r') = last_collection (self r) /\
       calls_made (self r') = (calls_made (self r) + S remaining)%nat).
Proof.
  induction remaining as [|remaining IH]; intros attempt r Hsum; cbn zeta.
  - cbn [retry_loop].
    destruct (raw_data <- collect_data impl (calls_made (self r)) kwargs ;;
              process_items impl raw_data) as [processed|e].
    + cbn. repeat split; try discriminate; try lia; try lra.
      all: intros; congruence.
    + cbn [invoke self max_retries].
      replace (attempt =? max_retries (self r) - 1)%Z with true
        by (symmetry; apply Z.eqb_eq; lia).
      cbn. repeat split; try discriminate; try lia; try lra.
  - change (retry_loop impl kwargs (S (S remaining)) attempt r)
      with (match raw_data <- collect_data impl (calls_made (self r)) kwargs ;;
                  process_items impl raw_data with
            | Ok processed_data =>
                (Returned processed_data, mark_success (invoke attempt r))
            | Raise e =>
                if (attempt =? max_retries (self (invoke attempt r)) - 1)%Z
                then (Raised e, invoke attempt r)
                else retry_loop impl kwargs (S remaining) (attempt + 1)%Z
                       (sleep (inject_Z (2 ^ attempt)) (invoke attempt r))
            end).
    destruct (raw_data <- collect_data impl (calls_made (self r)) kwargs ;;
              process_items impl raw_data) as [processed|e].
    + cbn. repeat split; try discriminate; try lia; try lra.
      all: intros; congruence.
    + cbn [invoke self max_retries].
      replace (attempt =? max_retries (self r) - 1)%Z with false
        by (symmetry; apply Z.eqb_neq; lia).
      set (r1 := sleep (inject_Z (2 ^ attempt)) (invoke attempt r)).
      destruct (IH (attempt + 1)%Z r1 ltac:(cbn; lia))
        as (Hnone & Hcalls & Hclock & Herr & Hmax & Hret & Hraise).
      assert (Hpow : 0 <= inject_Z (2 ^ attempt)).
      { change 0 with (inject_Z 0). rewrite <- Zle_Qle.
        apply Z.pow_nonneg. lia. }
      assert (Hc1 : clock r1 == clock r + inject_Z (2 ^ attempt))
        by (cbn; reflexivity).
      cbn [calls_made self r1 sleep invoke] in Hcalls.
      split; [exact Hnone|]. split; [lia|]. split; [lra|].
      split; [exact Herr|]. split; [exact Hmax|].
      split; [exact Hret|].
      intros e' He'. destruct (Hraise e' He') as (Hc & Hl & Hn).
      split; [exact Hc|]. split; [exact Hl|].
      rewrite Hn. cbn. lia.
Qed.

Lemma process_items_raises (impl : CollectorImpl) (raw_data : list Item)
    (item : Item) :
  In item raw_data ->
  validate_data impl item = Ok true ->
  (exists e, transform_data impl item = Raise e) ->
  exists e, process_items impl raw_data = Raise e.
Proof.
  intros Hin Hv [e0 Ht].
  induction raw_data as [|head rest IH]; [destruct Hin|].
  cbn [process_items]. destruct Hin as [-> | Hin].
  - rewrite Hv. cbn [bind]. rewrite Ht. cbn [bind]. eauto.
  - destruct (IH Hin) as [e He].
    destruct (validate_data impl head) as [[|]|e1]; cbn [bind]; eauto.
    destruct (transform_data impl head) as [t|e1]; cbn [bind]; eauto.
    rewrite He. cbn [bind]. eauto.
Qed.

Lemma process_items_transformed (impl : CollectorImpl) (raw_data : list Item) :
  forall processed,
    process_items impl raw_data = Ok processed ->
    Forall (fun t => exists item, transform_data impl item = Ok t) processed.
Proof.
  induction raw_data as [|head rest IH]; intros processed H.
  - injection H as <-. constructor.
  - cbn [process_items] in H.
    destruct (validate_data impl head) as [[|]|e]; cbn [bind] in H;
      [| now apply IH | discriminate].
    destruct (transform_data impl head) as [t|e] eqn:Et; cbn [bind] in H;
      [|discriminate].
    destruct (process_items impl rest) as [l|e]; cbn [bind] in H;
      [|discriminate].
    injection H as <-. constructor; [eauto | now apply IH].
Qed.

(** What the loop returns was processed from what the client returned
    on one of the attempts. *)
Lemma retry_loop_returned (impl : CollectorImpl) (kwargs : Item) :
  forall (remaining : nat) (attempt : Z) (r : Run) (items : list Item),
    fst (retry_loop impl kwargs remaining attempt r) = Returned items ->
    exists n raw_data,
      collect_data impl n kwargs = Ok raw_data /\
      process_items impl raw_data = Ok items.
Proof.
  induction remaining as [|remaining IH]; intros attempt r items H.
  - discriminate H.
  - cbn [retry_loop] in H.
    destruct (collect_data impl (calls_made (self r)) kwargs)
      as [raw_data|e] eqn:Ec; cbn [bind] in H.
    + destruct (process_items impl raw_data) as [processed|e] eqn:Ep.
      * cbn in H. injection H as <-. eauto.
      * destruct (_ =? _)%Z; [discriminate H | eapply IH; exact H].
    + destruct (_ =? _)%Z; [discriminate H | eapply IH; exact H].
Qed.

Lemma collect_with_retry_returned (impl : CollectorImpl) (kwargs : Item)
    (r : Run) (items : list Item) :
  fst (collect_with_retry impl kwargs r) = Returned items ->
  Forall (fun t => exists item, transform_data impl item = Ok t) items.
Proof.
  unfold collect_with_retry. intros H.
  destruct (retry_loop impl kwargs _ 0 (rate_limit r)) as [[l| |e] r1] eqn:E;
    cbn [fst] in H; try discriminate H.
  injection H as ->.
  destruct (retry_loop_returned impl kwargs
              (Z.to_nat (max_retries (self (rate_limit r)))) 0%Z
              (rate_limit r) items)
    as (n & raw_data & _ & Hp); [now rewrite E|].
  exact (process_items_transformed impl raw_data items Hp).
Qed.

(** When every attempt fails, in the client or in the processing of
    what it returned, the loop ends by raising. *)
Lemma retry_loop_attempts_fail (impl : CollectorImpl) (kwargs : Item) :
  (forall n, exists e,
     (raw_data <- collect_data impl n kwargs ;; process_items impl raw_data)
     = Raise e) ->
  forall (remaining : nat) (attempt : Z) (r : Run),
    (attempt + Z.of_nat (S remaining) = max_retries (self r))%Z ->
    exists e, fst (retry_loop impl kwargs (S remaining) attempt r) = Raised e.
Proof.
  intros Hfail remaining.
  induction remaining as [|remaining IH]; intros attempt r Hsum.
  - destruct (Hfail (calls_made (self r))) as [e He].
    cbn [retry_loop]. rewrite He. cbn [invoke self max_retries].
    replace (attempt =? max_retries (self r) - 1)%Z with true
      by (symmetry; apply Z.eqb_eq; lia).
    now exists e.
  - destruct (Hfail (calls_made (self r))) as [e He].
    change (retry_loop impl kwargs (S (S remaining)) attempt r)
      with (match raw_data <- collect_data impl (calls_made (self r)) kwargs ;;
                  process_items impl raw_data with
            | Ok processed_data =>
                (Returned processed_data, mark_success (invoke attempt r))
            | Raise e =>
                if (attempt =? max_retries (self (invoke attempt r)) - 1)%Z
                then (Raised e, invoke attempt r)
                else retry_loop impl kwargs (S remaining) (attempt + 1)%Z
                       (sleep (inject_Z (2 ^ attempt)) (invoke attempt r))
            end).
    rewrite He. cbn [invoke self max_retries].
    replace (attempt =? max_retries (self r) - 1)%Z with false
      by (symmetry; apply Z.eqb_neq; lia).
    apply IH. cbn. lia.
Qed.

Lemma collect_with_retry_raises (impl : CollectorImpl) (kwargs : Item)
    (r : Run) :
  (1 <= max_retries (self r))%Z ->
  (forall n, exists e,
     (raw_data <- collect_data impl n kwargs ;; process_items impl raw_data)
     = Raise e) ->
  exists e, fst (collect_with_retry impl kwargs r) = Raised e.
Proof.
  intros Hmax Hfail. unfold collect_with_retry.
  pose proof (rate_limit_self r) as Hself.
  destruct (Z.to_nat (max_retries (self r))) as [|remaining] eqn:En; [lia|].
  rewrite Hself, En.
  destruct (retry_loop_attempts_fail impl kwargs Hfail remaining 0%Z
              (rate_limit r) ltac:(rewrite Hself; lia)) as [e He].
  destruct (retry_loop impl kwargs (S remaining) 0 (rate_limit r))
    as [[items| |e'] r1]; cbn [fst] in *; try discriminate.
  now exists e'.
Qed.

Lemma collect_with_retry_never_none (impl : CollectorImpl) (kwargs : Item)
    (r : Run) :
  (1 <= max_retries (self r))%Z ->
  fst (collect_with_retry impl kwargs r) <> ReturnedNone.
Proof.
  intros Hmax. unfold collect_with_retry.
  pose proof (rate_limit_self r) as Hself.
  destruct (Z.to_nat (max_retries (self r))) as [|remaining] eqn:En; [lia|].
  rewrite Hself, En.
  destruct (retry_loop_law impl kwargs remaining 0%Z (rate_limit r)
              ltac:(rewrite Hself; lia)) as (Hnone & _).
  destruct (retry_loop impl kwargs (S remaining) 0 (rate_limit r))
    as [[items| |e] r1]; cbn [fst snd] in *; congruence.
Qed.

(** X9.  With at least one retry allowed, [collect_with_retry] either returns
    the processed items or raises: it invokes the client between one and
    [max_retries] times and never goes back in time.  When it returns,
    the collection counter grows by one, the error counter is untouched
    (failed attempts before a success are not errors) and
    [last_collection] is the time of return.  When it raises, all
    [max_retries] attempts were made, the error counter grows by one and
    the collection counter and [last_collection] are untouched. *)
Theorem collect_with_retry_accounting :
  forall (impl : CollectorImpl) (kwargs : Item) (r : Run),
    (1 <= max_retries (self r))%Z ->
    let o := fst (collect_with_retry impl kwargs r) in
    let r' := snd (collect_with_retry impl kwargs r) in
    o <> ReturnedNone /\
    (calls_made (self r) < calls_made (self r')
     <= calls_made (self r) + Z.to_nat (max_retries (self r)))%nat /\
    clock r <= clock r' /\
    (forall items, o = Returned items ->
       collection_count (self r') = S (collection_count (self r)) /\
       error_count (self r') = error_count (self r) /\
       last_collection (self r') = Some (clock r')) /\
    (forall e, o = Raised e ->
       error_count (self r') = S (error_count (self r)) /\
       collection_count (self r') = collection_count (self r) /\
       last_collection (self r') = last_collection (self r) /\
       calls_made (self r')
       = (calls_made (self r) + Z.to_nat (max_retries (self r)))%nat).
Proof.
  intros impl kwargs r Hmax. cbn zeta. unfold collect_with_retry.
  pose proof (rate_limit_self r) as Hself.
  assert (Hrate : clock r <= clock (rate_limit r)).
  { unfold rate_limit. destruct (last_collection (self r)) as [last|]; [|lra].
    destruct (Qeq_bool last 0); [lra|].
    destruct (Qlt_bool _ _) eqn:E; [|lra].
    apply Qlt_bool_iff in E. cbn. lra. }
  destruct (Z.to_nat (max_retries (self r))) as [|remaining] eqn:En; [lia|].
  rewrite Hself, En.
  destruct (retry_loop_law impl kwargs remaining 0%Z (rate_limit r)
              ltac:(rewrite Hself; lia))
    as (Hnone & Hcalls & Hclock & Herr & _ & Hret & Hraise).
  rewrite Hself in *.
  destruct (retry_loop impl kwargs (S remaining) 0 (rate_limit r))
    as [[items| |e] r1]; cbn [fst snd] in *; [| congruence |].
  - split; [discriminate|]. split; [lia|]. split; [lra|].
    split; [|intros e He; discriminate He].
    intros items' _. destruct (Hret items eq_refl) as [Hc Hl].
    repeat split; assumption.
  - split; [discriminate|]. cbn [mark_error self calls_made clock].
    split; [lia|]. split; [lra|].
    split; [intros items He; discriminate He|].
    intros e' _. destruct (Hraise e eq_refl) as (Hc & Hl & Hn).
    cbn. repeat split; try assumption. now rewrite Herr.
Qed.

Lemma collect_with_retry_accounting_witness :
  fst (collect_with_retry failing_twice ∅ (fresh_run (init "reddit" 1 3) 0))
  <> ReturnedNone.
Proof.
  exact (proj1 (collect_with_retry_accounting failing_twice ∅
                  (fresh_run (init "reddit" 1 3) 0) ltac:(cbn; lia))).
Defined.

(** X10.  With [max_retries] zero or negative the loop body never runs: the
    call falls off the end and returns [None], without invoking the
    client and without touching a counter. *)
Theorem collect_with_retry_without_retries :
  forall (impl : CollectorImpl) (kwargs : Item) (r : Run),
    (max_retries (self r) <= 0)%Z ->
    fst (collect_with_retry impl kwargs r) = ReturnedNone /\
    self (snd (collect_with_retry impl kwargs r)) = self r.
Proof.
  intros impl kwargs r Hmax. unfold collect_with_retry.
  rewrite rate_limit_self.
  replace (Z.to_nat (max_retries (self r))) with O by lia.
  cbn. split; [reflexivity | apply rate_limit_self].
Qed.

Lemma collect_with_retry_without_retries_witness :
  fst (collect_with_retry always_failing ∅ (fresh_run (init "reddit" 1 0) 0))
  = ReturnedNone.
Proof.
  exact (proj1 (collect_with_retry_without_retries always_failing ∅
                  (fresh_run (init "reddit" 1 0) 0) ltac:(cbn; lia))).
Defined.

(** X11.  After the throttle at the head of [collect_with_retry], at least
    [rate_limit_delay] seconds have passed since the last successful
    collection; the throttle only sleeps, and a collector that has never
    collected is not delayed. *)
Theorem rate_limit_spaces_collections :
  forall (r : Run),
    self (rate_limit r) = self r /\
    clock r <= clock (rate_limit r) /\
    (last_collection (self r) = None -> rate_limit r = r) /\
    (forall last,
       last_collection (self r) = Some last -> ~ last == 0 ->
       rate_limit_delay (self r) <= clock (rate_limit r) - last).
Proof.
  intros r. split; [apply rate_limit_self|]. unfold rate_limit.
  destruct (last_collection (self r)) as [last|].
  - destruct (Qeq_bool last 0) eqn:E0.
    + apply Qeq_bool_iff in E0. split; [lra|]. split; [discriminate|].
      intros l [= <-] Hne. contradiction.
    + destruct (Qlt_bool (clock r - last) (rate_limit_delay (self r))) eqn:E.
      * apply Qlt_bool_iff in E. cbn. split; [lra|]. split; [discriminate|].
        intros l [= <-] _. lra.
      * apply Qlt_bool_false in E. split; [lra|]. split; [discriminate|].
        intros l [= <-] _. lra.
  - split; [lra|]. split; [reflexivity|]. intros l H. discriminate H.
Qed.

Lemma retry_loop_all_fail_clock (impl : CollectorImpl) (kwargs : Item) :
  (forall n, exists e, collect_data impl n kwargs = Raise e) ->
  forall (remaining : nat) (attempt : Z) (r : Run),
    (0 <= attempt)%Z ->
    (attempt + Z.of_nat (S remaining) = max_retries (self r))%Z ->
    clock (snd (retry_loop impl kwargs (S remaining) attempt r))
    == clock r + inject_Z (2 ^ (attempt + Z.of_nat remaining) - 2 ^ attempt).
Proof.
  intros Hfail remaining.
  induction remaining as [|remaining IH]; intros attempt r Hpos Hsum.
  - destruct (Hfail (calls_made (self r))) as [e He].
    cbn [retry_loop]. rewrite He. cbn [bind invoke self max_retries].
    replace (attempt =? max_retries (self r) - 1)%Z with true
      by (symmetry; apply Z.eqb_eq; lia).
    cbn [snd clock]. rewrite Z.add_0_r, Z.sub_diag. cbn. ring.
  - destruct (Hfail (calls_made (self r))) as [e He].
    change (retry_loop impl kwargs (S (S remaining)) attempt r)
      with (match raw_data <- collect_data impl (calls_made (self r)) kwargs ;;
                  process_items impl raw_data with
            | Ok processed_data =>
                (Returned processed_data, mark_success (invoke attempt r))
            | Raise e =>
                if (attempt =? max_retries (self (invoke attempt r)) - 1)%Z
                then (Raised e, invoke attempt r)
                else retry_loop impl kwargs (S remaining) (attempt + 1)%Z
                       (sleep (inject_Z (2 ^ attempt)) (invoke attempt r))
            end).
    rewrite He. cbn [bind invoke self max_retries].
    replace (attempt =? max_retries (self r) - 1)%Z with false
      by (symmetry; apply Z.eqb_neq; lia).
    rewrite IH by (cbn; lia). cbn [clock sleep invoke].
    replace (attempt + 1 + Z.of_nat remaining)%Z
      with (attempt + Z.of_nat (S remaining))%Z by lia.
    replace (2 ^ (attempt + 1))%Z with (2 * 2 ^ attempt)%Z
      by (rewrite Z.pow_add_r by lia; lia).
    unfold Z.sub. rewrite !inject_Z_plus, !inject_Z_opp, inject_Z_mult.
    ring.
Qed.

(** X12.  A collection that exhausts its retries has slept
    [2 ** (max_retries - 1) - 1] seconds between its attempts (3 seconds
    with the default of three retries), on top of the initial throttle. *)
Theorem exhausted_retries_backoff_time :
  forall (impl : CollectorImpl) (kwargs : Item) (r : Run),
    (1 <= max_retries (self r))%Z ->
    (forall n, exists e, collect_data impl n kwargs = Raise e) ->
    clock (snd (collect_with_retry impl kwargs r))
    == clock (rate_limit r)
       + inject_Z (2 ^ (max_retries (self r) - 1) - 1).
Proof.
  intros impl kwargs r Hmax Hfail. unfold collect_with_retry.
  pose proof (rate_limit_self r) as Hself.
  destruct (Z.to_nat (max_retries (self r))) as [|remaining] eqn:En; [lia|].
  rewrite Hself, En.
  pose proof (retry_loop_all_fail_clock impl kwargs Hfail remaining 0%Z
                (rate_limit r) ltac:(lia) ltac:(rewrite Hself; lia)) as Hclock.
  destruct (retry_loop impl kwargs (S remaining) 0 (rate_limit r))
    as [[items| |e] r1]; cbn [fst snd clock mark_error] in *;
    rewrite Hclock;
    replace (max_retries (self r) - 1)%Z with (0 + Z.of_nat remaining)%Z
      by lia;
    reflexivity.
Qed.

Lemma exhausted_retries_backoff_time_witness :
  clock (snd (collect_with_retry always_failing ∅
                (fresh_run (init "reddit" 1 3) 0)))
  == 3.
Proof.
  rewrite (exhausted_retries_backoff_time always_failing ∅
             (fresh_run (init "reddit" 1 3) 0)
             ltac:(cbn; lia) (fun _ => ex_intro _ refused eq_refl)).
  reflexivity.
Defined.

(** X13.  [success_rate] is at most 1 but is not a rate: failed collections
    only count in [error_count], so it is negative as soon as there are
    more errors than successful collections. *)
Theorem success_rate_can_be_negative :
  forall (c : Collector),
    success_rate (get_collection_stats c) <= 1 /\
    ((error_count c <= collection_count c)%nat ->
     0 <= success_rate (get_collection_stats c)) /\
    ((collection_count c < error_count c)%nat ->
     success_rate (get_collection_stats c) < 0) /\
    (collection_count c = O ->
     success_rate (get_collection_stats c)
     == - inject_Z (Z.of_nat (error_count c))).
Proof.
  intros c. unfold get_collection_stats. cbn [success_rate].
  set (n := Z.of_nat (collection_count c)).
  set (e := Z.of_nat (error_count c)).
  assert (Hn : (0 <= n)%Z) by (unfold n; lia).
  assert (He : (0 <= e)%Z) by (unfold e; lia).
  assert (Hd : 0 < inject_Z (Z.max n 1))
    by (change 0 with (inject_Z 0); rewrite <- Zlt_Qlt; lia).
  split; [|split; [|split]].
  - apply Qle_shift_div_r; [exact Hd|]. rewrite Qmult_1_l.
    rewrite <- Zle_Qle. lia.
  - intros Hle. apply Qle_shift_div_l; [exact Hd|]. rewrite Qmult_0_l.
    change 0 with (inject_Z 0). rewrite <- Zle_Qle. unfold n, e. lia.
  - intros Hlt. apply Qlt_shift_div_r; [exact Hd|]. rewrite Qmult_0_l.
    change 0 with (inject_Z 0). rewrite <- Zlt_Qlt. unfold n, e. lia.
  - intros Hzero. unfold n. rewrite Hzero. cbn [Z.of_nat Z.max Z.compare].
    change (inject_Z (Z.max 0 1)) with 1. rewrite Z.sub_0_l.
    rewrite inject_Z_opp. unfold Qdiv. change (/ 1) with 1.
    apply Qmult_1_r.
Qed.

End BaseCollector.

(** * src/collectors/orchestrator.py *)

Module Orchestrator.
Import BaseCollector.

(** ** Insertion-ordered dictionaries with string keys *)

Fixpoint dict_set {V : Type} (k : string) (v : V) (d : list (string * V))
  : list (string * V) :=
  match d with
  | [] => [(k, v)]
  | (k', v') :: rest =>
      if String.eqb k k' then (k, v) :: rest
      else (k', v') :: dict_set k v rest
  end.

Fixpoint dict_get {V : Type} (k : string) (d : list (string * V))
  : option V :=
  match d with
  | [] => None
  | (k', v') :: rest => if String.eqb k k' then Some v' else dict_get k rest
  end.

Definition keys {V : Type} (d : list (string * V)) : list string :=
  List.map fst d.

(** ** The orchestrator *)

(** A registered collector object: the methods of its class and its
    state. *)
Record CollectorObj := {
  impl : CollectorImpl;
  state : Collector
}.

(** [self.collectors], in insertion order. *)
Definition Registry := list (string * CollectorObj).

(** The factory functions of the three collector modules; each raises
    when its own credentials are incomplete. *)
Record Factories := {
  create_twitter_collector : result CollectorObj;
  create_reddit_collector : result CollectorObj;
  create_news_collector : result CollectorObj
}.

(** Truth value of [os.getenv(var)]: set and not empty. *)
Definition getenv_truthy (env : gmap string string) (var : string) : bool :=
  match env !! var with
  | Some value => negb (String.eqb value "")
  | None => false
  end.

(** One [try] block of [_initialize_collectors]: register the collector
    when its variables are set and its factory does not raise. *)
Definition try_register (env : gmap string string) (vars : list string)
    (key : string) (create : result CollectorObj) (collectors : Registry)
  : Registry :=
  if forallb (getenv_truthy env) vars then
    match create with
    | Ok collector => dict_set key collector collectors
    | Raise _ => collectors
    end
  else collectors.

Definition _initialize_collectors (env : gmap string string)
    (factories : Factories) : Registry :=
  let collectors := [] in
  let collectors :=
    try_register env ["TWITTER_BEARER_TOKEN"; "TWITTER_API_KEY"]
      "twitter" (create_twitter_collector factories) collectors in
  let collectors :=
    try_register env ["REDDIT_CLIENT_ID"; "REDDIT_CLIENT_SECRET"]
      "reddit" (create_reddit_collector factories) collectors in
  try_register env ["NEWS_API_KEY"]
    "news" (create_news_collector factories) collectors.

(** What [collect_all_data] produces: the returned dictionary and the
    local list [failed_collectors] (which the code logs). *)
Record Collected := {
  results : list (string * list Item);
  failed_collectors : list string
}.

Definition kwargs_of (l : list (string * pyval)) : Item := list_to_map l.

(** The configuration used when none is given. *)
Definition default_config : gmap string Item :=
  list_to_map
    [("twitter", kwargs_of [("query", PStr "#technology"); ("limit", PInt 50)]);
     ("reddit", kwargs_of [("subreddit", PStr "technology"); ("limit", PInt 50)]);
     ("news", kwargs_of [("query", PStr "artificial intelligence");
                         ("limit", PInt 50)])].

(** [_collect_from_source]: the collector's own retry mechanism; an
    exception is logged and re-raised.  The task starts at [now]. *)
Definition _collect_from_source (now : Q) (collector : CollectorObj)
    (config : Item) : Outcome :=
  fst (collect_with_retry (impl collector) config
         (fresh_run (state collector) now)).

(** The tasks handed to [asyncio.gather]: one per registered collector
    that has an entry in the configuration, in registry order.
    [gather(..., return_exceptions=True)] yields their outcomes in the
    same order. *)
Fixpoint collection_tasks (now : Q) (collection_config : gmap string Item)
    (collectors : Registry) : list Outcome :=
  match collectors with
  | [] => []
  | (collector_name, collector) :: rest =>
      match collection_config !! collector_name with
      | Some config =>
          _collect_from_source now collector config
            :: collection_tasks now collection_config rest
      | None => collection_tasks now collection_config rest
      end
  end.

(** The loop [for i, (collector_name, collector) in
    enumerate(self.collectors.items())]: [i] counts the registry
    entries, and [collection_results[i]] is read for each configured
    one. *)
Fixpoint read_results (collection_config : gmap string Item)
    (collection_results : list Outcome) (i : nat) (collectors : Registry)
    (acc : Collected) : result Collected :=
  match collectors with
  | [] => Ok acc
  | (collector_name, _) :: rest =>
      match collection_config !! collector_name with
      | Some _ =>
          match nth_error collection_results i with
          | None => Raise (Exn "IndexError" "list index out of range")
          | Some (Raised _) =>
              read_results collection_config collection_results (S i) rest
                {| results := dict_set collector_name [] (results acc);
                   failed_collectors :=
                     failed_collectors acc ++ [collector_name] |}
          | Some (Returned result) =>
              read_results collection_config collection_results (S i) rest
                {| results := dict_set collector_name result (results acc);
                   failed_collectors := failed_collectors acc |}
          | Some ReturnedNone =>
              Raise (Exn "TypeError" "object of type 'NoneType' has no len()")
          end
      | None =>
          read_results collection_config collection_results (S i) rest acc
      end
  end.

Definition collect_all_data (collectors : Registry)
    (collection_config : option (gmap string Item)) (now : Q)
  : result Collected :=
  let empty := {| results := []; failed_collectors := [] |} in
  match collectors with
  | [] => Ok empty
  | _ =>
      let collection_config :=
        match collection_config with
        | None => default_config
        | Some config => config
        end in
      let collection_results :=
        collection_tasks now collection_config collectors in
      match collection_results with
      | [] => Ok empty
      | _ => read_results collection_config collection_results O collectors
               empty
      end
  end.

(** The configuration built by [collect_technology_data]. *)
Definition technology_config (limit : Z) : gmap string Item :=
  let twitter_limit := Z.max (limit / 3) 10 in
  let reddit_limit := Z.max (limit / 3) 10 in
  let news_limit := Z.max (limit / 3) 10 in
  list_to_map
    [("twitter",
      kwargs_of [("query", PStr "#technology OR #AI OR #machinelearning");
                 ("limit", PInt twitter_limit)]);
     ("reddit",
      kwargs_of [("subreddit", PStr "technology"); ("limit", PInt reddit_limit)]);
     ("news",
      kwargs_of [("query", PStr "artificial intelligence technology");
                 ("limit", PInt news_limit)])].

Definition collect_technology_data (collectors : Registry) (limit : Z)
    (now : Q) : result Collected :=
  collect_all_data collectors (Some (technology_config limit)) now.

(** The configuration built by [collect_trending_data]. *)
Definition trending_config (limit : Z) : gmap string Item :=
  let twitter_limit := Z.max (limit / 3) 10 in
  let reddit_limit := Z.max (limit / 3) 10 in
  let news_limit := Z.max (limit / 3) 10 in
  list_to_map
    [("twitter", kwargs_of [("limit", PInt twitter_limit)]);
     ("reddit",
      kwargs_of [("subreddit", PStr "technology"); ("limit", PInt reddit_limit)]);
     ("news", kwargs_of [("limit", PInt news_limit)])].

Definition collect_trending_data (collectors : Registry) (limit : Z)
    (now : Q) : result Collected :=
  collect_all_data collectors (Some (trending_config limit)) now.

(** The per-source limit a configuration holds for [source]. *)
Definition configured_limit (config : gmap string Item) (source : string)
  : option pyval :=
  match config !! source with
  | Some kwargs => kwargs !! "limit"
  | None => None
  end.

(** The even split the description speaks of: [limit] divided by the
    number of registered sources, with a floor of ten. *)
Definition even_split_limit (collectors : Registry) (limit : Z) : Z :=
  Z.max (limit / Z.of_nat (List.length collectors)) 10.

(** The outcome of the task of one registry entry under a
    configuration. *)
Definition outcome_of (now : Q) (config : gmap string Item)
    (entry : string * CollectorObj) : Outcome :=
  match config !! fst entry with
  | Some kwargs => _collect_from_source now (snd entry) kwargs
  | None => ReturnedNone
  end.

Definition items_of (o : Outcome) : list Item :=
  match o with
  | Returned items => items
  | _ => []
  end.

Definition is_raised (o : Outcome) : bool :=
  match o with
  | Raised _ => true
  | _ => false
  end.

(** Sample environment and collectors: a client that answers with the
    given items, all credentials set, and the same without the Twitter
    ones. *)
Definition answering (items : list Item) : CollectorImpl :=
  {| collect_data := fun _ _ => Ok items;
     validate_data := fun _ => Ok true;
     transform_data := fun item => Ok item |}.

Definition sample_tweets : list Item :=
  [kwargs_of [("id", PStr "t1")]; kwargs_of [("id", PStr "t2")]].

Definition sample_articles : list Item :=
  [kwargs_of [("id", PStr "n1")]].

Definition sample_factories : Factories :=
  {| create_twitter_collector :=
       Ok {| impl := answering sample_tweets; state := init "twitter" 1 3 |};
     create_reddit_collector :=
       Ok {| impl := always_failing; state := init "reddit" 1 3 |};
     create_news_collector :=
       Ok {| impl := answering sample_articles; state := init "news" 1 3 |} |}.

Definition env_without_twitter : gmap string string :=
  list_to_map
    [("REDDIT_CLIENT_ID", "id"); ("REDDIT_CLIENT_SECRET", "secret");
     ("NEWS_API_KEY", "key")].

Definition full_env : gmap string string :=
  <["TWITTER_BEARER_TOKEN" := "token"]>
  (<["TWITTER_API_KEY" := "key"]> env_without_twitter).

(** *** Facts about ordered dictionaries *)

Lemma dict_set_fresh {V : Type} (k : string) (v : V) (d : list (string * V)) :
  k ∉ keys d -> dict_set k v d = d ++ [(k, v)].
Proof.
  induction d as [|[k' v'] d IH]; intros Hk; [reflexivity|].
  cbn in *. apply not_elem_of_cons in Hk as [Hne Hk].
  destruct (String.eqb_spec k k') as [->|_]; [congruence|].
  now rewrite IH.
Qed.

Lemma dict_get_is_Some {V : Type} (k : string) (d : list (string * V)) :
  is_Some (dict_get k d) <-> k ∈ keys d.
Proof.
  induction d as [|[k' v'] d IH]; cbn.
  - split; [intros [? ?]; discriminate | intros H; inversion H].
  - destruct (String.eqb_spec k k') as [->|Hne].
    + split; [intros _; left | eauto].
    + rewrite IH. split; [intros H; now right|].
      intros H. apply elem_of_cons in H as [?|?]; [congruence | assumption].
Qed.

Lemma dict_get_map {V W : Type} (f : string * V -> W) (k : string) (v : V)
    (d : list (string * V)) :
  dict_get k d = Some v ->
  dict_get k (List.map (fun e => (fst e, f e)) d) = Some (f (k, v)).
Proof.
  induction d as [|[k' v'] d IH]; cbn; [discriminate|].
  destruct (String.eqb_spec k k') as [->|Hne].
  - now intros [= ->].
  - exact IH.
Qed.

Lemma keys_map {V W : Type} (f : string * V -> W) (d : list (string * V)) :
  keys (List.map (fun e => (fst e, f e)) d) = keys d.
Proof.
  unfold keys. rewrite List.map_map. reflexivity.
Qed.

(** *** The registry built at start-up *)

Lemma initialize_keys (env : gmap string string) (factories : Factories) :
  NoDup (keys (_initialize_collectors env factories)) /\
  (List.length (keys (_initialize_collectors env factories)) <= 3)%nat.
Proof.
  unfold _initialize_collectors, try_register.
  destruct (forallb _ ["TWITTER_BEARER_TOKEN"; "TWITTER_API_KEY"]),
    (forallb _ ["REDDIT_CLIENT_ID"; "REDDIT_CLIENT_SECRET"]),
    (forallb _ ["NEWS_API_KEY"]),
    (create_twitter_collector factories),
    (create_reddit_collector factories),
    (create_news_collector factories);
    cbn; (split; [by compute_done | lia]).
Qed.

(** Three configured sources that are all registered are the whole
    registry. *)
Lemma configured_sources_cover (config : gmap string Item)
    (registered : list string) :
  NoDup registered ->
  (List.length registered <= 3)%nat ->
  size config = 3%nat ->
  (forall source, is_Some (config !! source) -> source ∈ registered) ->
  (forall source, source ∈ registered -> is_Some (config !! source)) /\
  List.length registered = 3%nat.
Proof.
  intros Hnd Hlen Hsize Hsub.
  assert (Heq : dom config = list_to_set (C := gset string) registered).
  { apply set_subseteq_size_eq.
    - intros source Hs. apply elem_of_dom in Hs.
      apply elem_of_list_to_set. auto.
    - rewrite size_dom, Hsize, size_list_to_set by assumption. exact Hlen. }
  split.
  - intros source Hs. apply elem_of_dom. rewrite Heq.
    now apply elem_of_list_to_set.
  - rewrite <- (size_list_to_set (C := gset string)) by assumption.
    now rewrite <- Heq, size_dom.
Qed.

(** *** Reading the gathered results *)

(** When every registered collector is configured, the tasks are listed
    in registry order and [collection_results[i]] is the outcome of the
    [i]-th registry entry. *)
Lemma read_results_aligned (now : Q) (config : gmap string Item) :
  forall (rest : Registry) (before : list Outcome) (acc : Collected),
    (forall entry, entry ∈ rest ->
       is_Some (config !! fst entry) /\
       outcome_of now config entry <> ReturnedNone) ->
    NoDup (keys (results acc) ++ keys rest) ->
    read_results config (before ++ collection_tasks now config rest)
      (List.length before) rest acc
    = Ok {| results :=
              results acc
              ++ List.map
                   (fun entry =>
                      (fst entry, items_of (outcome_of now config entry)))
                   rest;
            failed_collectors :=
              failed_collectors acc
              ++ keys (List.filter
                         (fun entry => is_raised (outcome_of now config entry))
                         rest) |}.
Proof.
  induction rest as [|[collector_name collector] rest IH];
    intros before acc Hcfg Hnd.
  - cbn. rewrite !app_nil_r. now destruct acc.
  - destruct (Hcfg (collector_name, collector) ltac:(left)) as [[kw Hkw] Hnone].
    unfold outcome_of in Hnone. cbn [fst snd] in Hnone, Hkw.
    rewrite Hkw in Hnone.
    assert (Hrest : forall entry, entry ∈ rest ->
              is_Some (config !! fst entry) /\
              outcome_of now config entry <> ReturnedNone)
      by (intros entry He; apply Hcfg; now right).
    assert (Hfresh : collector_name ∉ keys (results acc)).
    { cbn in Hnd. apply NoDup_app in Hnd as (_ & Hdisj & _).
      intros Hin. apply (Hdisj _ Hin). left. }
    assert (Hnd' : forall v,
              NoDup (keys (results acc ++ [(collector_name, v)]) ++ keys rest)).
    { intros v. unfold keys in *. rewrite List.map_app. cbn.
      rewrite <- app_assoc. exact Hnd. }
    cbn [collection_tasks read_results]. rewrite Hkw.
    rewrite nth_error_app2, Nat.sub_diag by lia. cbn [nth_error].
    replace (before ++ _collect_from_source now collector kw
                         :: collection_tasks now config rest)
      with ((before ++ [_collect_from_source now collector kw])
              ++ collection_tasks now config rest)
      by (now rewrite <- app_assoc).
    replace (S (List.length before))
      with (List.length (before ++ [_collect_from_source now collector kw]))
      by (rewrite List.length_app; cbn; lia).
    assert (Ho : outcome_of now config (collector_name, collector)
                 = _collect_from_source now collector kw)
      by (unfold outcome_of; cbn [fst snd]; now rewrite Hkw).
    cbn [List.map List.filter fst]. rewrite Ho.
    destruct (_collect_from_source now collector kw) as [items| |e] eqn:Eo;
      [| congruence |].
    + rewrite IH; cbn [results failed_collectors];
        rewrite ?dict_set_fresh by assumption; [| assumption | apply Hnd'].
      cbn [items_of is_raised]. now rewrite <- app_assoc.
    + rewrite IH; cbn [results failed_collectors];
        rewrite ?dict_set_fresh by assumption; [| assumption | apply Hnd'].
      cbn [items_of is_raised keys List.map fst].
      now rewrite <- !app_assoc.
Qed.

Lemma dict_get_elem {V : Type} (k : string) (v : V) (d : list (string * V)) :
  NoDup (keys d) -> (k, v) ∈ d -> dict_get k d = Some v.
Proof.
  induction d as [|[k' v'] d IH]; cbn; intros Hnd Hin; [inversion Hin|].
  apply NoDup_cons in Hnd as [Hk' Hnd].
  apply elem_of_cons in Hin as [[= -> ->]|Hin].
  - now rewrite String.eqb_refl.
  - destruct (String.eqb_spec k k') as [->|_]; [|auto].
    exfalso. apply Hk'. unfold keys.
    apply list_elem_of_fmap. now exists (k', v).
Qed.

Lemma dict_get_Some_elem {V : Type} (k : string) (v : V)
    (d : list (string * V)) :
  dict_get k d = Some v -> (k, v) ∈ d.
Proof.
  induction d as [|[k' v'] d IH]; cbn; [discriminate|].
  destruct (String.eqb_spec k k') as [->|_].
  - intros [= ->]. left.
  - intros H. right. auto.
Qed.

Lemma filter_none {A : Type} (P : A -> bool) (l : list A) :
  (forall x, x ∈ l -> P x = false) -> List.filter P l = [].
Proof.
  induction l as [|x l IH]; intros H; [reflexivity|].
  cbn. rewrite (H x) by left. apply IH. intros y Hy. apply H. now right.
Qed.

Lemma keys_filter_unique {V : Type} (P : string * V -> bool) (k : string)
    (d : list (string * V)) :
  NoDup (keys d) -> k ∈ keys d ->
  (forall e, e ∈ d -> (P e = true <-> fst e = k)) ->
  keys (List.filter P d) = [k].
Proof.
  induction d as [|[k' v'] d IH]; cbn; intros Hnd Hk HP; [inversion Hk|].
  apply NoDup_cons in Hnd as [Hk' Hnd].
  destruct (P (k', v')) eqn:EP.
  - apply (HP (k', v')) in EP; [|left]. cbn in EP. subst k'.
    cbn. f_equal. fold (keys (List.filter P d)).
    rewrite filter_none; [reflexivity|].
    intros [k2 v2] He. destruct (P (k2, v2)) eqn:E2; [|reflexivity].
    apply HP in E2; [|now right]. cbn in E2. subst k2.
    exfalso. apply Hk'. unfold keys. apply list_elem_of_fmap.
    now exists (k, v2).
  - apply elem_of_cons in Hk as [->|Hk].
    + assert (P (k', v') = true) by (apply HP; [left | reflexivity]).
      congruence.
    + apply IH; [assumption | assumption |].
      intros e He. apply HP. now right.
Qed.

Lemma three_sources_lookup (a b c : Item) (source : string) :
  is_Some ((list_to_map [("twitter", a); ("reddit", b); ("news", c)]
              : gmap string Item) !! source) ->
  source = "twitter" \/ source = "reddit" \/ source = "news".
Proof.
  cbn. intros [v H].
  repeat (apply lookup_insert_Some in H as [[<- _] | [_ H]]; [tauto|]).
  rewrite lookup_empty in H. discriminate.
Qed.

Lemma initialize_keys_known (env : gmap string string)
    (factories : Factories) (source : string) :
  source ∈ keys (_initialize_collectors env factories) ->
  source = "twitter" \/ source = "reddit" \/ source = "news".
Proof.
  unfold _initialize_collectors, try_register.
  destruct (forallb _ ["TWITTER_BEARER_TOKEN"; "TWITTER_API_KEY"]),
    (forallb _ ["REDDIT_CLIENT_ID"; "REDDIT_CLIENT_SECRET"]),
    (forallb _ ["NEWS_API_KEY"]),
    (create_twitter_collector factories),
    (create_reddit_collector factories),
    (create_news_collector factories);
    cbn; intros H;
    repeat (apply elem_of_cons in H as [->|H]; [tauto|]);
    inversion H.
Qed.

(** C2.  Three configured sources, all registered; the task of [bad]
    raises and the two others return.  Then [collect_all_data] returns
    (it does not raise), the result has exactly three keys, [bad] maps to
    the empty list, [failed_collectors] is exactly [[bad]], and each other
    source maps to the very list its collector returned. *)
Theorem collect_all_data_isolates_failing_source :
  forall (env : gmap string string) (factories : Factories)
         (config : gmap string Item) (now : Q) (bad : string),
    let collectors := _initialize_collectors env factories in
    size config = 3%nat ->
    (forall source,
       is_Some (config !! source) -> is_Some (dict_get source collectors)) ->
    is_Some (config !! bad) ->
    (forall source collector kwargs,
       dict_get source collectors = Some collector ->
       config !! source = Some kwargs ->
       if String.eqb source bad
       then exists e, _collect_from_source now collector kwargs = Raised e
       else exists items,
              _collect_from_source now collector kwargs = Returned items) ->
    exists r,
      collect_all_data collectors (Some config) now = Ok r /\
      List.length (results r) = 3%nat /\
      NoDup (keys (results r)) /\
      dict_get bad (results r) = Some [] /\
      failed_collectors r = [bad] /\
      (forall source collector kwargs items,
         source <> bad ->
         dict_get source collectors = Some collector ->
         config !! source = Some kwargs ->
         _collect_from_source now collector kwargs = Returned items ->
         dict_get source (results r) = Some items).
Proof.
  intros env factories config now bad collectors Hsize Hreg Hbad Hout.
  destruct (initialize_keys env factories) as [Hnd Hlen].
  fold collectors in Hnd, Hlen.
  destruct (configured_sources_cover config (keys collectors) Hnd Hlen Hsize)
    as [Hall Hthree].
  { intros source Hs. apply dict_get_is_Some. auto. }
  assert (Houtcome : forall entry, entry ∈ collectors ->
            exists kwargs,
              config !! fst entry = Some kwargs /\
              dict_get (fst entry) collectors = Some (snd entry) /\
              outcome_of now config entry
              = _collect_from_source now (snd entry) kwargs).
  { intros [source collector] He. cbn [fst snd].
    destruct (Hall source) as [kwargs Hkw].
    { unfold keys. apply list_elem_of_fmap. now exists (source, collector). }
    exists kwargs. split; [exact Hkw|].
    split; [now apply dict_get_elem|].
    unfold outcome_of. cbn [fst snd]. now rewrite Hkw. }
  assert (Hraised : forall entry, entry ∈ collectors ->
            (is_raised (outcome_of now config entry) = true <-> fst entry = bad)).
  { intros entry He.
    destruct (Houtcome entry He) as (kwargs & Hkw & Hget & ->).
    specialize (Hout _ _ _ Hget Hkw).
    destruct (String.eqb_spec (fst entry) bad) as [Heq|Hne].
    - destruct Hout as [e ->]. cbn. tauto.
    - destruct Hout as [items ->]. cbn. split; [discriminate | tauto]. }
  assert (Hpre : forall entry, entry ∈ collectors ->
            is_Some (config !! fst entry) /\
            outcome_of now config entry <> ReturnedNone).
  { intros entry He.
    destruct (Houtcome entry He) as (kwargs & Hkw & Hget & Ho).
    split; [eauto|]. rewrite Ho.
    specialize (Hout _ _ _ Hget Hkw).
    destruct (String.eqb (fst entry) bad); destruct Hout as [x Hx];
      rewrite Hx; discriminate. }
  pose proof (read_results_aligned now config collectors []
                {| results := []; failed_collectors := [] |} Hpre Hnd)
    as Hread.
  cbn [List.length app results failed_collectors keys List.map] in Hread.
  eexists. split.
  { unfold collect_all_data.
    destruct collectors as [|entry rest] eqn:Ec; [discriminate Hthree|].
    rewrite <- Ec in *.
    destruct (collection_tasks now config collectors) as [|o os] eqn:Et.
    - exfalso. rewrite Ec in Et. destruct entry as [source collector].
      cbn in Et. destruct (Hall source) as [kwargs Hkw].
      { rewrite Ec. left. }
      rewrite Hkw in Et. discriminate.
    - exact Hread. }
  cbn [results failed_collectors].
  assert (Hbad_in : bad ∈ keys collectors).
  { apply dict_get_is_Some. auto. }
  split; [rewrite List.length_map; unfold keys in Hthree;
          now rewrite List.length_map in Hthree|].
  split; [now rewrite keys_map|].
  split.
  { apply dict_get_is_Some in Hbad_in as [collector Hget].
    rewrite (dict_get_map _ _ _ _ Hget).
    apply dict_get_Some_elem in Hget as He.
    destruct (Houtcome _ He) as (kwargs & Hkw & _ & ->). cbn [fst snd] in *.
    specialize (Hout _ _ _ Hget Hkw). rewrite String.eqb_refl in Hout.
    destruct Hout as [e ->]. reflexivity. }
  split; [now apply keys_filter_unique|].
  intros source collector kwargs items Hne Hget Hkw Hrun.
  rewrite (dict_get_map _ _ _ _ Hget).
  unfold outcome_of. cbn [fst snd]. now rewrite Hkw, Hrun.
Qed.

(** All credentials set, the default configuration, and a Reddit client
    that refuses every connection. *)
Lemma collect_all_data_isolates_failing_source_witness :
  exists r,
    collect_all_data (_initialize_collectors full_env sample_factories)
      (Some default_config) 0 = Ok r /\
    List.length (results r) = 3%nat /\
    dict_get "reddit" (results r) = Some [] /\
    failed_collectors r = ["reddit"].
Proof.
  destruct (collect_all_data_isolates_failing_source
              full_env sample_factories default_config 0 "reddit")
    as (r & Hrun & Hlen & _ & Hbad & Hfailed & _).
  - reflexivity.
  - intros source Hs.
    destruct (three_sources_lookup _ _ _ _ Hs) as [-> | [-> | ->]];
      cbn; eauto.
  - cbn. eauto.
  - intros source collector kwargs Hget _.
    apply dict_get_Some_elem in Hget.
    repeat (apply elem_of_cons in Hget as [[= -> ->]|Hget];
            [cbn; eexists; reflexivity|]).
    inversion Hget.
  - exists r. auto.
Defined.

(** C10, as the code has it.  [collect_technology_data] and
    [collect_trending_data] only build a configuration and delegate to
    [collect_all_data]; every registered source is given
    [max(limit // 3, 10)], whatever the number of registered sources.
    With all three sources registered this is the even split. *)
Theorem convenience_collections_split_by_three :
  forall (env : gmap string string) (factories : Factories)
         (limit : Z) (now : Q),
    let collectors := _initialize_collectors env factories in
    collect_technology_data collectors limit now
    = collect_all_data collectors (Some (technology_config limit)) now /\
    collect_trending_data collectors limit now
    = collect_all_data collectors (Some (trending_config limit)) now /\
    (forall source,
       source ∈ keys collectors ->
       configured_limit (technology_config limit) source
       = Some (PInt (Z.max (limit / 3) 10)) /\
       configured_limit (trending_config limit) source
       = Some (PInt (Z.max (limit / 3) 10))) /\
    (List.length collectors = 3%nat ->
     forall source,
       source ∈ keys collectors ->
       configured_limit (technology_config limit) source
       = Some (PInt (even_split_limit collectors limit)) /\
       configured_limit (trending_config limit) source
       = Some (PInt (even_split_limit collectors limit))).
Proof.
  intros env factories limit now collectors.
  assert (Hlimits : forall source,
            source ∈ keys collectors ->
            configured_limit (technology_config limit) source
            = Some (PInt (Z.max (limit / 3) 10)) /\
            configured_limit (trending_config limit) source
            = Some (PInt (Z.max (limit / 3) 10))).
  { intros source Hs.
    destruct (initialize_keys_known env factories source Hs) as [-> | [-> | ->]];
      split; reflexivity. }
  split; [reflexivity|]. split; [reflexivity|]. split; [exact Hlimits|].
  intros Hthree source Hs. unfold even_split_limit. rewrite Hthree.
  exact (Hlimits source Hs).
Qed.

(** C10, as stated, fails: with the Twitter credentials missing two
    sources are registered, and a limit of 100 gives each of them 33, not
    the even split of 50. *)
Lemma even_split_fails_with_two_sources :
  keys (_initialize_collectors env_without_twitter sample_factories)
  = ["reddit"; "news"] /\
  configured_limit (technology_config 100) "reddit" = Some (PInt 33) /\
  configured_limit (trending_config 100) "reddit" = Some (PInt 33) /\
  even_split_limit
    (_initialize_collectors env_without_twitter sample_factories) 100 = 50%Z /\
  configured_limit (technology_config 100) "reddit"
  <> Some (PInt (even_split_limit
                   (_initialize_collectors env_without_twitter
                      sample_factories) 100)).
Proof.
  repeat split; try reflexivity. intros H. vm_compute in H. discriminate H.
Qed.

(** ** More of the orchestrator: the registry, partial configurations
       and health checks *)

(** [health_check_all]: one entry per registered collector, in registry
    order.  [BaseCollector.health_check] catches what the client raises,
    so the handler of the loop is never entered. *)
Fixpoint health_check_all_from (collectors : Registry)
    (health_results : list (string * bool)) : list (string * bool) :=
  match collectors with
  | [] => health_results
  | (collector_name, collector) :: rest =>
      let health_status :=
        fst (health_check (impl collector) (state collector)) in
      health_check_all_from rest
        (dict_set collector_name health_status health_results)
  end.

Definition health_check_all (collectors : Registry) : list (string * bool) :=
  health_check_all_from collectors [].

(** The credentials of each source are set and not empty. *)
Definition twitter_credentials (env : gmap string string) : bool :=
  getenv_truthy env "TWITTER_BEARER_TOKEN" && getenv_truthy env "TWITTER_API_KEY".

Definition reddit_credentials (env : gmap string string) : bool :=
  getenv_truthy env "REDDIT_CLIENT_ID" && getenv_truthy env "REDDIT_CLIENT_SECRET".

Definition news_credentials (env : gmap string string) : bool :=
  getenv_truthy env "NEWS_API_KEY".

(** X14.  A source is registered exactly when its credential variables are
    all set and not empty and its factory does not raise; a factory
    that raises does not keep the other sources from being registered.
    The registry lists them in the order twitter, reddit, news. *)
Theorem registry_holds_the_sources_with_credentials :
  forall (env : gmap string string) (factories : Factories),
    let collectors := _initialize_collectors env factories in
    keys collectors
    = (if twitter_credentials env && is_ok (create_twitter_collector factories)
       then ["twitter"] else [])
      ++ (if reddit_credentials env && is_ok (create_reddit_collector factories)
          then ["reddit"] else [])
      ++ (if news_credentials env && is_ok (create_news_collector factories)
          then ["news"] else []) /\
    (forall c, dict_get "twitter" collectors = Some c <->
       twitter_credentials env = true /\
       create_twitter_collector factories = Ok c) /\
    (forall c, dict_get "reddit" collectors = Some c <->
       reddit_credentials env = true /\
       create_reddit_collector factories = Ok c) /\
    (forall c, dict_get "news" collectors = Some c <->
       news_credentials env = true /\
       create_news_collector factories = Ok c).
Proof.
  intros env factories. cbn zeta.
  unfold _initialize_collectors, try_register, twitter_credentials,
    reddit_credentials, news_credentials. cbn [forallb].
  destruct (getenv_truthy env "TWITTER_BEARER_TOKEN"),
    (getenv_truthy env "TWITTER_API_KEY"),
    (getenv_truthy env "REDDIT_CLIENT_ID"),
    (getenv_truthy env "REDDIT_CLIENT_SECRET"),
    (getenv_truthy env "NEWS_API_KEY"),
    (create_twitter_collector factories),
    (create_reddit_collector factories),
    (create_news_collector factories);
    cbn; (split; [reflexivity|]);
    repeat split; intros; intuition congruence.
Qed.

(** *** Partial configurations *)

Lemma collection_tasks_app (now : Q) (config : gmap string Item)
    (a b : Registry) :
  collection_tasks now config (a ++ b)
  = collection_tasks now config a ++ collection_tasks now config b.
Proof.
  induction a as [|[collector_name collector] a IH]; [reflexivity|].
  cbn [app collection_tasks].
  destruct (config !! collector_name); [cbn; now rewrite IH | exact IH].
Qed.

Lemma collection_tasks_length (now : Q) (config : gmap string Item)
    (collectors : Registry) :
  (List.length (collection_tasks now config collectors)
   <= List.length collectors)%nat.
Proof.
  induction collectors as [|[collector_name collector] rest IH]; [cbn; lia|].
  cbn [collection_tasks]. destruct (config !! collector_name); cbn; lia.
Qed.

Lemma collection_tasks_unconfigured (now : Q) (config : gmap string Item)
    (collectors : Registry) :
  (forall entry, entry ∈ collectors -> config !! fst entry = None) ->
  collection_tasks now config collectors = [].
Proof.
  induction collectors as [|[collector_name collector] rest IH]; intros H;
    [reflexivity|].
  cbn [collection_tasks].
  pose proof (H (collector_name, collector) ltac:(left)) as Hx.
  cbn [fst] in Hx. rewrite Hx.
  apply IH. intros entry He. apply H. now right.
Qed.

Lemma last_configured (config : gmap string Item) (collectors : Registry) :
  (exists entry, entry ∈ collectors /\ is_Some (config !! fst entry)) ->
  exists before last after,
    collectors = before ++ last :: after /\
    is_Some (config !! fst last) /\
    (forall entry, entry ∈ after -> config !! fst entry = None).
Proof.
  induction collectors as [|x l IH] using rev_ind.
  - intros (entry & He & _). inversion He.
  - intros (entry & He & Hcfg).
    destruct (config !! fst x) as [kw|] eqn:Ex.
    + exists l, x, []. split; [reflexivity|]. split; [rewrite Ex; eauto|].
      intros e H. inversion H.
    + apply elem_of_app in He as [He | He].
      * destruct IH as (before & last & after & -> & Hl & Ha); [eauto|].
        exists before, last, (after ++ [x]).
        split; [now rewrite <- app_assoc|]. split; [exact Hl|].
        intros e H. apply elem_of_app in H as [H | H]; [auto|].
        apply list_elem_of_singleton in H as ->. exact Ex.
      * apply list_elem_of_singleton in He as ->. rewrite Ex in Hcfg.
        destruct Hcfg as [? ?]. discriminate.
Qed.

Lemma read_results_past_end (config : gmap string Item)
    (collection_results : list Outcome) :
  forall (collectors : Registry) (i : nat) (acc : Collected),
    (List.length collection_results <= i)%nat ->
    (exists entry, entry ∈ collectors /\ is_Some (config !! fst entry)) ->
    read_results config collection_results i collectors acc
    = Raise (Exn "IndexError" "list index out of range").
Proof.
  induction collectors as [|[collector_name collector] rest IH];
    intros i acc Hi (entry & He & Hcfg).
  - inversion He.
  - cbn [read_results].
    destruct (config !! collector_name) as [kw|] eqn:Ek.
    + now rewrite (proj2 (nth_error_None collection_results i) Hi).
    + apply IH; [lia|]. exists entry. split; [|exact Hcfg].
      apply elem_of_cons in He as [-> | He]; [|exact He].
      cbn in Hcfg. rewrite Ek in Hcfg. destruct Hcfg as [? ?]. discriminate.
Qed.

Lemma read_results_prefix (config : gmap string Item)
    (collection_results : list Outcome) (after : Registry) :
  forall (before : Registry) (i : nat) (acc : Collected),
    (exists e,
       read_results config collection_results i (before ++ after) acc
       = Raise e) \/
    (exists acc',
       read_results config collection_results i (before ++ after) acc
       = read_results config collection_results
           (i + List.length before) after acc').
Proof.
  induction before as [|[collector_name collector] before IH]; intros i acc.
  - right. exists acc. cbn. now rewrite Nat.add_0_r.
  - cbn [app read_results List.length].
    replace (i + S (List.length before))%nat
      with (S i + List.length before)%nat by lia.
    destruct (config !! collector_name); [|apply IH].
    destruct (nth_error collection_results i) as [[items| |e]|];
      [apply IH | left; eauto | apply IH | left; eauto].
Qed.

(** X15.  [collect_all_data] reads the gathered results by the position of
    the collector in the registry, while the tasks are numbered among
    the configured collectors only.  So when a registered collector has
    no entry in the configuration and a collector registered after it
    has one, the call raises instead of returning (a configuration for
    news alone, with Twitter registered, is enough). *)
Theorem configured_after_unconfigured_raises :
  forall (collectors : Registry) (config : gmap string Item) (now : Q)
         (before : Registry) (skipped : string * CollectorObj)
         (after : Registry),
    collectors = before ++ skipped :: after ->
    config !! fst skipped = None ->
    (exists entry, entry ∈ after /\ is_Some (config !! fst entry)) ->
    exists e, collect_all_data collectors (Some config) now = Raise e.
Proof.
  intros collectors config now before skipped after -> Hskip Hlater.
  destruct (last_configured config after Hlater)
    as (mid & last & tail & -> & Hlast & Htail).
  set (front := before ++ skipped :: mid).
  assert (Hreg : before ++ skipped :: mid ++ last :: tail
                 = front ++ last :: tail)
    by (unfold front; now rewrite <- app_assoc).
  rewrite Hreg.
  assert (Hfront : (List.length (collection_tasks now config front)
                    < List.length front)%nat).
  { unfold front. rewrite collection_tasks_app, !List.length_app.
    destruct skipped as [skipped_name skipped_collector].
    cbn [fst] in Hskip. cbn [collection_tasks List.length]. rewrite Hskip.
    pose proof (collection_tasks_length now config before).
    pose proof (collection_tasks_length now config mid). lia. }
  destruct last as [last_name last_collector].
  destruct Hlast as [kw Hkw]. cbn [fst] in Hkw.
  assert (Htasks : collection_tasks now config (front ++ (last_name, last_collector) :: tail)
                   = collection_tasks now config front
                     ++ [_collect_from_source now last_collector kw]).
  { rewrite collection_tasks_app. cbn [collection_tasks]. rewrite Hkw.
    now rewrite (collection_tasks_unconfigured now config tail Htail). }
  unfold collect_all_data. rewrite Htasks. clear Htasks.
  destruct (front ++ (last_name, last_collector) :: tail) as [|x l] eqn:El;
    [now destruct front|].
  rewrite <- El.
  destruct (collection_tasks now config front
            ++ [_collect_from_source now last_collector kw]) as [|o os] eqn:Et;
    [now destruct (collection_tasks now config front)|].
  rewrite <- Et.
  destruct (read_results_prefix config
              (collection_tasks now config front
               ++ [_collect_from_source now last_collector kw])
              ((last_name, last_collector) :: tail) front O
              {| results := []; failed_collectors := [] |})
    as [[e He] | [acc' Hacc]].
  - exists e. exact He.
  - rewrite Hacc. eexists. apply read_results_past_end.
    + rewrite List.length_app. cbn. lia.
    + exists (last_name, last_collector). split; [left|]. cbn. rewrite Hkw.
      eauto.
Qed.

Lemma configured_after_unconfigured_raises_witness :
  exists e,
    collect_all_data (_initialize_collectors full_env sample_factories)
      (Some (<["news" := kwargs_of [("limit", PInt 10)]]> ∅)) 0
    = Raise e.
Proof.
  apply (configured_after_unconfigured_raises
           (_initialize_collectors full_env sample_factories)
           (<["news" := kwargs_of [("limit", PInt 10)]]> ∅) 0
           []
           ("twitter",
            {| impl := answering sample_tweets; state := init "twitter" 1 3 |})
           [("reddit",
             {| impl := always_failing; state := init "reddit" 1 3 |});
            ("news",
             {| impl := answering sample_articles;
                state := init "news" 1 3 |})]).
  - reflexivity.
  - reflexivity.
  - eexists. split; [right; left|]. cbn. eauto.
Defined.

(** *** Full configurations *)

Lemma collect_all_data_aligned (collectors : Registry)
    (config : gmap string Item) (now : Q) :
  NoDup (keys collectors) ->
  (forall entry, entry ∈ collectors ->
     is_Some (config !! fst entry) /\
     outcome_of now config entry <> ReturnedNone) ->
  collect_all_data collectors (Some config) now
  = Ok {| results :=
            List.map
              (fun entry => (fst entry, items_of (outcome_of now config entry)))
              collectors;
          failed_collectors :=
            keys (List.filter
                    (fun entry => is_raised (outcome_of now config entry))
                    collectors) |}.
Proof.
  intros Hnd Hpre.
  pose proof (read_results_aligned now config collectors []
                {| results := []; failed_collectors := [] |} Hpre Hnd)
    as Hread.
  cbn [List.length app results failed_collectors keys List.map] in Hread.
  unfold collect_all_data. destruct collectors as [|entry rest] eqn:Ec.
  - reflexivity.
  - rewrite <- Ec in *.
    destruct (collection_tasks now config collectors) as [|o os] eqn:Et;
      [|exact Hread].
    exfalso. rewrite Ec in Et. destruct entry as [source collector].
    destruct (Hpre (source, collector)) as [[kw Hkw] _];
      [rewrite Ec; left|].
    cbn in Et, Hkw. rewrite Hkw in Et. discriminate.
Qed.

Lemma collect_all_data_default (collectors : Registry) (now : Q) :
  collect_all_data collectors None now
  = collect_all_data collectors (Some default_config) now.
Proof. reflexivity. Qed.

Lemma known_source_configured (limit : Z) (source : string) :
  source = "twitter" \/ source = "reddit" \/ source = "news" ->
  is_Some (default_config !! source) /\
  is_Some (technology_config limit !! source) /\
  is_Some (trending_config limit !! source).
Proof.
  intros [-> | [-> | ->]]; repeat split; eexists; reflexivity.
Qed.

Lemma outcome_with_retries (now : Q) (config : gmap string Item)
    (entry : string * CollectorObj) :
  is_Some (config !! fst entry) ->
  (1 <= max_retries (state (snd entry)))%Z ->
  outcome_of now config entry <> ReturnedNone.
Proof.
  intros [kw Hkw] Hmax. unfold outcome_of, _collect_from_source.
  rewrite Hkw. apply collect_with_retry_never_none. exact Hmax.
Qed.

(** X16.  When every registered collector has an entry in the configuration
    and allows at least one attempt, [collect_all_data] returns, however
    many sources fail: the result has exactly the registry's keys, in
    registry order; a source maps to the items its collector returned,
    or to the empty list when it raised, and the sources that raised are
    exactly the failed collectors. *)
Theorem collect_all_data_returns_when_all_configured :
  forall (collectors : Registry) (config : gmap string Item) (now : Q),
    NoDup (keys collectors) ->
    (forall entry, entry ∈ collectors ->
       is_Some (config !! fst entry) /\
       (1 <= max_retries (state (snd entry)))%Z) ->
    exists r,
      collect_all_data collectors (Some config) now = Ok r /\
      keys (results r) = keys collectors /\
      (forall source collector kwargs,
         dict_get source collectors = Some collector ->
         config !! source = Some kwargs ->
         dict_get source (results r)
         = Some (items_of (_collect_from_source now collector kwargs)) /\
         (source ∈ failed_collectors r <->
          is_raised (_collect_from_source now collector kwargs) = true)).
Proof.
  intros collectors config now Hnd Hcfg.
  assert (Hpre : forall entry, entry ∈ collectors ->
            is_Some (config !! fst entry) /\
            outcome_of now config entry <> ReturnedNone).
  { intros entry He. destruct (Hcfg entry He) as [Hkw Hmax].
    split; [exact Hkw | now apply outcome_with_retries]. }
  eexists. split; [|split].
  - apply collect_all_data_aligned; assumption.
  - cbn [results]. apply keys_map.
  - intros source collector kwargs Hget Hkw.
    cbn [results failed_collectors]. split.
    + rewrite (dict_get_map _ _ _ _ Hget). unfold outcome_of. cbn [fst snd].
      now rewrite Hkw.
    + unfold keys. rewrite list_elem_of_fmap. split.
      * intros [[source' collector'] [Hs He]]. cbn [fst] in Hs. subst source'.
        apply list_elem_of_In, filter_In in He as [He Hr].
        apply list_elem_of_In in He.
        rewrite (dict_get_elem _ _ _ Hnd He) in Hget.
        injection Hget as <-. unfold outcome_of in Hr. cbn [fst snd] in Hr.
        now rewrite Hkw in Hr.
      * intros Hr. exists (source, collector). split; [reflexivity|].
        apply list_elem_of_In, filter_In. split.
        -- apply list_elem_of_In. now apply dict_get_Some_elem.
        -- unfold outcome_of. cbn [fst snd]. now rewrite Hkw.
Qed.

Lemma collect_all_data_returns_when_all_configured_witness :
  exists r,
    collect_all_data
      [("reddit", {| impl := always_failing; state := init "reddit" 1 3 |})]
      (Some default_config) 0 = Ok r /\
    keys (results r) = ["reddit"].
Proof.
  destruct (collect_all_data_returns_when_all_configured
              [("reddit",
                {| impl := always_failing; state := init "reddit" 1 3 |})]
              default_config 0)
    as (r & Hr & Hk & _).
  - by compute_done.
  - intros entry He. apply list_elem_of_singleton in He as ->.
    split; [cbn; eauto | cbn; lia].
  - exists r. auto.
Defined.

(** *** Health checks *)

Lemma health_check_all_from_spec :
  forall (collectors : Registry) (health_results : list (string * bool)),
    NoDup (keys health_results ++ keys collectors) ->
    health_check_all_from collectors health_results
    = health_results
      ++ List.map
           (fun entry =>
              (fst entry,
               fst (health_check (impl (snd entry)) (state (snd entry)))))
           collectors.
Proof.
  induction collectors as [|[collector_name collector] rest IH];
    intros health_results Hnd.
  - cbn. now rewrite app_nil_r.
  - cbn [health_check_all_from List.map fst snd].
    assert (Hfresh : collector_name ∉ keys health_results).
    { cbn in Hnd. apply NoDup_app in Hnd as (_ & Hdisj & _).
      intros Hin. apply (Hdisj _ Hin). left. }
    rewrite dict_set_fresh by exact Hfresh.
    rewrite IH; [now rewrite <- app_assoc|].
    unfold keys in *. rewrite List.map_app. cbn.
    rewrite <- app_assoc. exact Hnd.
Qed.

(** X17.  [health_check_all] reports on every registered collector, in
    registry order, and never raises: a collector is healthy exactly
    when one request for a single item through its client returns.  The
    check goes around the retry loop and the throttle, and leaves the
    collection and error counters as they were. *)
Theorem health_check_all_reports_every_collector :
  forall (env : gmap string string) (factories : Factories),
    let collectors := _initialize_collectors env factories in
    keys (health_check_all collectors) = keys collectors /\
    (forall source collector,
       dict_get source collectors = Some collector ->
       dict_get source (health_check_all collectors)
       = Some (is_ok (collect_data (impl collector)
                        (calls_made (state collector))
                        (<["limit" := PInt 1]> ∅))) /\
       let after := snd (health_check (impl collector) (state collector)) in
       collection_count after = collection_count (state collector) /\
       error_count after = error_count (state collector) /\
       last_collection after = last_collection (state collector)).
Proof.
  intros env factories. cbn zeta.
  destruct (initialize_keys env factories) as [Hnd _].
  set (collectors := _initialize_collectors env factories) in *.
  unfold health_check_all.
  rewrite (health_check_all_from_spec collectors [] Hnd). cbn [app].
  split; [apply keys_map|].
  intros source collector Hget. split.
  - rewrite (dict_get_map
               (fun entry =>
                  fst (health_check (impl (snd entry)) (state (snd entry))))
               _ _ _ Hget).
    cbn [snd]. unfold health_check.
    now destruct (collect_data (impl collector) _ _).
  - unfold health_check.
    destruct (collect_data (impl collector) _ _); cbn; auto.
Qed.

End Orchestrator.

(** * src/storage/data_quality.py *)

Module DataQuality.

(** ** Python operations on payload values *)

(** Truth value of a payload value ([if value:]). *)
Definition truthy (v : pyval) : bool :=
  match v with
  | PNone => false
  | PBool b => b
  | PInt z => negb (z =? 0)%Z
  | PFloat f => negb (PrimFloat.eqb f 0%float)
  | PStr s => negb (String.eqb s "")
  | PDatetime _ => true
  | PList l => match l with [] => false | _ => true end
  | PDict d => match d with [] => false | _ => true end
  end.

Definition is_none (v : pyval) : bool :=
  match v with
  | PNone => true
  | _ => false
  end.

(** [isinstance(v, str)]. *)
Definition isinstance_str (v : pyval) : bool :=
  match v with
  | PStr _ => true
  | _ => false
  end.

(** [isinstance(v, int)]; [bool] is a subclass of [int]. *)
Definition isinstance_int (v : pyval) : bool :=
  match v with
  | PInt _ | PBool _ => true
  | _ => false
  end.

(** [isinstance(v, (int, float))]. *)
Definition isinstance_number (v : pyval) : bool :=
  match v with
  | PInt _ | PBool _ | PFloat _ => true
  | _ => false
  end.

(** [isinstance(v, (int, float)) and v >= 0]. *)
Definition nonnegative_number (v : pyval) : bool :=
  match v with
  | PInt z => (0 <=? z)%Z
  | PBool _ => true
  | PFloat f => PrimFloat.leb 0%float f
  | _ => false
  end.

(** [len(v)]: defined on strings, lists and dictionaries. *)
Definition py_len (v : pyval) : result Z :=
  match v with
  | PStr s => Ok (Z.of_nat (String.length s))
  | PList l => Ok (Z.of_nat (List.length l))
  | PDict d => Ok (Z.of_nat (List.length d))
  | _ => Raise (Exn "TypeError" "object has no len()")
  end.

(** [data.get(field)]. *)
Definition dict_get_or_none (data : Item) (field : string) : pyval :=
  match data !! field with
  | Some v => v
  | None => PNone
  end.

(** [not data], for a dictionary. *)
Definition dict_is_empty (data : Item) : bool :=
  match map_to_list data with
  | [] => true
  | _ => false
  end.

(** [s.replace('Z', '+00:00')]. *)
Fixpoint replace_Z (s : string) : string :=
  match s with
  | EmptyString => EmptyString
  | String c rest =>
      if Ascii.eqb c "Z"%char
      then String.append "+00:00" (replace_Z rest)
      else String c (replace_Z rest)
  end.

(** The [datetime] library as the validator uses it: the current UTC
    time in microseconds since the epoch, and the two constructors,
    which answer [None] where Python raises. *)
Record DatetimeLib := {
  utc_now : Z;
  fromtimestamp_int : Z -> option datetime;
  fromtimestamp_float : float -> option datetime;
  fromisoformat : string -> option datetime
}.

(** ** The validator *)

Record DataQualityResult := {
  is_valid : bool;
  quality_score : Q;
  validation_errors : list string;
  warnings : list string;
  validation_timestamp : Z
}.

(** [self.thresholds['completeness']]. *)
Definition completeness_threshold : Q := 0.8.

(** A field counts as present when it is a key of the item and its
    value is not [None]. *)
Definition present (data : Item) (field : string) : bool :=
  match data !! field with
  | Some v => negb (is_none v)
  | None => false
  end.

Definition count_present (data : Item) (fields : list string) : Z :=
  Z.of_nat (List.length (List.filter (present data) fields)).

Definition field_count (fields : list string) : Z :=
  Z.of_nat (List.length fields).

Definition _check_completeness (data : Item)
    (required_fields optional_fields : list string) : Q :=
  if dict_is_empty data then 0
  else
    let required_present := count_present data required_fields in
    let required_total := field_count required_fields in
    let optional_present := count_present data optional_fields in
    let optional_total := field_count optional_fields in
    let required_score :=
      if (0 <? required_total)%Z
      then inject_Z required_present / inject_Z required_total else 0 in
    let optional_score :=
      if (0 <? optional_total)%Z
      then inject_Z optional_present / inject_Z optional_total else 0 in
    let completeness_score := required_score * 0.7 + optional_score * 0.3 in
    completeness_score.

(** The pair [(score, checks)] that the type and content checks
    accumulate. *)
Definition tally (passed : bool) (acc : Q * Z) : Q * Z :=
  (if passed then fst acc + 1 else fst acc, (snd acc + 1)%Z).

(** [score / checks if checks > 0 else 0.0]. *)
Definition ratio (acc : Q * Z) : Q :=
  if (0 <? snd acc)%Z then fst acc / inject_Z (snd acc) else 0.

(** [if field in data: (if test(data[field]): score += 1.0); checks += 1]. *)
Definition check_field (data : Item) (field : string) (test : pyval -> bool)
    (acc : Q * Z) : Q * Z :=
  match data !! field with
  | Some v => tally (test v) acc
  | None => acc
  end.

(** [if field in data and data[field]: n = len(data[field]);
    (if lo <= n [<= hi]: score += 1.0); checks += 1]. *)
Definition check_length (data : Item) (field : string) (lo : Z)
    (hi : option Z) (acc : Q * Z) : result (Q * Z) :=
  match data !! field with
  | Some v =>
      if truthy v then
        n <- py_len v ;;
        Ok (tally ((lo <=? n)%Z
                   && match hi with Some h => (n <=? h)%Z | None => true end)
                  acc)
      else Ok acc
  | None => Ok acc
  end.

Definition metrics : list string :=
  ["retweet_count"; "like_count"; "reply_count"; "quote_count"].

Definition _check_reddit_data_types (data : Item) : Q :=
  let acc := (0, 0%Z) in
  let acc :=
    check_field data "id" (fun v => isinstance_str v || isinstance_int v) acc in
  let acc := check_field data "score" isinstance_number acc in
  let acc := check_field data "created_utc" isinstance_number acc in
  ratio acc.

Definition _check_news_data_types (data : Item) : Q :=
  let acc := (0, 0%Z) in
  let acc :=
    check_field data "id" (fun v => isinstance_str v || isinstance_int v) acc in
  let acc :=
    check_field data "url"
      (fun v => match v with
                | PStr url => String.prefix "http" url
                | _ => false
                end) acc in
  let acc := check_field data "published_at" isinstance_str acc in
  ratio acc.

Definition _check_twitter_data_types (data : Item) : Q :=
  let acc := (0, 0%Z) in
  let acc := check_field data "id" isinstance_str acc in
  let acc := check_field data "text" isinstance_str acc in
  let acc :=
    fold_left (fun acc metric => check_field data metric isinstance_number acc)
      metrics acc in
  ratio acc.

Definition _check_reddit_content_quality (data : Item) : result Q :=
  let acc := (0, 0%Z) in
  acc <- check_length data "title" 5 (Some 300%Z) acc ;;
  let acc := check_field data "score" nonnegative_number acc in
  Ok (ratio acc).

Definition _check_news_content_quality (data : Item) : result Q :=
  let acc := (0, 0%Z) in
  acc <- check_length data "title" 10 (Some 200%Z) acc ;;
  acc <- check_length data "description" 20 None acc ;;
  Ok (ratio acc).

Definition _check_twitter_content_quality (data : Item) : result Q :=
  let acc := (0, 0%Z) in
  acc <- check_length data "text" 1 (Some 280%Z) acc ;;
  let acc :=
    fold_left (fun acc metric => check_field data metric nonnegative_number acc)
      metrics acc in
  Ok (ratio acc).

(** The instant a [datetime] denotes, in microseconds since the epoch;
    a naive one is read as UTC ([dt.replace(tzinfo=timezone.utc)]). *)
Definition instant_us (dt : datetime) : Z :=
  match utcoffset_us dt with
  | None => wall_us dt
  | Some offset => (wall_us dt - offset)%Z
  end.

(** [(utc_now - dt).total_seconds() / 3600]. *)
Definition age_hours (lib : DatetimeLib) (dt : datetime) : Q :=
  inject_Z (utc_now lib - instant_us dt) / 1000000 / 3600.

(** The conversion at the head of the [try] block of
    [_check_timeliness]; [None] when it raises (a rejected number or
    string, or a value that is no [datetime] and has no [tzinfo]). *)
Definition convert_timestamp (lib : DatetimeLib) (timestamp : pyval)
  : option datetime :=
  match timestamp with
  | PInt z => fromtimestamp_int lib z
  | PBool b => fromtimestamp_int lib (if b then 1 else 0)%Z
  | PFloat f => fromtimestamp_float lib f
  | PStr s => fromisoformat lib (replace_Z s)
  | PDatetime dt => Some dt
  | _ => None
  end.

Definition _check_timeliness (lib : DatetimeLib) (timestamp : pyval) : Q :=
  if negb (truthy timestamp) then 0
  else
    match convert_timestamp lib timestamp with
    | Some dt =>
        let age_hours := age_hours lib dt in
        if Qle_bool age_hours 1 then 1
        else if Qle_bool age_hours 24 then 0.9
        else if Qle_bool age_hours 168 then 0.7
        else 0.5
    | None => 0.5
    end.

(** *** The library of a running process *)

(** The range of [datetime], years 1 to 9999, in microseconds since the
    epoch. *)
Definition datetime_min_us : Z := -62135596800000000.
Definition datetime_max_us : Z := 253402300799999999.

(** The naive [datetime] with a given wall-clock reading; the
    constructor raises outside the range. *)
Definition naive (wall : Z) : option datetime :=
  if ((datetime_min_us <=? wall) && (wall <=? datetime_max_us))%Z
  then Some {| wall_us := wall; utcoffset_us := None |}
  else None.

(** What the process and its platform contribute to the library: the
    clock; the UTC offset of local time at an epoch second (none where
    the platform's [localtime] rejects it); the microsecond a float
    timestamp is rounded to (none for nan and the infinities); and the
    ISO parser. *)
Record Process := {
  clock_us : Z;
  local_offset_us : Z -> option Z;
  float_timestamp_us : float -> option Z;
  parse_iso : string -> option datetime
}.

(** [datetime.fromtimestamp]: the local wall-clock reading of the
    instant, as a naive [datetime]. *)
Definition fromtimestamp (p : Process) (instant : Z) : option datetime :=
  match local_offset_us p (instant / 1000000) with
  | Some offset => naive (instant + offset)
  | None => None
  end.

Definition process_lib (p : Process) : DatetimeLib :=
  {| utc_now := clock_us p;
     fromtimestamp_int := fun seconds => fromtimestamp p (seconds * 1000000);
     fromtimestamp_float :=
       fun f =>
         match float_timestamp_us p f with
         | Some instant => fromtimestamp p instant
         | None => None
         end;
     fromisoformat := parse_iso p |}.

(** The instant an epoch number denotes. *)
Definition epoch_instant (p : Process) (timestamp : pyval) : option Z :=
  match timestamp with
  | PInt z => Some (z * 1000000)%Z
  | PBool b => Some ((if b then 1 else 0) * 1000000)%Z
  | PFloat f => float_timestamp_us p f
  | _ => None
  end.

(** The instant a timestamp denotes, which the description measures the
    age of an item from: an epoch number counts from the epoch, a
    [datetime] or an ISO string denotes its own instant (a naive one
    read as UTC). *)
Definition item_instant (p : Process) (timestamp : pyval) : option Z :=
  match timestamp with
  | PStr s => option_map instant_us (parse_iso p (replace_Z s))
  | PDatetime dt => Some (instant_us dt)
  | _ => epoch_instant p timestamp
  end.

(** The age in hours of an instant. *)
Definition age_of (p : Process) (instant : Z) : Q :=
  inject_Z (clock_us p - instant) / 1000000 / 3600.

(** The step function of the description. *)
Definition timeliness_of_age (hours : Q) : Q :=
  if Qle_bool hours 1 then 1
  else if Qle_bool hours 24 then 0.9
  else if Qle_bool hours 168 then 0.7
  else 0.5.

(** Local time is UTC at the instant of an epoch number (nothing is
    asked of other timestamps). *)
Definition read_in_utc (p : Process) (timestamp : pyval) : Prop :=
  forall instant,
    epoch_instant p timestamp = Some instant ->
    local_offset_us p (instant / 1000000) = Some 0%Z.

(** The body shared by [validate_reddit_data], [validate_news_data] and
    [validate_twitter_data], which differ in the field lists, the two
    source-specific checks and the timestamp field. *)
Definition validate_with (lib : DatetimeLib)
    (required_fields optional_fields : list string)
    (check_types : Item -> Q) (check_content : Item -> result Q)
    (timestamp_field : string) (data : Item) : DataQualityResult :=
  let completeness_score :=
    _check_completeness data required_fields optional_fields in
  let type_score := check_types data in
  match check_content data with
  | Ok content_score =>
      let timeliness_score :=
        _check_timeliness lib (dict_get_or_none data timestamp_field) in
      let score :=
        (completeness_score + type_score + content_score + timeliness_score)
        / 4 in
      {| is_valid := Qle_bool completeness_threshold score;
         quality_score := score;
         validation_errors := [];
         warnings := [];
         validation_timestamp := utc_now lib |}
  | Raise e =>
      {| is_valid := false;
         quality_score := 0;
         validation_errors :=
           [String.append "Validation error: "
              match e with
              | Exn _ msg => msg
              | CollectionError _ _ _ => ""
              end];
         warnings := [];
         validation_timestamp := utc_now lib |}
  end.

Inductive source_kind := Reddit | News | Twitter.

Definition required_fields (kind : source_kind) : list string :=
  match kind with
  | Reddit => ["id"; "title"; "author"; "score"; "created_utc"]
  | News => ["id"; "title"; "url"; "source_name"; "published_at"]
  | Twitter => ["id"; "text"; "created_at"; "author_id"]
  end.

Definition optional_fields (kind : source_kind) : list string :=
  match kind with
  | Reddit => ["selftext"; "url"; "subreddit"; "num_comments"]
  | News => ["description"; "content"; "author"; "image_url"]
  | Twitter => metrics
  end.

Definition validate_reddit_data (lib : DatetimeLib) (data : Item)
  : DataQualityResult :=
  validate_with lib (required_fields Reddit) (optional_fields Reddit)
    _check_reddit_data_types _check_reddit_content_quality "created_utc" data.

Definition validate_news_data (lib : DatetimeLib) (data : Item)
  : DataQualityResult :=
  validate_with lib (required_fields News) (optional_fields News)
    _check_news_data_types _check_news_content_quality "published_at" data.

Definition validate_twitter_data (lib : DatetimeLib) (data : Item)
  : DataQualityResult :=
  validate_with lib (required_fields Twitter) (optional_fields Twitter)
    _check_twitter_data_types _check_twitter_content_quality "created_at" data.

Definition validate (lib : DatetimeLib) (kind : source_kind) (data : Item)
  : DataQualityResult :=
  match kind with
  | Reddit => validate_reddit_data lib data
  | News => validate_news_data lib data
  | Twitter => validate_twitter_data lib data
  end.

(** [_get_quality_grade]. *)
Definition _get_quality_grade (score : Q) : string :=
  if Qle_bool 0.9 score then "A"
  else if Qle_bool 0.8 score then "B"
  else if Qle_bool 0.7 score then "C"
  else if Qle_bool 0.6 score then "D"
  else "F".

Record QualitySummary := {
  total_records : Z;
  valid_records : Z;
  invalid_records : Z;
  validation_rate : Q;
  average_quality_score : Q;
  total_validation_errors : Z;
  total_warnings : Z;
  quality_grade : string
}.

Definition sumQ (l : list Q) : Q := fold_left Qplus l 0.

Definition sumZ (l : list Z) : Z := fold_left Z.add l 0%Z.

(** [get_quality_summary]; the empty dictionary returned for no results
    is [None]. *)
Definition get_quality_summary (validation_results : list DataQualityResult)
  : option QualitySummary :=
  match validation_results with
  | [] => None
  | _ =>
      let total_records := Z.of_nat (List.length validation_results) in
      let valid_records :=
        Z.of_nat (List.length (List.filter is_valid validation_results)) in
      let avg_quality_score :=
        sumQ (List.map quality_score validation_results)
        / inject_Z total_records in
      let count (l : list string) := Z.of_nat (List.length l) in
      Some
        {| total_records := total_records;
           valid_records := valid_records;
           invalid_records := (total_records - valid_records)%Z;
           validation_rate :=
             if (0 <? total_records)%Z
             then inject_Z valid_records / inject_Z total_records else 0;
           average_quality_score := avg_quality_score;
           total_validation_errors :=
             sumZ (List.map (fun r => count (validation_errors r))
                     validation_results);
           total_warnings :=
             sumZ (List.map (fun r => count (warnings r)) validation_results);
           quality_grade := _get_quality_grade avg_quality_score |}
  end.

(** ** The description's reading of completeness *)

(** The description counts a field as present when it exists and its
    value is neither null nor empty. *)
Definition is_empty_value (v : pyval) : bool :=
  match v with
  | PStr s => String.eqb s ""
  | PList [] => true
  | PDict [] => true
  | _ => false
  end.

Definition present_nonempty (data : Item) (field : string) : bool :=
  match data !! field with
  | Some v => negb (is_none v) && negb (is_empty_value v)
  | None => false
  end.

(** [0.7 * (required present / required count)
     + 0.3 * (optional present / optional count)] for a notion of
    presence. *)
Definition completeness_formula (presence : Item -> string -> bool)
    (data : Item) (required optional : list string) : Q :=
  0.7 * (inject_Z (Z.of_nat (List.length (List.filter (presence data) required)))
         / inject_Z (field_count required))
  + 0.3 * (inject_Z (Z.of_nat (List.length (List.filter (presence data) optional)))
           / inject_Z (field_count optional)).

(** ** Sample data *)

(** A library instance for evaluation: the clock stands at
    1 700 000 000 s, the local zone is UTC, float timestamps and ISO
    strings are rejected. *)
Definition sample_lib : DatetimeLib :=
  {| utc_now := 1700000000000000;
     fromtimestamp_int :=
       fun z => Some {| wall_us := z * 1000000; utcoffset_us := None |};
     fromtimestamp_float := fun _ => None;
     fromisoformat := fun _ => None |}.

(** A complete Reddit post, a quarter of an hour old under
    [sample_lib], and a post that only carries a URL. *)
Definition fresh_post : Item :=
  list_to_map
    [("id", PStr "abc"); ("title", PStr "A good title");
     ("author", PStr "bob"); ("score", PInt 10);
     ("created_utc", PInt 1699999100); ("url", PStr "http://example.org/a");
     ("num_comments", PInt 3)].

Definition bare_post : Item :=
  list_to_map [("url", PStr "http://example.org/a")].

(** *** Arithmetic of the sub-scores *)

Lemma Qdiv_unit_interval (s : Q) (n : Z) :
  0 <= s -> s <= inject_Z n -> (0 < n)%Z ->
  0 <= s / inject_Z n /\ s / inject_Z n <= 1.
Proof.
  intros H0 Hn Hpos.
  assert (Hq : 0 < inject_Z n) by (change 0 with (inject_Z 0); now rewrite <- Zlt_Qlt).
  split.
  - apply Qle_shift_div_l; [exact Hq | lra].
  - apply Qle_shift_div_r; [exact Hq | lra].
Qed.

Lemma Qdiv_zero (s : Q) (d : Q) : s == 0 -> s / d == 0.
Proof. intros ->. unfold Qdiv. ring. Qed.

(** The accumulated score never exceeds the number of checks. *)
Definition acc_ok (acc : Q * Z) : Prop :=
  0 <= fst acc /\ fst acc <= inject_Z (snd acc) /\ (0 <= snd acc)%Z.

(** No check has passed so far. *)
Definition acc_zero (acc : Q * Z) : Prop :=
  fst acc == 0 /\ (0 <= snd acc)%Z.

Lemma acc_zero_ok (acc : Q * Z) : acc_zero acc -> acc_ok acc.
Proof.
  intros [Hz Hn]. unfold acc_ok. rewrite Hz.
  repeat split; [lra | | exact Hn].
  change 0 with (inject_Z 0). now rewrite <- Zle_Qle.
Qed.

Lemma tally_ok (passed : bool) (acc : Q * Z) :
  acc_ok acc -> acc_ok (tally passed acc).
Proof.
  intros (H0 & Hn & Hc). unfold acc_ok, tally. cbn [fst snd].
  rewrite inject_Z_plus. change (inject_Z 1) with 1.
  destruct passed; repeat split; try lra; lia.
Qed.

Lemma tally_zero (acc : Q * Z) : acc_zero acc -> acc_zero (tally false acc).
Proof.
  intros [Hz Hc]. unfold acc_zero, tally. cbn [fst snd]. split; [exact Hz | lia].
Qed.

Lemma check_field_ok (data : Item) (field : string) (test : pyval -> bool)
    (acc : Q * Z) :
  acc_ok acc -> acc_ok (check_field data field test acc).
Proof.
  intros H. unfold check_field. destruct (data !! field); [|exact H].
  now apply tally_ok.
Qed.

Lemma present_false (data : Item) (field : string) :
  present data field = false ->
  data !! field = None \/ data !! field = Some PNone.
Proof.
  unfold present. destruct (data !! field) as [v|]; [|now left].
  destruct v; cbn; try discriminate. now right.
Qed.

Lemma check_field_zero (data : Item) (field : string) (test : pyval -> bool)
    (acc : Q * Z) :
  test PNone = false -> present data field = false ->
  acc_zero acc -> acc_zero (check_field data field test acc).
Proof.
  intros Htest Hp H. unfold check_field.
  destruct (present_false _ _ Hp) as [-> | ->]; [exact H|].
  rewrite Htest. now apply tally_zero.
Qed.

Lemma check_length_ok (data : Item) (field : string) (lo : Z) (hi : option Z)
    (acc acc' : Q * Z) :
  check_length data field lo hi acc = Ok acc' -> acc_ok acc -> acc_ok acc'.
Proof.
  unfold check_length. intros H Hok.
  destruct (data !! field) as [v|]; [|now injection H as <-].
  destruct (truthy v); [|now injection H as <-].
  destruct (py_len v) as [n|e]; cbn in H; [|discriminate].
  injection H as <-. now apply tally_ok.
Qed.

Lemma check_length_absent (data : Item) (field : string) (lo : Z)
    (hi : option Z) (acc : Q * Z) :
  present data field = false -> check_length data field lo hi acc = Ok acc.
Proof.
  intros Hp. unfold check_length.
  destruct (present_false _ _ Hp) as [-> | ->]; reflexivity.
Qed.

Lemma fold_check_field_ok (data : Item) (test : pyval -> bool)
    (fields : list string) (acc : Q * Z) :
  acc_ok acc ->
  acc_ok (fold_left (fun acc field => check_field data field test acc)
            fields acc).
Proof.
  revert acc. induction fields as [|field fields IH]; intros acc H; [exact H|].
  cbn. apply IH. now apply check_field_ok.
Qed.

Lemma fold_check_field_zero (data : Item) (test : pyval -> bool)
    (fields : list string) (acc : Q * Z) :
  test PNone = false ->
  (forall field, In field fields -> present data field = false) ->
  acc_zero acc ->
  acc_zero (fold_left (fun acc field => check_field data field test acc)
              fields acc).
Proof.
  intros Htest. revert acc.
  induction fields as [|field fields IH]; intros acc Hp H; [exact H|].
  cbn. apply IH; [intros f Hf; apply Hp; now right|].
  apply check_field_zero; [exact Htest | apply Hp; now left | exact H].
Qed.

Lemma ratio_bounds (acc : Q * Z) :
  acc_ok acc -> 0 <= ratio acc /\ ratio acc <= 1.
Proof.
  intros (H0 & Hn & Hc). unfold ratio.
  destruct (Z.ltb_spec 0 (snd acc)) as [Hpos|_]; [|lra].
  now apply Qdiv_unit_interval.
Qed.

Lemma ratio_zero (acc : Q * Z) : acc_zero acc -> ratio acc == 0.
Proof.
  intros [Hz _]. unfold ratio. destruct (0 <? snd acc)%Z; [|reflexivity].
  now apply Qdiv_zero.
Qed.

Lemma acc_zero_start : acc_zero (0, 0%Z).
Proof. split; [reflexivity | cbn; lia]. Qed.

(** *** The validator on sample data *)

Example timeliness_of_sample_ages :
  List.map (_check_timeliness sample_lib)
    [PInt 1699999100; PInt 1699990000; PInt 1699700000; PInt 1690000000;
     PNone; PInt 0; PStr ""]
  = [1; 0.9; 0.7; 0.5; 0; 0; 0].
Proof. vm_compute. reflexivity. Qed.

Example fresh_post_is_valid :
  is_valid (validate sample_lib Reddit fresh_post) = true /\
  Qred (quality_score (validate sample_lib Reddit fresh_post)) = 77 # 80.
Proof. split; vm_compute; reflexivity. Qed.

(** A title that is a number makes [len] raise: the item is invalid
    with score 0 and one validation error. *)
Example unsized_title_is_a_hard_error :
  validate sample_lib Reddit
    (list_to_map [("id", PStr "abc"); ("title", PInt 5)])
  = {| is_valid := false; quality_score := 0;
       validation_errors := ["Validation error: object has no len()"];
       warnings := []; validation_timestamp := utc_now sample_lib |}.
Proof. vm_compute. reflexivity. Qed.

(** *** Completeness *)

Lemma dict_is_empty_spec (data : Item) :
  dict_is_empty data = true -> data = ∅.
Proof.
  unfold dict_is_empty. destruct (map_to_list data) eqn:E; [|discriminate].
  intros _. now apply map_to_list_empty_iff.
Qed.

Lemma count_present_none (data : Item) (fields : list string) :
  (forall field, In field fields -> present data field = false) ->
  count_present data fields = 0%Z.
Proof.
  intros H. unfold count_present.
  induction fields as [|field fields IH]; [reflexivity|].
  cbn. rewrite (H field) by now left. apply IH. intros f Hf. apply H. now right.
Qed.

Lemma count_present_bounds (data : Item) (fields : list string) :
  (0 <= count_present data fields <= field_count fields)%Z.
Proof.
  unfold count_present, field_count.
  pose proof (List.filter_length_le (present data) fields). lia.
Qed.

Lemma present_empty (field : string) : present (∅ : Item) field = false.
Proof. unfold present. now rewrite lookup_empty. Qed.

Lemma completeness_without_required (data : Item)
    (required optional : list string) :
  count_present data required = 0%Z ->
  0 <= _check_completeness data required optional /\
  _check_completeness data required optional <= 0.3 /\
  (count_present data optional = 0%Z ->
   _check_completeness data required optional == 0).
Proof.
  intros Hreq. unfold _check_completeness.
  destruct (dict_is_empty data);
    [split; [lra | split; [lra | intros _; reflexivity]]|].
  rewrite Hreq.
  assert (Hr : (if (0 <? field_count required)%Z
                then inject_Z 0 / inject_Z (field_count required) else 0) == 0).
  { destruct (0 <? field_count required)%Z; [|reflexivity].
    now apply Qdiv_zero. }
  rewrite Hr.
  pose proof (count_present_bounds data optional) as [Ho0 Ho1].
  split; [|split].
  - destruct (Z.ltb_spec 0 (field_count optional)) as [Hpos|_]; [|lra].
    destruct (Qdiv_unit_interval (inject_Z (count_present data optional))
                (field_count optional)) as [Hlo _];
      [change 0 with (inject_Z 0) | | exact Hpos | lra];
      now rewrite <- Zle_Qle.
  - destruct (Z.ltb_spec 0 (field_count optional)) as [Hpos|_]; [|lra].
    destruct (Qdiv_unit_interval (inject_Z (count_present data optional))
                (field_count optional)) as [_ Hhi];
      [change 0 with (inject_Z 0) | | exact Hpos | lra];
      now rewrite <- Zle_Qle.
  - intros ->. destruct (0 <? field_count optional)%Z; [|lra].
    rewrite (Qdiv_zero (inject_Z 0)) by reflexivity. lra.
Qed.

Lemma filter_present_empty (fields : list string) :
  List.filter (present (∅ : Item)) fields = [].
Proof.
  induction fields as [|field fields IH]; [reflexivity|].
  cbn. now rewrite present_empty.
Qed.

(** C7, as the code has it.  For every source kind and item, the
    completeness sub-score is 0.7 times the fraction of required fields
    present plus 0.3 times the fraction of optional fields present,
    where a field is present when it is a key of the item and its value
    is not [None] (an empty string or list counts as present). *)
Theorem completeness_is_weighted_presence :
  forall (kind : source_kind) (data : Item),
    _check_completeness data (required_fields kind) (optional_fields kind)
    == completeness_formula present data
         (required_fields kind) (optional_fields kind).
Proof.
  intros kind data. unfold _check_completeness, completeness_formula.
  destruct (dict_is_empty data) eqn:E.
  - apply dict_is_empty_spec in E. subst data.
    rewrite !filter_present_empty. destruct kind; vm_compute; reflexivity.
  - unfold count_present.
    destruct kind; cbn [required_fields optional_fields];
      repeat match goal with
             | |- context [(0 <? field_count ?l)%Z] =>
                 change (0 <? field_count l)%Z with true
             end;
      cbv iota; unfold Qdiv; ring.
Qed.

(** C7, as stated, fails: a Reddit item whose only field is an empty
    title scores 0.14 for completeness, because the empty title counts
    as present; under the description's reading (neither null nor empty)
    the formula gives 0. *)
Lemma empty_title_counts_as_present :
  _check_completeness (list_to_map [("title", PStr "")])
    (required_fields Reddit) (optional_fields Reddit) == 0.14 /\
  completeness_formula present_nonempty (list_to_map [("title", PStr "")])
    (required_fields Reddit) (optional_fields Reddit) == 0 /\
  ~ (_check_completeness (list_to_map [("title", PStr "")])
       (required_fields Reddit) (optional_fields Reddit)
     == completeness_formula present_nonempty
          (list_to_map [("title", PStr "")])
          (required_fields Reddit) (optional_fields Reddit)).
Proof.
  split; [vm_compute; reflexivity|]. split; [vm_compute; reflexivity|].
  intros H. vm_compute in H. discriminate H.
Qed.

(** *** Timeliness *)

Lemma naive_instant (wall : Z) (dt : datetime) :
  naive wall = Some dt -> instant_us dt = wall.
Proof.
  unfold naive. destruct (_ && _); [|discriminate]. now intros [= <-].
Qed.

Lemma fromtimestamp_in_utc (p : Process) (instant : Z) (dt : datetime) :
  local_offset_us p (instant / 1000000) = Some 0%Z ->
  fromtimestamp p instant = Some dt ->
  instant_us dt = instant.
Proof.
  unfold fromtimestamp. intros -> H. apply naive_instant in H.
  now rewrite Z.add_0_r in H.
Qed.

(** A converted timestamp denotes the instant of the item, when epoch
    numbers are read in UTC. *)
Lemma convert_timestamp_instant (p : Process) (timestamp : pyval)
    (dt : datetime) :
  read_in_utc p timestamp ->
  convert_timestamp (process_lib p) timestamp = Some dt ->
  item_instant p timestamp = Some (instant_us dt).
Proof.
  unfold read_in_utc. intros Hutc Hc.
  destruct timestamp as [|b|z|f|s|d|l|d]; cbn in Hc |- *; try discriminate.
  - now rewrite (fromtimestamp_in_utc p _ dt (Hutc _ eq_refl) Hc).
  - now rewrite (fromtimestamp_in_utc p _ dt (Hutc _ eq_refl) Hc).
  - cbn in Hutc. destruct (float_timestamp_us p f) as [instant|];
      [|discriminate].
    now rewrite (fromtimestamp_in_utc p _ dt (Hutc _ eq_refl) Hc).
  - now rewrite Hc.
  - now injection Hc as ->.
Qed.

(** C6, as the code has it.  A timestamp with a false truth value
    (missing, [None], zero, empty) scores 0; a timestamp whose
    conversion raises scores 0.5; and a timestamp that converts, whether
    an ISO string, a [datetime] or an epoch number read where local
    time is UTC, scores by the age of the item in hours: 1 up to one
    hour, 0.9 up to 24, 0.7 up to 168 and 0.5 beyond. *)
Theorem check_timeliness_by_age :
  forall (p : Process) (data : Item) (field : string) (timestamp : pyval),
    let lib := process_lib p in
    (data !! field = None ->
     _check_timeliness lib (dict_get_or_none data field) = 0) /\
    (truthy timestamp = false -> _check_timeliness lib timestamp = 0) /\
    (truthy timestamp = true ->
     convert_timestamp lib timestamp = None ->
     _check_timeliness lib timestamp = 0.5) /\
    (forall dt,
       truthy timestamp = true ->
       convert_timestamp lib timestamp = Some dt ->
       read_in_utc p timestamp ->
       exists instant,
         item_instant p timestamp = Some instant /\
         _check_timeliness lib timestamp
         = timeliness_of_age (age_of p instant) /\
         (age_of p instant <= 1 -> _check_timeliness lib timestamp = 1) /\
         (1 < age_of p instant -> age_of p instant <= 24 ->
          _check_timeliness lib timestamp = 0.9) /\
         (24 < age_of p instant -> age_of p instant <= 168 ->
          _check_timeliness lib timestamp = 0.7) /\
         (168 < age_of p instant -> _check_timeliness lib timestamp = 0.5)).
Proof.
  intros p data field timestamp lib.
  split; [intros H; unfold dict_get_or_none; now rewrite H|].
  split; [intros H; unfold _check_timeliness; now rewrite H|].
  split; [intros Ht Hc; unfold _check_timeliness; now rewrite Ht, Hc|].
  intros dt Ht Hc Hutc. exists (instant_us dt).
  split; [exact (convert_timestamp_instant p timestamp dt Hutc Hc)|].
  assert (Hscore : _check_timeliness lib timestamp
                   = timeliness_of_age (age_of p (instant_us dt))).
  { unfold _check_timeliness. rewrite Ht, Hc. reflexivity. }
  split; [exact Hscore|]. rewrite Hscore. unfold timeliness_of_age.
  set (age := age_of p (instant_us dt)).
  destruct (Qle_bool age 1) eqn:E1;
    [apply Qle_bool_iff in E1 | apply not_true_iff_false in E1;
                                rewrite Qle_bool_iff in E1];
  (destruct (Qle_bool age 24) eqn:E24;
    [apply Qle_bool_iff in E24 | apply not_true_iff_false in E24;
                                 rewrite Qle_bool_iff in E24]);
  (destruct (Qle_bool age 168) eqn:E168;
    [apply Qle_bool_iff in E168 | apply not_true_iff_false in E168;
                                  rewrite Qle_bool_iff in E168]);
  repeat split; intros; try reflexivity; exfalso; lra.
Qed.

(** A process whose local time is [offset_hours] ahead of UTC and whose
    clock stands at 1 700 000 000 s. *)
Definition process_at (offset_hours : Z) : Process :=
  {| clock_us := 1700000000000000;
     local_offset_us := fun _ => Some (offset_hours * 3600000000)%Z;
     float_timestamp_us := fun _ => None;
     parse_iso := fun _ => None |}.

(** An epoch timestamp a quarter of an hour old scores 1 in a process
    in UTC.  In a process five hours west of UTC the local reading of
    the same timestamp is labelled UTC, the item seems five hours
    older, and it scores 0.9. *)
Example epoch_timestamp_is_read_in_local_time :
  Qred (age_of (process_at 0) (1699999100 * 1000000)) = 1 # 4 /\
  _check_timeliness (process_lib (process_at 0)) (PInt 1699999100) = 1 /\
  _check_timeliness (process_lib (process_at (-5))) (PInt 1699999100) = 0.9.
Proof. split; [|split]; vm_compute; reflexivity. Qed.

(** C6, as stated, fails on unparseable timestamps: a string the ISO
    parser rejects scores 0.5, not 0. *)
Lemma unparseable_timestamp_scores_half :
  fromisoformat sample_lib (replace_Z "not a timestamp") = None /\
  _check_timeliness sample_lib (PStr "not a timestamp") = 0.5 /\
  ~ (_check_timeliness sample_lib (PStr "not a timestamp") == 0).
Proof.
  split; [reflexivity|]. split; [reflexivity|].
  intros H. vm_compute in H. discriminate H.
Qed.

(** *** Items without their required fields *)

Lemma dict_get_or_none_absent (data : Item) (field : string) :
  present data field = false -> dict_get_or_none data field = PNone.
Proof.
  intros Hp. unfold dict_get_or_none.
  destruct (present_false _ _ Hp) as [-> | ->]; reflexivity.
Qed.

Lemma validate_with_missing_required (lib : DatetimeLib)
    (required optional : list string) (check_types : Item -> Q)
    (check_content : Item -> result Q) (timestamp_field : string)
    (data : Item) :
  (forall field, In field required -> present data field = false) ->
  present data timestamp_field = false ->
  0 <= check_types data /\ check_types data <= 1 ->
  (forall q, check_content data = Ok q -> 0 <= q /\ q <= 1) ->
  is_valid (validate_with lib required optional check_types check_content
              timestamp_field data) = false /\
  quality_score (validate_with lib required optional check_types
                   check_content timestamp_field data) <= 0.575.
Proof.
  intros Hreq Hts [Ht0 Ht1] Hcontent. unfold validate_with.
  destruct (completeness_without_required data required optional
              (count_present_none _ _ Hreq)) as (Hc0 & Hc1 & _).
  destruct (check_content data) as [q|e]; cbn [is_valid quality_score];
    [|split; [reflexivity | lra]].
  destruct (Hcontent q eq_refl) as [Hq0 Hq1].
  rewrite (dict_get_or_none_absent _ _ Hts).
  change (_check_timeliness lib PNone) with 0.
  unfold Qdiv. change (/ 4) with (1 # 4).
  split; [|lra].
  destruct (Qle_bool completeness_threshold _) eqn:E; [|reflexivity].
  apply Qle_bool_iff in E. unfold completeness_threshold in E. lra.
Qed.

Lemma validate_with_nothing_present (lib : DatetimeLib)
    (required optional : list string) (check_types : Item -> Q)
    (check_content : Item -> result Q) (timestamp_field : string)
    (data : Item) :
  (forall field, In field required -> present data field = false) ->
  (forall field, In field optional -> present data field = false) ->
  present data timestamp_field = false ->
  check_types data == 0 ->
  (forall q, check_content data = Ok q -> q == 0) ->
  quality_score (validate_with lib required optional check_types
                   check_content timestamp_field data) == 0.
Proof.
  intros Hreq Hopt Hts Ht Hcontent. unfold validate_with.
  destruct (completeness_without_required data required optional
              (count_present_none _ _ Hreq)) as (_ & _ & Hc).
  specialize (Hc (count_present_none _ _ Hopt)).
  destruct (check_content data) as [q|e]; cbn [quality_score];
    [|reflexivity].
  rewrite (dict_get_or_none_absent _ _ Hts).
  change (_check_timeliness lib PNone) with 0.
  rewrite Hc, Ht, (Hcontent q eq_refl). vm_compute. reflexivity.
Qed.

Lemma types_bounds (kind : source_kind) (data : Item) :
  let check :=
    match kind with
    | Reddit => _check_reddit_data_types
    | News => _check_news_data_types
    | Twitter => _check_twitter_data_types
    end in
  0 <= check data /\ check data <= 1.
Proof.
  destruct kind; cbn zeta;
    [unfold _check_reddit_data_types | unfold _check_news_data_types
     | unfold _check_twitter_data_types];
    apply ratio_bounds;
    repeat first [apply check_field_ok | apply fold_check_field_ok];
    apply acc_zero_ok, acc_zero_start.
Qed.

Lemma content_bounds (kind : source_kind) (data : Item) (q : Q) :
  match kind with
  | Reddit => _check_reddit_content_quality
  | News => _check_news_content_quality
  | Twitter => _check_twitter_content_quality
  end data = Ok q ->
  0 <= q /\ q <= 1.
Proof.
  destruct kind;
    [unfold _check_reddit_content_quality
    | unfold _check_news_content_quality
    | unfold _check_twitter_content_quality].
  - destruct (check_length data "title" 5 _ _) as [acc|e] eqn:E1;
      cbn [bind]; [|discriminate].
    intros [= <-]. apply ratio_bounds, check_field_ok.
    eapply check_length_ok; [exact E1 | apply acc_zero_ok, acc_zero_start].
  - destruct (check_length data "title" 10 _ _) as [acc|e] eqn:E1;
      cbn [bind]; [|discriminate].
    destruct (check_length data "description" 20 _ _) as [acc'|e] eqn:E2;
      cbn [bind]; [|discriminate].
    intros [= <-]. apply ratio_bounds.
    eapply check_length_ok; [exact E2|].
    eapply check_length_ok; [exact E1 | apply acc_zero_ok, acc_zero_start].
  - destruct (check_length data "text" 1 _ _) as [acc|e] eqn:E1;
      cbn [bind]; [|discriminate].
    intros [= <-]. apply ratio_bounds.
    repeat first [apply fold_check_field_ok | apply check_field_ok].
    eapply check_length_ok; [exact E1 | apply acc_zero_ok, acc_zero_start].
Qed.

Lemma types_zero (kind : source_kind) (data : Item) :
  (forall field, In field (required_fields kind) ->
     present data field = false) ->
  (forall field, In field (optional_fields kind) ->
     present data field = false) ->
  match kind with
  | Reddit => _check_reddit_data_types
  | News => _check_news_data_types
  | Twitter => _check_twitter_data_types
  end data == 0.
Proof.
  intros Hreq Hopt.
  destruct kind;
    [unfold _check_reddit_data_types | unfold _check_news_data_types
     | unfold _check_twitter_data_types];
    apply ratio_zero;
    repeat first
      [ apply fold_check_field_zero; [reflexivity | exact Hopt |]
      | apply check_field_zero;
        [reflexivity | apply Hreq; cbn; tauto |] ];
    apply acc_zero_start.
Qed.

Lemma content_zero (kind : source_kind) (data : Item) (q : Q) :
  (forall field, In field (required_fields kind) ->
     present data field = false) ->
  (forall field, In field (optional_fields kind) ->
     present data field = false) ->
  match kind with
  | Reddit => _check_reddit_content_quality
  | News => _check_news_content_quality
  | Twitter => _check_twitter_content_quality
  end data = Ok q ->
  q == 0.
Proof.
  intros Hreq Hopt.
  destruct kind;
    [unfold _check_reddit_content_quality
    | unfold _check_news_content_quality
    | unfold _check_twitter_content_quality].
  - rewrite check_length_absent by (apply Hreq; cbn; tauto). cbn [bind].
    intros [= <-]. apply ratio_zero, check_field_zero;
      [reflexivity | apply Hreq; cbn; tauto | apply acc_zero_start].
  - rewrite check_length_absent by (apply Hreq; cbn; tauto). cbn [bind].
    rewrite check_length_absent by (apply Hopt; cbn; tauto). cbn [bind].
    intros [= <-]. apply ratio_zero, acc_zero_start.
  - rewrite check_length_absent by (apply Hreq; cbn; tauto). cbn [bind].
    intros [= <-]. apply ratio_zero.
    repeat first
      [ apply fold_check_field_zero; [reflexivity | exact Hopt |]
      | apply check_field_zero; [reflexivity | apply Hopt; cbn; tauto |] ].
    apply acc_zero_start.
Qed.

(** C9, as the code has it.  An item none of whose required fields is
    present is invalid under every source kind, with a quality score of
    at most 0.575; the score is 0 when none of the optional fields is
    present either. *)
Theorem validate_without_required_fields :
  forall (lib : DatetimeLib) (kind : source_kind) (data : Item),
    (forall field, In field (required_fields kind) ->
       present data field = false) ->
    is_valid (validate lib kind data) = false /\
    quality_score (validate lib kind data) <= 0.575 /\
    ((forall field, In field (optional_fields kind) ->
        present data field = false) ->
     quality_score (validate lib kind data) == 0).
Proof.
  intros lib kind data Hreq.
  pose proof (types_bounds kind data) as Htypes.
  pose proof (content_bounds kind data) as Hcontent.
  pose proof (types_zero kind data Hreq) as Htz.
  pose proof (content_zero kind data) as Hcz.
  destruct kind; cbn zeta in Htypes;
    unfold validate, validate_reddit_data, validate_news_data,
      validate_twitter_data.
  all: split;
    [ apply validate_with_missing_required;
        [exact Hreq | apply Hreq; cbn; tauto | exact Htypes | exact Hcontent]
    | split;
      [ apply validate_with_missing_required;
          [exact Hreq | apply Hreq; cbn; tauto | exact Htypes | exact Hcontent]
      | intros Hopt; apply validate_with_nothing_present;
          [ exact Hreq | exact Hopt | apply Hreq; cbn; tauto
          | exact (Htz Hopt) | intros q; exact (Hcz q Hreq Hopt) ] ] ].
Qed.

(** A Reddit item that only carries a URL. *)
Lemma validate_without_required_fields_witness :
  is_valid (validate sample_lib Reddit
              bare_post) = false.
Proof.
  refine (proj1 (validate_without_required_fields sample_lib Reddit
                   bare_post _)).
  intros field Hin. cbn in Hin.
  repeat (destruct Hin as [<- | Hin]; [reflexivity|]).
  destruct Hin.
Defined.

(** C9, as stated, fails: that item misses every required field, yet its
    quality score is 3/160, not 0: the optional URL contributes to the
    completeness term. *)
Lemma optional_field_gives_positive_score :
  forallb (fun field =>
             negb (present bare_post
                     field))
    (required_fields Reddit) = true /\
  quality_score (validate sample_lib Reddit
                   bare_post)
  == 3 # 160 /\
  ~ (quality_score (validate sample_lib Reddit
                      bare_post)
     == 0).
Proof.
  split; [reflexivity|]. split; [vm_compute; reflexivity|].
  intros H. vm_compute in H. discriminate H.
Qed.

(** ** More of the validator: ranges, timestamps, grades, summaries *)

(** The timestamp field each validator reads. *)
Definition timestamp_field (kind : source_kind) : string :=
  match kind with
  | Reddit => "created_utc"
  | News => "published_at"
  | Twitter => "created_at"
  end.

Lemma presence_fraction_bounds (data : Item) (fields : list string) :
  0 <= (if (0 <? field_count fields)%Z
        then inject_Z (count_present data fields)
             / inject_Z (field_count fields)
        else 0) /\
  (if (0 <? field_count fields)%Z
   then inject_Z (count_present data fields) / inject_Z (field_count fields)
   else 0) <= 1.
Proof.
  pose proof (count_present_bounds data fields) as [H0 H1].
  destruct (Z.ltb_spec 0 (field_count fields)) as [Hpos|_]; [|split; lra].
  apply Qdiv_unit_interval; [change 0 with (inject_Z 0) | | exact Hpos];
    now rewrite <- Zle_Qle.
Qed.

Lemma completeness_bounds (data : Item) (required optional : list string) :
  0 <= _check_completeness data required optional /\
  _check_completeness data required optional <= 1.
Proof.
  unfold _check_completeness. destruct (dict_is_empty data); [split; lra|].
  destruct (presence_fraction_bounds data required) as [Hr0 Hr1].
  destruct (presence_fraction_bounds data optional) as [Ho0 Ho1].
  cbn zeta. split; lra.
Qed.

Lemma timeliness_cases (lib : DatetimeLib) (timestamp : pyval) :
  (truthy timestamp = false /\ _check_timeliness lib timestamp = 0) \/
  (truthy timestamp = true /\
   0.5 <= _check_timeliness lib timestamp /\
   _check_timeliness lib timestamp <= 1).
Proof.
  unfold _check_timeliness. destruct (truthy timestamp); [right | now left].
  split; [reflexivity|]. cbn [negb].
  destruct (convert_timestamp lib timestamp) as [dt|]; [|split; lra].
  destruct (Qle_bool (age_hours lib dt) 1); [split; lra|].
  destruct (Qle_bool (age_hours lib dt) 24); [split; lra|].
  destruct (Qle_bool (age_hours lib dt) 168); split; lra.
Qed.

Lemma validate_with_range (lib : DatetimeLib)
    (required optional : list string) (check_types : Item -> Q)
    (check_content : Item -> result Q) (field : string) (data : Item) :
  0 <= check_types data /\ check_types data <= 1 ->
  (forall q, check_content data = Ok q -> 0 <= q /\ q <= 1) ->
  0 <= quality_score (validate_with lib required optional check_types
                        check_content field data) /\
  quality_score (validate_with lib required optional check_types
                   check_content field data) <= 1.
Proof.
  intros [Ht0 Ht1] Hcontent. unfold validate_with.
  destruct (completeness_bounds data required optional) as [Hc0 Hc1].
  destruct (check_content data) as [q|e]; cbn [quality_score]; [|split; lra].
  destruct (Hcontent q eq_refl) as [Hq0 Hq1].
  destruct (timeliness_cases lib (dict_get_or_none data field))
    as [[_ Ht] | (_ & Hl & Hh)]; [rewrite Ht|];
    unfold Qdiv; change (/ 4) with (1 # 4); split; lra.
Qed.

Lemma validate_with_falsy_timestamp (lib : DatetimeLib)
    (required optional : list string) (check_types : Item -> Q)
    (check_content : Item -> result Q) (field : string) (data : Item) :
  0 <= check_types data /\ check_types data <= 1 ->
  (forall q, check_content data = Ok q -> 0 <= q /\ q <= 1) ->
  truthy (dict_get_or_none data field) = false ->
  is_valid (validate_with lib required optional check_types check_content
              field data) = false /\
  quality_score (validate_with lib required optional check_types
                   check_content field data) <= 0.75.
Proof.
  intros [Ht0 Ht1] Hcontent Hfalsy. unfold validate_with.
  destruct (completeness_bounds data required optional) as [Hc0 Hc1].
  destruct (check_content data) as [q|e]; cbn [is_valid quality_score];
    [|split; [reflexivity | lra]].
  destruct (Hcontent q eq_refl) as [Hq0 Hq1].
  destruct (timeliness_cases lib (dict_get_or_none data field))
    as [[_ Ht] | (Htrue & _)]; [|congruence].
  rewrite Ht. unfold Qdiv. change (/ 4) with (1 # 4).
  split; [|lra].
  destruct (Qle_bool completeness_threshold _) eqn:E; [|reflexivity].
  apply Qle_bool_iff in E. unfold completeness_threshold in E. lra.
Qed.

Lemma quality_score_bounds_helper (lib : DatetimeLib) (kind : source_kind)
    (data : Item) :
  0 <= quality_score (validate lib kind data) /\
  quality_score (validate lib kind data) <= 1.
Proof.
  pose proof (types_bounds kind data) as Htypes.
  pose proof (content_bounds kind data) as Hcontent.
  destruct kind; cbn zeta in Htypes;
    unfold validate, validate_reddit_data, validate_news_data,
      validate_twitter_data;
    apply validate_with_range; assumption.
Qed.

(** X18.  Every quality score lies between 0 and 1, for every source kind and
    every item, also when a check raises. *)
Theorem quality_score_in_unit_interval :
  forall (lib : DatetimeLib) (kind : source_kind) (data : Item),
    0 <= quality_score (validate lib kind data) /\
    quality_score (validate lib kind data) <= 1.
Proof. exact quality_score_bounds_helper. Qed.

Lemma validate_falsy_timestamp (lib : DatetimeLib) (kind : source_kind)
    (data : Item) :
  truthy (dict_get_or_none data (timestamp_field kind)) = false ->
  is_valid (validate lib kind data) = false /\
  quality_score (validate lib kind data) <= 0.75.
Proof.
  intros Hfalsy.
  pose proof (types_bounds kind data) as Htypes.
  pose proof (content_bounds kind data) as Hcontent.
  destruct kind; cbn zeta in Htypes;
    unfold validate, validate_reddit_data, validate_news_data,
      validate_twitter_data;
    apply validate_with_falsy_timestamp; assumption.
Qed.

(** X19.  An item whose timestamp field is absent, null, zero or empty is
    never valid, whatever else it carries: its score is at most 0.75,
    below the threshold of 0.8. *)
Theorem item_without_timestamp_is_invalid :
  forall (lib : DatetimeLib) (kind : source_kind) (data : Item),
    truthy (dict_get_or_none data (timestamp_field kind)) = false ->
    is_valid (validate lib kind data) = false /\
    quality_score (validate lib kind data) <= 0.75.
Proof. exact validate_falsy_timestamp. Qed.

(** A Reddit post complete in every other respect, without
    [created_utc]. *)
Lemma item_without_timestamp_is_invalid_witness :
  is_valid (validate sample_lib Reddit (delete "created_utc" fresh_post))
  = false.
Proof.
  exact (proj1 (item_without_timestamp_is_invalid sample_lib Reddit
                  (delete "created_utc" fresh_post) eq_refl)).
Defined.

Lemma validate_with_hard_error_or_none (lib : DatetimeLib)
    (required optional : list string) (check_types : Item -> Q)
    (check_content : Item -> result Q) (field : string) (data : Item) :
  let r := validate_with lib required optional check_types check_content
             field data in
  ((exists q, check_content data = Ok q) /\ validation_errors r = [] /\
   is_valid r = Qle_bool completeness_threshold (quality_score r)) \/
  ((exists e, check_content data = Raise e) /\
   List.length (validation_errors r) = 1%nat /\
   is_valid r = false /\ quality_score r = 0).
Proof.
  cbn zeta. unfold validate_with.
  destruct (check_content data) as [q|e]; [left | right]; cbn; eauto.
Qed.

Lemma grade_of_valid_score (score : Q) :
  Qle_bool completeness_threshold score = true <->
  _get_quality_grade score = "A" \/ _get_quality_grade score = "B".
Proof.
  unfold _get_quality_grade, completeness_threshold.
  destruct (Qle_bool 0.9 score) eqn:E9.
  - apply Qle_bool_iff in E9. split; [now left|]. intros _.
    apply Qle_bool_iff. lra.
  - destruct (Qle_bool 0.8 score) eqn:E8; [split; [now right | reflexivity]|].
    split; [discriminate|].
    destruct (Qle_bool 0.7 score); [intros [H|H]; discriminate H|].
    destruct (Qle_bool 0.6 score); intros [H|H]; discriminate H.
Qed.

(** X20.  A result either records no error and is valid exactly when its score
    reaches 0.8, that is when its own letter grade is A or B; or a check
    raised, and then it is invalid with score 0, grade F and exactly one
    validation error. *)
Theorem validity_is_grade_A_or_B :
  forall (lib : DatetimeLib) (kind : source_kind) (data : Item),
    let r := validate lib kind data in
    (is_valid r = true <->
     _get_quality_grade (quality_score r) = "A" \/
     _get_quality_grade (quality_score r) = "B") /\
    (validation_errors r = [] \/
     (List.length (validation_errors r) = 1%nat /\ is_valid r = false /\
      quality_score r = 0 /\ _get_quality_grade (quality_score r) = "F")).
Proof.
  intros lib kind data. cbn zeta.
  assert (H : forall required optional check_types check_content field,
            let r := validate_with lib required optional check_types
                       check_content field data in
            (is_valid r = true <->
             _get_quality_grade (quality_score r) = "A" \/
             _get_quality_grade (quality_score r) = "B") /\
            (validation_errors r = [] \/
             (List.length (validation_errors r) = 1%nat /\
              is_valid r = false /\ quality_score r = 0 /\
              _get_quality_grade (quality_score r) = "F"))).
  { intros required optional check_types check_content field. cbn zeta.
    destruct (validate_with_hard_error_or_none lib required optional
                check_types check_content field data)
      as [(_ & Herr & Hvalid) | (_ & Herr & Hvalid & Hscore)].
    - split; [rewrite Hvalid; apply grade_of_valid_score | now left].
    - rewrite Hvalid, Hscore. split.
      + split; [discriminate | intros [H|H]; discriminate H].
      + right. repeat split; try assumption. }
  destruct kind;
    unfold validate, validate_reddit_data, validate_news_data,
      validate_twitter_data;
    apply H.
Qed.

Lemma fold_Qplus_bounds (l : list Q) :
  forall a : Q,
    (forall x, In x l -> 0 <= x /\ x <= 1) ->
    a <= fold_left Qplus l a /\
    fold_left Qplus l a <= a + inject_Z (Z.of_nat (List.length l)).
Proof.
  induction l as [|x l IH]; intros a H.
  - cbn [fold_left List.length]. change (inject_Z (Z.of_nat 0)) with 0.
    split; lra.
  - destruct (H x ltac:(now left)) as [Hx0 Hx1].
    destruct (IH (a + x) ltac:(intros y Hy; apply H; now right)) as [Hlo Hhi].
    cbn [fold_left List.length]. rewrite Nat2Z.inj_succ.
    unfold Z.succ. rewrite inject_Z_plus. change (inject_Z 1) with 1.
    split; lra.
Qed.

(** X21.  The summary of the results of a non-empty batch: it counts every
    result, the valid and invalid counts add up to the total, and the
    validation rate and the average score lie between 0 and 1.  An empty
    batch has no summary. *)
Theorem quality_summary_of_batch :
  forall (lib : DatetimeLib) (kind : source_kind) (items : list Item),
    items <> [] ->
    get_quality_summary [] = None /\
    exists summary,
      get_quality_summary (List.map (validate lib kind) items) = Some summary /\
      total_records summary = Z.of_nat (List.length items) /\
      (0 <= valid_records summary <= total_records summary)%Z /\
      (valid_records summary + invalid_records summary
       = total_records summary)%Z /\
      valid_records summary
      = Z.of_nat (List.length
                    (List.filter (fun item => is_valid (validate lib kind item))
                       items)) /\
      0 <= validation_rate summary /\ validation_rate summary <= 1 /\
      0 <= average_quality_score summary /\
      average_quality_score summary <= 1.
Proof.
  intros lib kind items Hne. split; [reflexivity|].
  destruct items as [|item items]; [congruence|].
  set (results := List.map (validate lib kind) (item :: items)).
  assert (Hlen : List.length results = S (List.length items))
    by (unfold results; now rewrite List.length_map).
  assert (Hvalid : (List.length (List.filter is_valid results)
                    <= List.length results)%nat)
    by apply List.filter_length_le.
  assert (Hfilter : List.filter is_valid results
                    = List.map (validate lib kind)
                        (List.filter
                           (fun item => is_valid (validate lib kind item))
                           (item :: items))).
  { unfold results. generalize (item :: items). intros l.
    induction l as [|x l IH]; [reflexivity|]. cbn.
    destruct (is_valid (validate lib kind x)); cbn; now rewrite IH. }
  assert (Hscores : forall x, In x (List.map quality_score results) ->
                      0 <= x /\ x <= 1).
  { intros x Hx. apply in_map_iff in Hx as (r & <- & Hr).
    unfold results in Hr. apply in_map_iff in Hr as (it & <- & _).
    apply quality_score_bounds_helper. }
  eexists. split; [reflexivity|]. cbn [total_records valid_records
    invalid_records validation_rate average_quality_score].
  fold results. rewrite Hlen.
  assert (Hpos : (0 < Z.of_nat (S (List.length items)))%Z) by lia.
  split; [reflexivity|]. split; [lia|]. split; [lia|].
  split; [rewrite Hfilter, List.length_map; reflexivity|].
  destruct (Z.ltb_spec 0 (Z.of_nat (S (List.length items)))) as [_|]; [|lia].
  destruct (Qdiv_unit_interval
              (inject_Z (Z.of_nat (List.length (List.filter is_valid results))))
              (Z.of_nat (S (List.length items)))) as [Hr0 Hr1];
    [change 0 with (inject_Z 0); rewrite <- Zle_Qle; lia
    | rewrite <- Zle_Qle; lia | exact Hpos |].
  destruct (fold_Qplus_bounds (List.map quality_score results) 0 Hscores)
    as [Hs0 Hs1].
  rewrite List.length_map, Hlen in Hs1.
  destruct (Qdiv_unit_interval (sumQ (List.map quality_score results))
              (Z.of_nat (S (List.length items)))) as [Ha0 Ha1];
    [exact Hs0 | unfold sumQ; lra | exact Hpos |].
  repeat split; assumption.
Qed.

(** One valid and one invalid Reddit post. *)
Lemma quality_summary_of_batch_witness :
  exists summary,
    get_quality_summary
      (List.map (validate sample_lib Reddit) [fresh_post; bare_post])
    = Some summary /\
    total_records summary = 2%Z.
Proof.
  destruct (quality_summary_of_batch sample_lib Reddit [fresh_post; bare_post]
              ltac:(discriminate))
    as (_ & summary & Hs & Htotal & _).
  exists summary. split; [exact Hs | exact Htotal].
Defined.

End DataQuality.

(** * Dictionary access shared by the pipeline and the collectors *)
Module Dict.

(** [data[key]]. *)
Definition getitem (data : Item) (key : string) : result pyval :=
  match data !! key with
  | Some v => Ok v
  | None => Raise (Exn "KeyError" key)
  end.

(** [data.get(key, default)]. *)
Definition get (data : Item) (key : string) (default : pyval) : pyval :=
  match data !! key with
  | Some v => v
  | None => default
  end.

(** [all(field in data for field in fields)]. *)
Definition has_fields (data : Item) (fields : list string) : bool :=
  forallb (fun field => match data !! field with
                        | Some _ => true
                        | None => false
                        end) fields.

Lemma has_fields_getitem (data : Item) (fields : list string) (field : string) :
  has_fields data fields = true -> In field fields ->
  exists v, getitem data field = Ok v /\ data !! field = Some v.
Proof.
  unfold has_fields, getitem. rewrite forallb_forall. intros H Hin.
  specialize (H field Hin). destruct (data !! field); [eauto | discriminate].
Qed.

End Dict.

(** * src/storage/data_pipeline.py *)

Module DataPipeline.
Import DataQuality.

(** The counters of a [DataPipeline] object. *)
Record Stats := {
  total_processed : Z;
  successful_stores : Z;
  failed_stores : Z;
  avg_quality_score : Q
}.

(** An invocation of the storage layer, with its arguments and its
    outcome. *)
Inductive StoreCall :=
| CallBronze (data : Item) (source data_type : string) (outcome : result Z)
| CallSilver (bronze_id : Z) (processed_data : Item)
    (validation_status : string) (quality_score : Q) (outcome : result Z)
| CallGold (processed_data_id : Z) (analytics_data : pyval)
    (aggregation_type : string) (metrics : pyval) (outcome : result Z).

(** The lists a source accumulates in [_process_source_data]. *)
Record SourceLists := {
  bronze_ids : list Z;
  silver_ids : list Z;
  gold_ids : list Z;
  quality_results : list DataQualityResult
}.

(** The dictionary [_process_source_data] returns. *)
Record SourceResults := {
  lists : SourceLists;
  quality_summary : option QualitySummary
}.

(** [pipeline_results] of [_process_and_store_data]. *)
Record PipelineResults := {
  bronze_layer : list (string * list Z);
  silver_layer : list (string * list Z);
  gold_layer : list (string * list Z);
  quality_metrics : list (string * option QualitySummary);
  errors : list string
}.

(** The dictionary [_generate_pipeline_summary] returns (without the two
    clock readings). *)
Record PipelineSummary := {
  pipeline_status : string;
  total_items_processed : Z;
  summary_successful_stores : Z;
  summary_failed_stores : Z;
  overall_quality_score : Q;
  summary_quality_grade : string;
  bronze_layer_summary : list (string * Z);
  silver_layer_summary : list (string * Z);
  gold_layer_summary : list (string * Z);
  quality_metrics_by_source : list (string * option QualitySummary);
  summary_errors : list string
}.

Definition _get_data_type (source : string) : string :=
  if String.eqb source "reddit" then "reddit_post"
  else if String.eqb source "news" then "news_article"
  else if String.eqb source "twitter" then "tweet"
  else "unknown".

Definition _get_quality_grade (score : Q) : string :=
  if Qle_bool 0.9 score then "A"
  else if Qle_bool 0.8 score then "B"
  else if Qle_bool 0.7 score then "C"
  else if Qle_bool 0.6 score then "D"
  else "F".

Section Pipeline.

(** The state of the relational store. *)
Variable DB : Type.

(** [DataLakeStorage]: each operation returns the generated identifier
    or raises, and leaves the store in a new state either way. *)
Record Storage := {
  store_bronze_data : Item -> string -> string -> DB -> result Z * DB;
  store_silver_data : Z -> Item -> string -> Q -> DB -> result Z * DB;
  store_gold_data : Z -> pyval -> string -> pyval -> DB -> result Z * DB
}.

Variable storage : Storage.

(** The clock and the [datetime] constructors, fixed over a run. *)
Variable lib : DatetimeLib.

(** The two derivations of the Gold tier.  The pipeline is described
    for arbitrary derivations first, so that what is proved of it holds
    whatever they compute and wherever they raise; the program's own
    [_generate_analytics_data] and [_calculate_metrics] are defined
    after the section and put in their place. *)
Variable _generate_analytics_data : Item -> string -> result pyval.
Variable _calculate_metrics : Item -> string -> result pyval.

(** What a run changes: the store, the counters, and what it leaves in
    the call trace and in the error log. *)
Record World := {
  db : DB;
  stats : Stats;
  calls : list StoreCall;
  log : list (string * PyExn)
}.

Definition with_db (d : DB) (call : StoreCall) (w : World) : World :=
  {| db := d; stats := stats w; calls := calls w ++ [call]; log := log w |}.

(** [self.logger.error(f"Failed to process item from {source}: {e}")]. *)
Definition log_item_failure (source : string) (e : PyExn) (w : World)
  : World :=
  {| db := db w; stats := stats w; calls := calls w;
     log := log w ++ [(source, e)] |}.

(** [self.total_processed += 1] and the success or failure counter. *)
Definition count_processed (valid : bool) (w : World) : World :=
  let s := stats w in
  {| db := db w;
     stats :=
       {| total_processed := total_processed s + 1;
          successful_stores :=
            if valid then successful_stores s + 1 else successful_stores s;
          failed_stores :=
            if valid then failed_stores s else failed_stores s + 1;
          avg_quality_score := avg_quality_score s |};
     calls := calls w; log := log w |}.

Definition _validate_data (source : string) (data : Item)
  : DataQualityResult :=
  if String.eqb source "reddit" then validate_reddit_data lib data
  else if String.eqb source "news" then validate_news_data lib data
  else if String.eqb source "twitter" then validate_twitter_data lib data
  else validate_reddit_data lib data.

Definition add_bronze (id : Z) (l : SourceLists) : SourceLists :=
  {| bronze_ids := bronze_ids l ++ [id]; silver_ids := silver_ids l;
     gold_ids := gold_ids l; quality_results := quality_results l |}.

Definition add_quality (q : DataQualityResult) (l : SourceLists)
  : SourceLists :=
  {| bronze_ids := bronze_ids l; silver_ids := silver_ids l;
     gold_ids := gold_ids l; quality_results := quality_results l ++ [q] |}.

Definition add_silver (id : Z) (l : SourceLists) : SourceLists :=
  {| bronze_ids := bronze_ids l; silver_ids := silver_ids l ++ [id];
     gold_ids := gold_ids l; quality_results := quality_results l |}.

Definition add_gold (id : Z) (l : SourceLists) : SourceLists :=
  {| bronze_ids := bronze_ids l; silver_ids := silver_ids l;
     gold_ids := gold_ids l ++ [id]; quality_results := quality_results l |}.

(** The body of the loop of [_process_source_data] for one item: the
    [try] block, and the handler that logs and continues. *)
Definition process_item (source : string) (item : Item) (l : SourceLists)
    (w : World) : SourceLists * World :=
  let data_type := _get_data_type source in
  match store_bronze_data storage item source data_type (db w) with
  | (Raise e, d) =>
      (l, log_item_failure source e
            (with_db d (CallBronze item source data_type (Raise e)) w))
  | (Ok bronze_id, d) =>
      let w := with_db d (CallBronze item source data_type (Ok bronze_id)) w in
      let l := add_bronze bronze_id l in
      let quality_result := _validate_data source item in
      let l := add_quality quality_result l in
      let validation_status : string :=
        if is_valid quality_result then "valid" else "invalid" in
      let score := quality_score quality_result in
      match store_silver_data storage bronze_id item validation_status score
              (db w) with
      | (Raise e, d) =>
          (l, log_item_failure source e
                (with_db d
                   (CallSilver bronze_id item validation_status score
                      (Raise e)) w))
      | (Ok silver_id, d) =>
          let w :=
            with_db d
              (CallSilver bronze_id item validation_status score
                 (Ok silver_id)) w in
          let l := add_silver silver_id l in
          if is_valid quality_result then
            match _generate_analytics_data item source with
            | Raise e => (l, log_item_failure source e w)
            | Ok analytics_data =>
                match _calculate_metrics item source with
                | Raise e => (l, log_item_failure source e w)
                | Ok metrics =>
                    match store_gold_data storage silver_id analytics_data
                            "individual" metrics (db w) with
                    | (Raise e, d) =>
                        (l, log_item_failure source e
                              (with_db d
                                 (CallGold silver_id analytics_data
                                    "individual" metrics (Raise e)) w))
                    | (Ok gold_id, d) =>
                        (add_gold gold_id l,
                         count_processed true
                           (with_db d
                              (CallGold silver_id analytics_data
                                 "individual" metrics (Ok gold_id)) w))
                    end
                end
            end
          else (l, count_processed false w)
      end
  end.

(** [for item in data_items]. *)
Fixpoint process_items (source : string) (data_items : list Item)
    (l : SourceLists) (w : World) : SourceLists * World :=
  match data_items with
  | [] => (l, w)
  | item :: rest =>
      let '(l, w) := process_item source item l w in
      process_items source rest l w
  end.

(** [_process_source_data]; nothing in it raises past the loop, so it
    always returns. *)
Definition _process_source_data (source : string) (data_items : list Item)
    (w : World) : result SourceResults * World :=
  let empty :=
    {| bronze_ids := []; silver_ids := []; gold_ids := [];
       quality_results := [] |} in
  let '(l, w) := process_items source data_items empty w in
  (Ok {| lists := l;
         quality_summary := get_quality_summary (quality_results l) |}, w).

(** [str(e)] in the message of a source-level failure. *)
Definition exn_text (e : PyExn) : string :=
  match e with
  | Exn _ msg => msg
  | CollectionError _ _ _ => ""
  end.

(** [_process_and_store_data]: the loop over
    [collected_data.items()], from the results accumulated so far. *)
Fixpoint process_sources (collected_data : list (string * list Item))
    (pr : PipelineResults) (w : World) : PipelineResults * World :=
  match collected_data with
  | [] => (pr, w)
  | (source, data_items) :: rest =>
      match data_items with
      | [] => process_sources rest pr w
      | _ =>
          match _process_source_data source data_items w with
          | (Ok source_results, w) =>
              let l := lists source_results in
              process_sources rest
                {| bronze_layer :=
                     Orchestrator.dict_set source (bronze_ids l)
                       (bronze_layer pr);
                   silver_layer :=
                     Orchestrator.dict_set source (silver_ids l)
                       (silver_layer pr);
                   gold_layer :=
                     Orchestrator.dict_set source (gold_ids l) (gold_layer pr);
                   quality_metrics :=
                     Orchestrator.dict_set source
                       (quality_summary source_results) (quality_metrics pr);
                   errors := errors pr |}
                w
          | (Raise e, w) =>
              let error_msg :=
                String.append "Failed to process "
                  (String.append source
                     (String.append " data: " (exn_text e))) in
              process_sources rest
                {| bronze_layer := bronze_layer pr;
                   silver_layer := silver_layer pr;
                   gold_layer := gold_layer pr;
                   quality_metrics := quality_metrics pr;
                   errors := errors pr ++ [error_msg] |}
                w
          end
      end
  end.

Definition _process_and_store_data
    (collected_data : list (string * list Item)) (w : World)
  : PipelineResults * World :=
  process_sources collected_data
    {| bronze_layer := []; silver_layer := []; gold_layer := [];
       quality_metrics := []; errors := [] |}
    w.

Definition lengths (layer : list (string * list Z)) : list (string * Z) :=
  List.map (fun entry => (fst entry, Z.of_nat (List.length (snd entry))))
    layer.

(** [_generate_pipeline_summary]. *)
Definition _generate_pipeline_summary (pr : PipelineResults) (w : World)
  : PipelineSummary * World :=
  let all_quality_scores :=
    flat_map (fun entry =>
                match snd entry with
                | Some source_metrics => [average_quality_score source_metrics]
                | None => []
                end)
      (quality_metrics pr) in
  let overall_quality :=
    match all_quality_scores with
    | [] => 0
    | _ => sumQ all_quality_scores
           / inject_Z (Z.of_nat (List.length all_quality_scores))
    end in
  let s := stats w in
  let w :=
    {| db := db w;
       stats :=
         {| total_processed := total_processed s;
            successful_stores := successful_stores s;
            failed_stores := failed_stores s;
            avg_quality_score := overall_quality |};
       calls := calls w; log := log w |} in
  ({| pipeline_status := "completed";
      total_items_processed := total_processed s;
      summary_successful_stores := successful_stores s;
      summary_failed_stores := failed_stores s;
      overall_quality_score := overall_quality;
      summary_quality_grade := _get_quality_grade overall_quality;
      bronze_layer_summary := lengths (bronze_layer pr);
      silver_layer_summary := lengths (silver_layer pr);
      gold_layer_summary := lengths (gold_layer pr);
      quality_metrics_by_source := quality_metrics pr;
      summary_errors := errors pr |}, w).

(** [_collect_data]: the orchestrator call chosen by [collection_type]. *)
Definition _collect_data (collectors : Orchestrator.Registry)
    (collection_type : string) (limit : Z) (now : Q)
  : result Orchestrator.Collected :=
  if String.eqb collection_type "technology"
  then Orchestrator.collect_technology_data collectors limit now
  else if String.eqb collection_type "trending"
  then Orchestrator.collect_trending_data collectors limit now
  else Orchestrator.collect_all_data collectors None now.

(** [run_collection_pipeline]: a failure of the collection step is
    re-raised; otherwise the summary is returned. *)
Definition run_collection_pipeline (collectors : Orchestrator.Registry)
    (collection_type : string) (limit : Z) (now : Q) (w : World)
  : result PipelineSummary * World :=
  match _collect_data collectors collection_type limit now with
  | Raise e => (Raise e, w)
  | Ok collected =>
      let '(pipeline_results, w) :=
        _process_and_store_data (Orchestrator.results collected) w in
      let '(summary, w) := _generate_pipeline_summary pipeline_results w in
      (Ok summary, w)
  end.

(** ** Reading the call trace *)

Definition is_gold_call (c : StoreCall) : bool :=
  match c with
  | CallGold _ _ _ _ _ => true
  | _ => false
  end.

(** The items handed to [store_bronze_data], with their source. *)
Definition bronze_items (trace : list StoreCall) : list (string * Item) :=
  flat_map (fun c =>
              match c with
              | CallBronze data source _ _ => [(source, data)]
              | _ => []
              end)
    trace.

(** What the processing of one item leaves in the trace: one Bronze
    call for the item; a Gold call only after the item was judged valid
    and its Silver record stored as "valid", under that Silver
    identifier; and a Gold call exactly when the Silver record was
    stored as "valid" and both derivations returned for the item. *)
Definition item_trace (source : string) (item : Item)
    (trace : list StoreCall) : Prop :=
  bronze_items trace = [(source, item)] /\
  (forall c, In c trace -> is_gold_call c = true ->
     is_valid (_validate_data source item) = true /\
     exists bronze_id silver_id analytics metrics outcome,
       c = CallGold silver_id analytics "individual" metrics outcome /\
       In (CallSilver bronze_id item "valid"
             (quality_score (_validate_data source item)) (Ok silver_id))
          trace) /\
  (existsb is_gold_call trace = true <->
   (exists bronze_id silver_id,
      In (CallSilver bronze_id item "valid"
            (quality_score (_validate_data source item)) (Ok silver_id))
         trace) /\
   is_ok (_generate_analytics_data item source) = true /\
   is_ok (_calculate_metrics item source) = true).

(** Number of results judged valid among those collected so far. *)
Definition valid_count (l : SourceLists) : nat :=
  List.length (List.filter is_valid (quality_results l)).

(** *** One item *)

Lemma valid_count_add_quality (q : DataQualityResult) (l : SourceLists) :
  valid_count (add_quality q l)
  = (valid_count l + if is_valid q then 1 else 0)%nat.
Proof.
  unfold valid_count, add_quality. cbn [quality_results].
  rewrite List.filter_app, List.length_app. cbn.
  destruct (is_valid q); reflexivity.
Qed.

(** The effect of processing one item on the trace, the lists, the
    counters and the log. *)
Ltac lists_arith :=
  unfold valid_count, add_gold, add_silver, add_bronze, add_quality;
  cbn [gold_ids quality_results fst snd];
  rewrite ?List.filter_app, ?List.length_app;
  cbn [List.filter List.length];
  repeat match goal with
         | H : is_valid ?q = _ |- context [is_valid ?q] => rewrite H
         end;
  repeat match goal with
         | |- context [is_valid ?q] => destruct (is_valid q)
         end;
  cbn [List.length]; lia.

(** No call of the trace is a stored "valid" Silver record. *)
Ltac no_valid_silver H :=
  cbn [In] in H;
  repeat (destruct H as [H | H]; [discriminate H || congruence|]);
  destruct H.

(** An exception while an item is processed leaves one entry in the
    log; [entries] is what the step appended. *)
Ltac logged :=
  eexists; split; [reflexivity | intros Hnone; discriminate Hnone].

Lemma process_item_spec (source : string) (item : Item) (l : SourceLists)
    (w : World) :
  let l' := fst (process_item source item l w) in
  let w' := snd (process_item source item l w) in
  let q := _validate_data source item in
  exists trace,
    calls w' = calls w ++ trace /\
    item_trace source item trace /\
    (List.length (gold_ids l') + valid_count l
     <= List.length (gold_ids l) + valid_count l')%nat /\
    (exists entries,
       log w' = log w ++ entries /\
       (entries = [] ->
        quality_results l' = quality_results l ++ [q] /\
        List.length (gold_ids l')
        = (List.length (gold_ids l) + if is_valid q then 1 else 0)%nat)) /\
    (total_processed (stats w') + Z.of_nat (List.length (log w'))
     = total_processed (stats w) + Z.of_nat (List.length (log w)) + 1)%Z.
Proof.
  cbn zeta. unfold process_item, item_trace.
  destruct (store_bronze_data storage item source (_get_data_type source)
              (db w)) as [[bronze_id|e] d] eqn:Eb.
  2:{ eexists. cbn [fst snd calls with_db log_item_failure log].
      split; [reflexivity|]. split; [|split; [lia|split]].
      - split; [reflexivity|]. split.
        + intros c [<-|[]]. discriminate.
        + split; [intros H; discriminate H|].
          intros ((b & s & H) & _). no_valid_silver H.
      - logged.
      - cbn. rewrite List.length_app. cbn. lia. }
  cbn [db with_db].
  set (q := _validate_data source item).
  destruct (is_valid q) eqn:Ev.
  2:{ destruct (store_silver_data storage bronze_id item "invalid"
                  (quality_score q) d) as [[silver_id|e] d'] eqn:Es.
      - eexists. cbn [fst snd calls with_db count_processed log].
        rewrite <- app_assoc. split; [reflexivity|].
        split; [|split; [|split]].
        + split; [reflexivity|]. split.
          * intros c [<-|[<-|[]]]; discriminate.
          * split; [intros H; discriminate H|].
            intros ((b & s & H) & _). no_valid_silver H.
        + lists_arith.
        + exists []. split; [now rewrite app_nil_r|]. intros _.
          split; [reflexivity | lists_arith].
        + cbn. lia.
      - eexists. cbn [fst snd calls with_db log_item_failure log].
        rewrite <- app_assoc. split; [reflexivity|].
        split; [|split; [|split]].
        + split; [reflexivity|]. split.
          * intros c [<-|[<-|[]]]; discriminate.
          * split; [intros H; discriminate H|].
            intros ((b & s & H) & _). no_valid_silver H.
        + lists_arith.
        + logged.
        + cbn. rewrite List.length_app. cbn. lia. }
  destruct (store_silver_data storage bronze_id item "valid"
              (quality_score q) d) as [[silver_id|e] d'] eqn:Es.
  2:{ eexists. cbn [fst snd calls with_db log_item_failure log].
      rewrite <- app_assoc. split; [reflexivity|].
      split; [|split; [|split]].
      - split; [reflexivity|]. split.
        + intros c [<-|[<-|[]]]; discriminate.
        + split; [intros H; discriminate H|].
          intros ((b & s & H) & _). no_valid_silver H.
      - lists_arith.
      - logged.
      - cbn. rewrite List.length_app. cbn. lia. }
  destruct (_generate_analytics_data item source) as [analytics|e] eqn:Ea.
  2:{ eexists. cbn [fst snd calls with_db log_item_failure log].
      rewrite <- app_assoc. split; [reflexivity|].
      split; [|split; [|split]].
      - split; [reflexivity|]. split.
        + intros c [<-|[<-|[]]]; discriminate.
        + split; [intros H; discriminate H|].
          intros (_ & H & _). discriminate H.
      - lists_arith.
      - logged.
      - cbn. rewrite List.length_app. cbn. lia. }
  destruct (_calculate_metrics item source) as [metrics|e] eqn:Em.
  2:{ eexists. cbn [fst snd calls with_db log_item_failure log].
      rewrite <- app_assoc. split; [reflexivity|].
      split; [|split; [|split]].
      - split; [reflexivity|]. split.
        + intros c [<-|[<-|[]]]; discriminate.
        + split; [intros H; discriminate H|].
          intros (_ & _ & H). discriminate H.
      - lists_arith.
      - logged.
      - cbn. rewrite List.length_app. cbn. lia. }
  destruct (store_gold_data storage silver_id analytics "individual" metrics
              d') as [[gold_id|e] d''] eqn:Eg.
  - eexists. cbn [fst snd calls with_db count_processed log].
    rewrite <- !app_assoc. split; [reflexivity|].
    split; [|split; [|split]].
    + split; [reflexivity|]. split.
      * intros c [<-|[<-|[<-|[]]]]; try discriminate. intros _.
        split; [reflexivity|].
        exists bronze_id, silver_id, analytics, metrics, (Ok gold_id).
        split; [reflexivity|]. right. left. reflexivity.
      * split; [|reflexivity]. intros _.
        split; [|split; reflexivity].
        exists bronze_id, silver_id. right. left. reflexivity.
    + lists_arith.
    + exists []. split; [now rewrite app_nil_r|]. intros _.
      split; [reflexivity | lists_arith].
    + cbn. lia.
  - eexists. cbn [fst snd calls with_db log_item_failure log].
    rewrite <- !app_assoc. split; [reflexivity|].
    split; [|split; [|split]].
    + split; [reflexivity|]. split.
      * intros c [<-|[<-|[<-|[]]]]; try discriminate. intros _.
        split; [reflexivity|].
        exists bronze_id, silver_id, analytics, metrics, (Raise e).
        split; [reflexivity|]. right. left. reflexivity.
      * split; [|reflexivity]. intros _.
        split; [|split; reflexivity].
        exists bronze_id, silver_id. right. left. reflexivity.
    + lists_arith.
    + logged.
    + cbn. rewrite List.length_app. cbn. lia.
Qed.

(** *** All items of a source *)

Lemma process_items_spec (source : string) (data_items : list Item) :
  forall (l : SourceLists) (w : World),
    let l' := fst (process_items source data_items l w) in
    let w' := snd (process_items source data_items l w) in
    exists traces,
      calls w' = calls w ++ concat traces /\
      Forall2 (item_trace source) data_items traces /\
      (List.length (gold_ids l') + valid_count l
       <= List.length (gold_ids l) + valid_count l')%nat /\
      (exists entries,
         log w' = log w ++ entries /\
         (entries = [] ->
          quality_results l'
          = quality_results l ++ List.map (_validate_data source) data_items /\
          List.length (gold_ids l')
          = (List.length (gold_ids l)
             + List.length
                 (List.filter
                    (fun item => is_valid (_validate_data source item))
                    data_items))%nat)) /\
      (total_processed (stats w') + Z.of_nat (List.length (log w'))
       = total_processed (stats w) + Z.of_nat (List.length (log w))
         + Z.of_nat (List.length data_items))%Z.
Proof.
  induction data_items as [|item rest IH]; intros l w; cbn zeta.
  - exists []. cbn. rewrite app_nil_r.
    split; [reflexivity|]. split; [constructor|]. split; [lia|].
    split; [|lia]. exists []. rewrite !app_nil_r. split; [reflexivity|].
    intros _. split; [reflexivity | lia].
  - cbn [process_items].
    destruct (process_item_spec source item l w)
      as (trace & Hcalls & Htrace & Hgold & (entries & Hlog & Hrel) & Hcount).
    destruct (process_item source item l w) as [l1 w1].
    cbn [fst snd] in *.
    destruct (IH l1 w1)
      as (traces & Hcalls' & Htraces & Hgold' & (entries' & Hlog' & Hrel')
          & Hcount').
    exists (trace :: traces).
    split; [rewrite Hcalls', Hcalls; cbn; now rewrite app_assoc|].
    split; [now constructor|].
    split; [lia|].
    split.
    + exists (entries ++ entries').
      split; [rewrite Hlog', Hlog; now rewrite app_assoc|].
      intros Hnone. apply app_eq_nil in Hnone as [H1 H2].
      destruct (Hrel H1) as [Hq Hg]. destruct (Hrel' H2) as [Hq' Hg'].
      split; [rewrite Hq', Hq; cbn; now rewrite <- app_assoc|].
      rewrite Hg', Hg. cbn [List.filter].
      destruct (is_valid (_validate_data source item)); cbn; lia.
    + cbn [List.length]. lia.
Qed.

Lemma bronze_items_app (t1 t2 : list StoreCall) :
  bronze_items (t1 ++ t2) = bronze_items t1 ++ bronze_items t2.
Proof. unfold bronze_items. apply flat_map_app. Qed.

Lemma bronze_items_concat (source : string) (data_items : list Item)
    (traces : list (list StoreCall)) :
  Forall2 (item_trace source) data_items traces ->
  bronze_items (concat traces) = List.map (pair source) data_items.
Proof.
  induction 1 as [|item trace data_items traces [Hb _] _ IH]; [reflexivity|].
  cbn. now rewrite bronze_items_app, Hb, IH.
Qed.

(** [_process_source_data] for arbitrary derivations: it always
    returns; each item has its own segment of the trace; the Gold count
    is at most the number of results judged valid; and when the run
    logged no item failure, the Gold count is the number of valid
    items. *)
Lemma process_source_data_gold (source : string) (data_items : list Item)
    (w : World) :
  exists source_results traces,
    fst (_process_source_data source data_items w) = Ok source_results /\
    calls (snd (_process_source_data source data_items w))
    = calls w ++ concat traces /\
    Forall2 (item_trace source) data_items traces /\
    (List.length (gold_ids (lists source_results))
     <= List.length
          (List.filter is_valid (quality_results (lists source_results))))%nat /\
    (forall summary,
       quality_summary source_results = Some summary ->
       (Z.of_nat (List.length (gold_ids (lists source_results)))
        <= valid_records summary)%Z) /\
    (log (snd (_process_source_data source data_items w)) = log w ->
     quality_results (lists source_results)
     = List.map (_validate_data source) data_items /\
     List.length (gold_ids (lists source_results))
     = List.length
         (List.filter (fun item => is_valid (_validate_data source item))
            data_items) /\
     forall summary,
       quality_summary source_results = Some summary ->
       Z.of_nat (List.length (gold_ids (lists source_results)))
       = valid_records summary).
Proof.
  unfold _process_source_data.
  destruct (process_items_spec source data_items
              {| bronze_ids := []; silver_ids := []; gold_ids := [];
                 quality_results := [] |} w)
    as (traces & Hcalls & Htraces & Hgold & (entries & Hlog & Hrel) & _).
  destruct (process_items source data_items _ w) as [l w'].
  cbn [fst snd] in *. unfold valid_count in Hgold. cbn in Hgold.
  assert (Hsummary : forall summary,
            get_quality_summary (quality_results l) = Some summary ->
            valid_records summary
            = Z.of_nat (List.length (List.filter is_valid (quality_results l)))).
  { intros summary. unfold get_quality_summary.
    destruct (quality_results l); [discriminate|].
    now intros [= <-]. }
  exists {| lists := l;
            quality_summary := get_quality_summary (quality_results l) |},
         traces.
  cbn [lists quality_summary].
  split; [reflexivity|]. split; [exact Hcalls|]. split; [exact Htraces|].
  split; [lia|].
  split; [intros summary Hs; rewrite (Hsummary summary Hs); lia|].
  intros Hsame.
  assert (Hnone : entries = []).
  { rewrite Hlog in Hsame. rewrite <- (app_nil_r (log w)) in Hsame at 2.
    now apply app_inv_head in Hsame. }
  destruct (Hrel Hnone) as [Hq Hg]. cbn in Hq, Hg.
  split; [exact Hq|]. split; [exact Hg|].
  intros summary Hs. rewrite (Hsummary summary Hs), Hg, Hq.
  f_equal. clear. induction data_items as [|item rest IH]; [reflexivity|].
  cbn. destruct (is_valid (_validate_data source item)); cbn; now rewrite IH.
Qed.

(** *** All sources *)

Lemma process_sources_spec (collected_data : list (string * list Item)) :
  forall (pr : PipelineResults) (w : World),
    let pr' := fst (process_sources collected_data pr w) in
    let w' := snd (process_sources collected_data pr w) in
    errors pr' = errors pr /\
    (exists trace,
       calls w' = calls w ++ trace /\
       bronze_items trace
       = flat_map (fun entry => List.map (pair (fst entry)) (snd entry))
           collected_data) /\
    (total_processed (stats w') + Z.of_nat (List.length (log w'))
     = total_processed (stats w) + Z.of_nat (List.length (log w))
       + Z.of_nat (List.length (concat (List.map snd collected_data))))%Z.
Proof.
  induction collected_data as [|[source data_items] rest IH]; intros pr w;
    cbn zeta.
  - cbn. split; [reflexivity|]. split; [|lia].
    exists []. now rewrite app_nil_r.
  - cbn [process_sources].
    destruct data_items as [|item items].
    { destruct (IH pr w) as (He & (trace & Hc & Hb) & Hn).
      split; [exact He|]. split; [|exact Hn].
      exists trace. split; [exact Hc | exact Hb]. }
    set (data_items := item :: items).
    unfold _process_source_data.
    destruct (process_items_spec source data_items
                {| bronze_ids := []; silver_ids := []; gold_ids := [];
                   quality_results := [] |} w)
      as (traces & Hcalls & Htraces & _ & _ & Hcount).
    destruct (process_items source data_items _ w) as [l w1].
    cbn [fst snd] in *.
    match goal with
    | |- context [process_sources rest ?p w1] =>
        destruct (IH p w1) as (He & (trace & Hc & Hb) & Hn)
    end.
    split; [exact He|]. split.
    + exists (concat traces ++ trace).
      split; [rewrite Hc, Hcalls; now rewrite app_assoc|].
      rewrite bronze_items_app, Hb.
      now rewrite (bronze_items_concat source data_items traces Htraces).
    + cbn [List.map concat snd]. rewrite List.length_app. lia.
Qed.

(** C5, as the code has it.  An exception raised while an item is stored
    (at any tier) is caught inside the loop over the items, logged, and
    the loop goes on: [store_bronze_data] is invoked for every collected
    item of every source, in order, and every item is either counted as
    processed or leaves one entry in the error log.  Nothing is appended
    to the error list of the run, which stays empty; and whenever the
    collection step returns, the run returns a summary with status
    "completed". *)
Theorem item_failures_are_logged_and_skipped :
  forall (collected_data : list (string * list Item)) (w : World),
    errors (fst (_process_and_store_data collected_data w)) = [] /\
    (exists trace,
       calls (snd (_process_and_store_data collected_data w))
       = calls w ++ trace /\
       bronze_items trace
       = flat_map (fun entry => List.map (pair (fst entry)) (snd entry))
           collected_data) /\
    (total_processed (stats (snd (_process_and_store_data collected_data w)))
     + Z.of_nat
         (List.length (log (snd (_process_and_store_data collected_data w))))
     = total_processed (stats w) + Z.of_nat (List.length (log w))
       + Z.of_nat (List.length (concat (List.map snd collected_data))))%Z /\
    (forall collectors collection_type limit now collected,
       _collect_data collectors collection_type limit now = Ok collected ->
       exists summary,
         fst (run_collection_pipeline collectors collection_type limit now w)
         = Ok summary /\
         pipeline_status summary = "completed" /\
         summary_errors summary = []).
Proof.
  intros collected_data w. unfold _process_and_store_data.
  destruct (process_sources_spec collected_data
              {| bronze_layer := []; silver_layer := []; gold_layer := [];
                 quality_metrics := []; errors := [] |} w)
    as (He & Htrace & Hcount).
  split; [exact He|]. split; [exact Htrace|]. split; [exact Hcount|].
  intros collectors collection_type limit now collected Hcollect.
  unfold run_collection_pipeline, _process_and_store_data. rewrite Hcollect.
  destruct (process_sources_spec (Orchestrator.results collected)
              {| bronze_layer := []; silver_layer := []; gold_layer := [];
                 quality_metrics := []; errors := [] |} w)
    as (He' & _ & _).
  destruct (process_sources (Orchestrator.results collected) _ w) as [pr w1].
  cbn [fst snd] in *. eexists. split; [reflexivity|].
  split; [reflexivity | exact He'].
Qed.

(** ** More of the pipeline: counts per tier, the summary, whole runs *)

(** [get_pipeline_stats]. *)
Record PipelineStats := {
  stats_total_processed : Z;
  stats_successful_stores : Z;
  stats_failed_stores : Z;
  stats_success_rate : Q;
  stats_average_quality_score : Q;
  stats_quality_grade : string
}.

Definition get_pipeline_stats (w : World) : PipelineStats :=
  let s := stats w in
  {| stats_total_processed := total_processed s;
     stats_successful_stores := successful_stores s;
     stats_failed_stores := failed_stores s;
     stats_success_rate :=
       inject_Z (successful_stores s)
       / inject_Z (Z.max (total_processed s) 1);
     stats_average_quality_score := avg_quality_score s;
     stats_quality_grade := _get_quality_grade (avg_quality_score s) |}.

(** The sources of a collection that brought at least one item. *)
Definition sources_with_items (collected_data : list (string * list Item))
  : list string :=
  Orchestrator.keys
    (List.filter (fun entry => match snd entry with [] => false | _ => true end)
       collected_data).

(** How the lists and the counters move while [n] items are processed. *)
Definition tier_step (l l' : SourceLists) (w w' : World) (n : nat) : Prop :=
  (List.length (gold_ids l) <= List.length (gold_ids l'))%nat /\
  (List.length (gold_ids l') + List.length (silver_ids l)
   <= List.length (gold_ids l) + List.length (silver_ids l'))%nat /\
  (List.length (silver_ids l') + List.length (bronze_ids l)
   <= List.length (silver_ids l) + List.length (bronze_ids l'))%nat /\
  (List.length (bronze_ids l') + List.length (quality_results l)
   = List.length (bronze_ids l) + List.length (quality_results l'))%nat /\
  (List.length (bronze_ids l) <= List.length (bronze_ids l'))%nat /\
  (List.length (bronze_ids l') <= List.length (bronze_ids l) + n)%nat /\
  (successful_stores (stats w') - successful_stores (stats w)
   = Z.of_nat (List.length (gold_ids l')) - Z.of_nat (List.length (gold_ids l)))%Z /\
  (failed_stores (stats w) <= failed_stores (stats w'))%Z /\
  (total_processed (stats w') - total_processed (stats w)
   = (successful_stores (stats w') - successful_stores (stats w))
     + (failed_stores (stats w') - failed_stores (stats w)))%Z /\
  (total_processed (stats w') - total_processed (stats w)
   <= Z.of_nat (List.length (silver_ids l'))
      - Z.of_nat (List.length (silver_ids l)))%Z /\
  avg_quality_score (stats w') = avg_quality_score (stats w).

Ltac counts_arith :=
  unfold tier_step, add_gold, add_silver, add_bronze, add_quality,
    count_processed, log_item_failure, with_db;
  cbn [fst snd gold_ids silver_ids bronze_ids quality_results stats
       total_processed successful_stores failed_stores avg_quality_score];
  rewrite ?List.length_app; cbn [List.length];
  repeat split; try reflexivity; lia.

Lemma process_item_counts (source : string) (item : Item) (l : SourceLists)
    (w : World) :
  tier_step l (fst (process_item source item l w)) w
    (snd (process_item source item l w)) 1.
Proof.
  unfold process_item.
  destruct (store_bronze_data storage item source (_get_data_type source)
              (db w)) as [[bronze_id|e] d]; [|counts_arith].
  cbn [db with_db].
  destruct (store_silver_data storage bronze_id item _ _ d)
    as [[silver_id|e] d']; [|counts_arith].
  destruct (is_valid (_validate_data source item)); [|counts_arith].
  destruct (_generate_analytics_data item source) as [analytics|e];
    [|counts_arith].
  destruct (_calculate_metrics item source) as [metrics|e]; [|counts_arith].
  cbn [db with_db].
  destruct (store_gold_data storage silver_id analytics "individual" metrics
              d') as [[gold_id|e] d'']; counts_arith.
Qed.

Lemma process_items_counts (source : string) (data_items : list Item) :
  forall (l : SourceLists) (w : World),
    tier_step l (fst (process_items source data_items l w)) w
      (snd (process_items source data_items l w)) (List.length data_items).
Proof.
  induction data_items as [|item rest IH]; intros l w.
  - cbn. unfold tier_step. repeat split; try reflexivity; lia.
  - cbn [process_items List.length].
    pose proof (process_item_counts source item l w) as H1.
    destruct (process_item source item l w) as [l1 w1]. cbn [fst snd] in H1.
    pose proof (IH l1 w1) as H2. unfold tier_step in *.
    destruct H1 as (? & ? & ? & ? & ? & ? & ? & ? & ? & ? & ?).
    destruct H2 as (? & ? & ? & ? & ? & ? & ? & ? & ? & ? & ?).
    repeat split; try lia. congruence.
Qed.

(** *** What became of each item *)

(** What became of an item: its processing raised, which the handler
    logged, or it ran to the end and the item was counted, as a success
    when it was judged valid and as a failure when it was not. *)
Inductive ItemOutcome :=
| Raised (e : PyExn)
| CountedValid
| CountedInvalid.

Definition counted_valid (o : ItemOutcome) : bool :=
  match o with
  | CountedValid => true
  | _ => false
  end.

Definition counted_invalid (o : ItemOutcome) : bool :=
  match o with
  | CountedInvalid => true
  | _ => false
  end.

Definition count_of (f : ItemOutcome -> bool) (outcomes : list ItemOutcome)
  : Z :=
  Z.of_nat (List.length (List.filter f outcomes)).

(** The log entries of the outcomes that raised, in order. *)
Definition raised_entries (source : string) (outcomes : list ItemOutcome)
  : list (string * PyExn) :=
  flat_map (fun o =>
              match o with
              | Raised e => [(source, e)]
              | _ => []
              end)
    outcomes.

(** What a storage call answered. *)
Definition call_outcome (c : StoreCall) : result Z :=
  match c with
  | CallBronze _ _ _ outcome => outcome
  | CallSilver _ _ _ _ outcome => outcome
  | CallGold _ _ _ _ outcome => outcome
  end.

(** How the outcome of an item shows in its segment of the trace.  It
    raised [e] when a storage call of the segment raised [e], or when
    every call returned, the item was judged valid and one of the two
    derivations raised [e].  It was counted as a success when it was
    judged valid, every call returned and the Gold store was among
    them; as a failure when it was judged invalid and its Silver record
    was stored, as "invalid". *)
Definition item_ledger (source : string) (item : Item)
    (trace : list StoreCall) (o : ItemOutcome) : Prop :=
  let q := _validate_data source item in
  match o with
  | Raised e =>
      (exists c, In c trace /\ call_outcome c = Raise e) \/
      (is_valid q = true /\
       Forall (fun c => is_ok (call_outcome c) = true) trace /\
       (_generate_analytics_data item source = Raise e \/
        (is_ok (_generate_analytics_data item source) = true /\
         _calculate_metrics item source = Raise e)))
  | CountedValid =>
      is_valid q = true /\
      Forall (fun c => is_ok (call_outcome c) = true) trace /\
      existsb is_gold_call trace = true
  | CountedInvalid =>
      is_valid q = false /\
      Forall (fun c => is_ok (call_outcome c) = true) trace /\
      exists bronze_id silver_id,
        In (CallSilver bronze_id item "invalid" (quality_score q)
              (Ok silver_id)) trace
  end.

(** What the outcomes of a run of items add to the log, the counters
    and the Gold list. *)
Definition ledger_step (source : string) (outcomes : list ItemOutcome)
    (l l' : SourceLists) (w w' : World) : Prop :=
  log w' = log w ++ raised_entries source outcomes /\
  (successful_stores (stats w')
   = successful_stores (stats w) + count_of counted_valid outcomes)%Z /\
  (failed_stores (stats w')
   = failed_stores (stats w) + count_of counted_invalid outcomes)%Z /\
  (total_processed (stats w')
   = total_processed (stats w) + count_of counted_valid outcomes
     + count_of counted_invalid outcomes)%Z /\
  (Z.of_nat (List.length (gold_ids l'))
   = Z.of_nat (List.length (gold_ids l)) + count_of counted_valid outcomes)%Z.

Ltac ledger_arith :=
  unfold ledger_step, count_of, raised_entries, add_gold, add_silver,
    add_bronze, add_quality, count_processed, log_item_failure, with_db;
  cbn [fst snd gold_ids silver_ids bronze_ids quality_results stats log
       total_processed successful_stores failed_stores avg_quality_score
       flat_map List.filter counted_valid counted_invalid List.length app];
  rewrite ?app_nil_r, ?List.length_app; cbn [List.length];
  repeat split; try reflexivity; lia.

Ltac all_returned :=
  repeat (constructor; [reflexivity|]); constructor.

Lemma process_item_ledger (source : string) (item : Item) (l : SourceLists)
    (w : World) :
  exists trace o,
    calls (snd (process_item source item l w)) = calls w ++ trace /\
    item_ledger source item trace o /\
    ledger_step source [o] l (fst (process_item source item l w)) w
      (snd (process_item source item l w)).
Proof.
  unfold process_item, item_ledger.
  destruct (store_bronze_data storage item source (_get_data_type source)
              (db w)) as [[bronze_id|e] d] eqn:Eb.
  2:{ eexists; exists (Raised e). cbn [fst snd calls with_db log_item_failure].
      split; [reflexivity|]. split; [|ledger_arith].
      left. eexists. split; [left; reflexivity | reflexivity]. }
  cbn [db with_db].
  set (q := _validate_data source item).
  destruct (is_valid q) eqn:Ev.
  2:{ destruct (store_silver_data storage bronze_id item "invalid"
                  (quality_score q) d) as [[silver_id|e] d'] eqn:Es.
      - eexists; exists CountedInvalid.
        cbn [fst snd calls with_db count_processed].
        rewrite <- app_assoc. split; [reflexivity|]. split; [|ledger_arith].
        split; [reflexivity|]. split; [all_returned|].
        exists bronze_id, silver_id. right. left. reflexivity.
      - eexists; exists (Raised e).
        cbn [fst snd calls with_db log_item_failure].
        rewrite <- app_assoc. split; [reflexivity|]. split; [|ledger_arith].
        left. eexists. split; [right; left; reflexivity | reflexivity]. }
  destruct (store_silver_data storage bronze_id item "valid"
              (quality_score q) d) as [[silver_id|e] d'] eqn:Es.
  2:{ eexists; exists (Raised e).
      cbn [fst snd calls with_db log_item_failure].
      rewrite <- app_assoc. split; [reflexivity|]. split; [|ledger_arith].
      left. eexists. split; [right; left; reflexivity | reflexivity]. }
  destruct (_generate_analytics_data item source) as [analytics|e] eqn:Ea.
  2:{ eexists; exists (Raised e).
      cbn [fst snd calls with_db log_item_failure].
      rewrite <- app_assoc. split; [reflexivity|]. split; [|ledger_arith].
      right. split; [reflexivity|]. split; [all_returned|].
      left. reflexivity. }
  destruct (_calculate_metrics item source) as [metrics|e] eqn:Em.
  2:{ eexists; exists (Raised e).
      cbn [fst snd calls with_db log_item_failure].
      rewrite <- app_assoc. split; [reflexivity|]. split; [|ledger_arith].
      right. split; [reflexivity|]. split; [all_returned|].
      right. split; reflexivity. }
  destruct (store_gold_data storage silver_id analytics "individual" metrics
              d') as [[gold_id|e] d''] eqn:Eg.
  - eexists; exists CountedValid.
    cbn [fst snd calls with_db count_processed].
    rewrite <- !app_assoc. split; [reflexivity|]. split; [|ledger_arith].
    split; [reflexivity|]. split; [all_returned | reflexivity].
  - eexists; exists (Raised e).
    cbn [fst snd calls with_db log_item_failure].
    rewrite <- !app_assoc. split; [reflexivity|]. split; [|ledger_arith].
    left. eexists. split; [right; right; left; reflexivity | reflexivity].
Qed.

Lemma count_of_cons (f : ItemOutcome -> bool) (o : ItemOutcome)
    (outcomes : list ItemOutcome) :
  count_of f (o :: outcomes)
  = (count_of f [o] + count_of f outcomes)%Z.
Proof. unfold count_of. cbn. destruct (f o); cbn [List.length]; lia. Qed.

Lemma process_items_ledger (source : string) (data_items : list Item) :
  forall (l : SourceLists) (w : World),
    exists segments,
      calls (snd (process_items source data_items l w))
      = calls w ++ concat (List.map fst segments) /\
      Forall2 (fun item segment =>
                 item_ledger source item (fst segment) (snd segment))
        data_items segments /\
      ledger_step source (List.map snd segments) l
        (fst (process_items source data_items l w)) w
        (snd (process_items source data_items l w)).
Proof.
  induction data_items as [|item rest IH]; intros l w.
  - exists []. cbn. rewrite app_nil_r.
    split; [reflexivity|]. split; [constructor|]. ledger_arith.
  - cbn [process_items].
    destruct (process_item_ledger source item l w)
      as (trace & o & Hcalls & Hitem & Hstep).
    destruct (process_item source item l w) as [l1 w1].
    cbn [fst snd] in *.
    destruct (IH l1 w1) as (segments & Hcalls' & Hitems & Hstep').
    exists ((trace, o) :: segments). cbn [List.map fst snd concat].
    split; [rewrite Hcalls', Hcalls; now rewrite app_assoc|].
    split; [now constructor|].
    unfold ledger_step in *.
    destruct Hstep as (Hlog & Hs & Hf & Ht & Hg).
    destruct Hstep' as (Hlog' & Hs' & Hf' & Ht' & Hg').
    rewrite (count_of_cons counted_valid), (count_of_cons counted_invalid).
    split; [|repeat split; lia].
    rewrite Hlog', Hlog. unfold raised_entries. cbn [flat_map].
    now rewrite app_nil_r, app_assoc.
Qed.

(** X22.  The tiers of a source are nested: every Gold record has its Silver
    record and every Silver record its Bronze record, one quality result
    is kept per Bronze record, and no tier holds more records than items
    were collected.  [successful_stores] grows by the number of Gold
    records; [failed_stores] counts items judged invalid, not storage
    failures; an item whose processing raised is counted in neither, so
    [total_processed] grows by at most the number of Silver records.
    Precisely: every item has one outcome, which its segment of the
    call trace shows.  Either its processing raised (a storage call of
    the segment raised or, for an item judged valid, one of the two
    derivations did), and then it left one entry in the log and moved no
    counter; or it was judged valid and its Gold record was stored, and
    it is counted in [successful_stores]; or it was judged invalid and
    its Silver record was stored as "invalid", and it is counted in
    [failed_stores].  The log and the three counters grow by exactly
    these outcomes. *)
Theorem tier_counts_are_nested :
  forall (source : string) (data_items : list Item) (w : World),
    exists r,
      fst (_process_source_data source data_items w) = Ok r /\
      let l := lists r in
      let s := stats w in
      let w' := snd (_process_source_data source data_items w) in
      let s' := stats w' in
      (List.length (gold_ids l) <= List.length (silver_ids l))%nat /\
      (List.length (silver_ids l) <= List.length (bronze_ids l))%nat /\
      List.length (quality_results l) = List.length (bronze_ids l) /\
      (List.length (bronze_ids l) <= List.length data_items)%nat /\
      (successful_stores s'
       = successful_stores s + Z.of_nat (List.length (gold_ids l)))%Z /\
      (failed_stores s <= failed_stores s')%Z /\
      (total_processed s' - total_processed s
       = (successful_stores s' - successful_stores s)
         + (failed_stores s' - failed_stores s))%Z /\
      (total_processed s' - total_processed s
       <= Z.of_nat (List.length (silver_ids l)))%Z /\
      exists segments,
        let outcomes := List.map snd segments in
        calls w' = calls w ++ concat (List.map fst segments) /\
        Forall2 (fun item segment =>
                   item_ledger source item (fst segment) (snd segment))
          data_items segments /\
        log w' = log w ++ raised_entries source outcomes /\
        (successful_stores s'
         = successful_stores s + count_of counted_valid outcomes)%Z /\
        (failed_stores s'
         = failed_stores s + count_of counted_invalid outcomes)%Z /\
        (total_processed s'
         = total_processed s + count_of counted_valid outcomes
           + count_of counted_invalid outcomes)%Z /\
        (Z.of_nat (List.length (gold_ids l))
         = count_of counted_valid outcomes)%Z.
Proof.
  intros source data_items w. unfold _process_source_data.
  pose proof (process_items_counts source data_items
                {| bronze_ids := []; silver_ids := []; gold_ids := [];
                   quality_results := [] |} w) as H.
  destruct (process_items_ledger source data_items
              {| bronze_ids := []; silver_ids := []; gold_ids := [];
                 quality_results := [] |} w)
    as (segments & Hcalls & Hitems & Hlog & Hs & Hf & Ht & Hg).
  destruct (process_items source data_items _ w) as [l w'].
  cbn [fst snd] in *. eexists. split; [reflexivity|].
  cbn [lists]. unfold tier_step in H.
  cbn [gold_ids silver_ids bronze_ids quality_results List.length] in H, Hg.
  destruct H as (? & ? & ? & ? & ? & ? & ? & ? & ? & ? & ?).
  repeat (split; [lia|]).
  exists segments. cbn zeta.
  split; [exact Hcalls|]. split; [exact Hitems|]. split; [exact Hlog|].
  repeat split; lia.
Qed.

(** *** Items judged invalid *)

Lemma process_item_invalid (source : string) (item : Item) (l : SourceLists)
    (w : World) :
  is_valid (_validate_data source item) = false ->
  let l' := fst (process_item source item l w) in
  let w' := snd (process_item source item l w) in
  gold_ids l' = gold_ids l /\
  successful_stores (stats w') = successful_stores (stats w) /\
  List.filter is_gold_call (calls w') = List.filter is_gold_call (calls w) /\
  (quality_results l' = quality_results l \/
   quality_results l'
   = quality_results l ++ [_validate_data source item]).
Proof.
  intros Hinvalid. cbn zeta. unfold process_item.
  destruct (store_bronze_data storage item source (_get_data_type source)
              (db w)) as [[bronze_id|e] d].
  2:{ cbn. rewrite List.filter_app. cbn. rewrite app_nil_r. auto. }
  cbn [db with_db]. rewrite Hinvalid.
  destruct (store_silver_data storage bronze_id item "invalid" _ d)
    as [[silver_id|e] d'];
    cbn; rewrite <- app_assoc, List.filter_app; cbn; rewrite app_nil_r; auto.
Qed.

Lemma process_items_invalid (source : string) (P : DataQualityResult -> Prop)
    (data_items : list Item) :
  Forall (fun item => is_valid (_validate_data source item) = false /\
                      P (_validate_data source item)) data_items ->
  forall (l : SourceLists) (w : World),
    let l' := fst (process_items source data_items l w) in
    let w' := snd (process_items source data_items l w) in
    gold_ids l' = gold_ids l /\
    successful_stores (stats w') = successful_stores (stats w) /\
    List.filter is_gold_call (calls w') = List.filter is_gold_call (calls w) /\
    (Forall P (quality_results l) -> Forall P (quality_results l')).
Proof.
  induction 1 as [|item rest [Hinvalid HP] _ IH]; intros l w; cbn zeta.
  - cbn. auto.
  - cbn [process_items].
    destruct (process_item_invalid source item l w Hinvalid)
      as (Hg & Hs & Hc & Hq).
    destruct (process_item source item l w) as [l1 w1]. cbn [fst snd] in *.
    destruct (IH l1 w1) as (Hg' & Hs' & Hc' & Hq').
    split; [congruence|]. split; [congruence|]. split; [congruence|].
    intros Hall. apply Hq'. destruct Hq as [-> | ->]; [exact Hall|].
    apply Forall_app. split; [exact Hall|]. now constructor.
Qed.

(** *** The layers of a run *)

Lemma process_source_data_returns (source : string) (data_items : list Item)
    (w : World) :
  exists r w', _process_source_data source data_items w = (Ok r, w').
Proof.
  unfold _process_source_data.
  destruct (process_items source data_items _ w) as [l w']. eauto.
Qed.

Lemma process_sources_layers (collected_data : list (string * list Item)) :
  forall (pr : PipelineResults) (w : World) (known : list string),
    Orchestrator.keys (bronze_layer pr) = known ->
    Orchestrator.keys (silver_layer pr) = known ->
    Orchestrator.keys (gold_layer pr) = known ->
    Orchestrator.keys (quality_metrics pr) = known ->
    NoDup (known ++ Orchestrator.keys collected_data) ->
    let pr' := fst (process_sources collected_data pr w) in
    Orchestrator.keys (bronze_layer pr')
    = known ++ sources_with_items collected_data /\
    Orchestrator.keys (silver_layer pr')
    = known ++ sources_with_items collected_data /\
    Orchestrator.keys (gold_layer pr')
    = known ++ sources_with_items collected_data /\
    Orchestrator.keys (quality_metrics pr')
    = known ++ sources_with_items collected_data.
Proof.
  induction collected_data as [|[source data_items] rest IH];
    intros pr w known Hb Hs Hg Hq Hnd; cbn zeta.
  - cbn. rewrite app_nil_r. auto.
  - assert (Hfresh : source ∉ known).
    { cbn in Hnd. apply NoDup_app in Hnd as (_ & Hdisj & _).
      intros Hin. apply (Hdisj _ Hin). left. }
    cbn [process_sources]. destruct data_items as [|item items].
    + apply IH; try assumption. cbn in Hnd.
      apply NoDup_app in Hnd as (Hk & Hdisj & Hr).
      apply NoDup_app. split; [exact Hk|]. split.
      * intros x Hx Hin. apply (Hdisj x Hx). now right.
      * now apply NoDup_cons in Hr as [_ Hr].
    + destruct (process_source_data_returns source (item :: items) w)
        as (r & w' & ->).
      assert (Hset : forall (V : Type) (v : V) (d : list (string * V)),
                Orchestrator.keys d = known ->
                Orchestrator.keys (Orchestrator.dict_set source v d)
                = known ++ [source]).
      { intros V v d Hd. rewrite Orchestrator.dict_set_fresh
          by (rewrite Hd; exact Hfresh).
        unfold Orchestrator.keys in *. rewrite List.map_app, Hd. reflexivity. }
      unfold sources_with_items. cbn [List.filter snd Orchestrator.keys
                                        List.map fst].
      replace (known ++ source :: List.map fst
                 (List.filter
                    (fun entry => match snd entry with
                                  | [] => false
                                  | _ => true
                                  end) rest))
        with ((known ++ [source]) ++ sources_with_items rest)
        by (now rewrite <- app_assoc).
      apply IH; cbn [bronze_layer silver_layer gold_layer quality_metrics];
        try (apply Hset; assumption).
      rewrite <- app_assoc. exact Hnd.
Qed.

Lemma keys_lengths (layer : list (string * list Z)) :
  Orchestrator.keys (lengths layer) = Orchestrator.keys layer.
Proof.
  unfold lengths, Orchestrator.keys. rewrite List.map_map. reflexivity.
Qed.

(** X23.  The summary of a run has an entry, in each layer and in the quality
    metrics, for exactly the sources that brought at least one item, in
    the order of the collection: a source that failed or came back empty
    is absent from the summary, not listed with a count of zero. *)
Theorem summary_lists_sources_with_items :
  forall (collected_data : list (string * list Item)) (w : World),
    NoDup (Orchestrator.keys collected_data) ->
    let pr := fst (_process_and_store_data collected_data w) in
    let w' := snd (_process_and_store_data collected_data w) in
    let summary := fst (_generate_pipeline_summary pr w') in
    Orchestrator.keys (bronze_layer_summary summary)
    = sources_with_items collected_data /\
    Orchestrator.keys (silver_layer_summary summary)
    = sources_with_items collected_data /\
    Orchestrator.keys (gold_layer_summary summary)
    = sources_with_items collected_data /\
    Orchestrator.keys (quality_metrics_by_source summary)
    = sources_with_items collected_data.
Proof.
  intros collected_data w Hnd. cbn zeta. unfold _process_and_store_data.
  destruct (process_sources_layers collected_data
              {| bronze_layer := []; silver_layer := []; gold_layer := [];
                 quality_metrics := []; errors := [] |} w []
              eq_refl eq_refl eq_refl eq_refl Hnd)
    as (Hb & Hs & Hg & Hq).
  cbn [app] in *. unfold _generate_pipeline_summary.
  cbn [fst bronze_layer_summary silver_layer_summary gold_layer_summary
       quality_metrics_by_source].
  rewrite !keys_lengths. auto.
Qed.

(** *** Whole runs *)

Lemma process_sources_nothing (collected_data : list (string * list Item)) :
  forall (pr : PipelineResults) (w : World),
    Forall (fun entry => snd entry = []) collected_data ->
    process_sources collected_data pr w = (pr, w).
Proof.
  induction collected_data as [|[source data_items] rest IH];
    intros pr w H; [reflexivity|].
  inversion H as [|? ? Hhead Hrest]; subst. cbn in Hhead. subst data_items.
  cbn [process_sources]. now apply IH.
Qed.

(** The collection step on the registry built at start-up: with at
    least one attempt allowed per collector it returns, with one entry
    per registered source. *)
Lemma collect_data_returns (env : gmap string string)
    (factories : Orchestrator.Factories) (collection_type : string)
    (limit : Z) (now : Q) :
  let collectors := Orchestrator._initialize_collectors env factories in
  (forall entry, entry ∈ collectors ->
     (1 <= BaseCollector.max_retries
             (Orchestrator.state (snd entry)))%Z) ->
  exists config,
    (forall entry, entry ∈ collectors -> is_Some (config !! fst entry)) /\
    _collect_data collectors collection_type limit now
    = Ok {| Orchestrator.results :=
              List.map
                (fun entry =>
                   (fst entry,
                    Orchestrator.items_of
                      (Orchestrator.outcome_of now config entry)))
                collectors;
            Orchestrator.failed_collectors :=
              Orchestrator.keys
                (List.filter
                   (fun entry =>
                      Orchestrator.is_raised
                        (Orchestrator.outcome_of now config entry))
                   collectors) |}.
Proof.
  intros collectors Hmax.
  destruct (Orchestrator.initialize_keys env factories) as [Hnd _].
  fold collectors in Hnd.
  assert (Hknown : forall entry, entry ∈ collectors ->
            is_Some (Orchestrator.default_config !! fst entry) /\
            is_Some (Orchestrator.technology_config limit !! fst entry) /\
            is_Some (Orchestrator.trending_config limit !! fst entry)).
  { intros entry He. apply Orchestrator.known_source_configured.
    apply (Orchestrator.initialize_keys_known env factories).
    unfold Orchestrator.keys. apply list_elem_of_fmap. eauto. }
  assert (Hcase : forall config,
            (forall entry, entry ∈ collectors ->
               is_Some (config !! fst entry)) ->
            Orchestrator.collect_all_data collectors (Some config) now
            = Ok {| Orchestrator.results :=
                      List.map
                        (fun entry =>
                           (fst entry,
                            Orchestrator.items_of
                              (Orchestrator.outcome_of now config entry)))
                        collectors;
                    Orchestrator.failed_collectors :=
                      Orchestrator.keys
                        (List.filter
                           (fun entry =>
                              Orchestrator.is_raised
                                (Orchestrator.outcome_of now config entry))
                           collectors) |}).
  { intros config Hcfg. apply Orchestrator.collect_all_data_aligned;
      [exact Hnd|].
    intros entry He. split; [now apply Hcfg|].
    apply Orchestrator.outcome_with_retries; [now apply Hcfg | now apply Hmax]. }
  unfold _collect_data, Orchestrator.collect_technology_data,
    Orchestrator.collect_trending_data.
  destruct (String.eqb collection_type "technology").
  - exists (Orchestrator.technology_config limit).
    assert (Hcfg : forall entry, entry ∈ collectors ->
              is_Some (Orchestrator.technology_config limit !! fst entry))
      by (intros entry He; apply (Hknown entry He)).
    split; [exact Hcfg | now apply Hcase].
  - destruct (String.eqb collection_type "trending").
    + exists (Orchestrator.trending_config limit).
      assert (Hcfg : forall entry, entry ∈ collectors ->
                is_Some (Orchestrator.trending_config limit !! fst entry))
        by (intros entry He; apply (Hknown entry He)).
      split; [exact Hcfg | now apply Hcase].
    + exists Orchestrator.default_config.
      assert (Hcfg : forall entry, entry ∈ collectors ->
                is_Some (Orchestrator.default_config !! fst entry))
        by (intros entry He; apply (Hknown entry He)).
      split; [exact Hcfg|].
      rewrite Orchestrator.collect_all_data_default. now apply Hcase.
Qed.

Lemma pipeline_returns (collectors : Orchestrator.Registry)
    (collection_type : string) (limit : Z) (now : Q) (w : World)
    (collected : Orchestrator.Collected) :
  _collect_data collectors collection_type limit now = Ok collected ->
  exists summary,
    fst (run_collection_pipeline collectors collection_type limit now w)
    = Ok summary /\
    pipeline_status summary = "completed" /\
    summary_errors summary = [].
Proof.
  intros Hcollect.
  unfold run_collection_pipeline, _process_and_store_data. rewrite Hcollect.
  destruct (process_sources_spec (Orchestrator.results collected)
              {| bronze_layer := []; silver_layer := []; gold_layer := [];
                 quality_metrics := []; errors := [] |} w)
    as (He' & _ & _).
  destruct (process_sources (Orchestrator.results collected) _ w) as [pr w1].
  cbn [fst snd] in *. eexists. split; [reflexivity|].
  split; [reflexivity | exact He'].
Qed.

(** X24.  With the registry built at start-up and collectors that allow at
    least one attempt, a run of the pipeline always returns a summary,
    for every collection type, every limit and whatever the sources and
    the store do: a failing source is an empty list, a failing store
    operation a log entry, and the summary's error list is empty. *)
Theorem pipeline_run_always_returns :
  forall (env : gmap string string) (factories : Orchestrator.Factories)
         (collection_type : string) (limit : Z) (now : Q) (w : World),
    let collectors := Orchestrator._initialize_collectors env factories in
    (forall entry, entry ∈ collectors ->
       (1 <= BaseCollector.max_retries
               (Orchestrator.state (snd entry)))%Z) ->
    exists summary,
      fst (run_collection_pipeline collectors collection_type limit now w)
      = Ok summary /\
      pipeline_status summary = "completed" /\
      summary_errors summary = [].
Proof.
  intros env factories collection_type limit now w collectors Hmax.
  destruct (collect_data_returns env factories collection_type limit now Hmax)
    as (config & _ & Hcollect).
  exact (pipeline_returns _ _ _ _ w _ Hcollect).
Qed.

(** X25.  When every registered source is down (its client raises on every
    request), the run still reports "completed" with an empty error
    list: nothing is handed to the store, the counters are untouched,
    every layer of the summary is empty, and the overall quality is 0.0
    with grade "F". *)
Theorem all_sources_down_is_reported_completed :
  forall (env : gmap string string) (factories : Orchestrator.Factories)
         (collection_type : string) (limit : Z) (now : Q) (w : World),
    let collectors := Orchestrator._initialize_collectors env factories in
    (forall entry, entry ∈ collectors ->
       (1 <= BaseCollector.max_retries
               (Orchestrator.state (snd entry)))%Z /\
       forall n kwargs, exists e,
         BaseCollector.collect_data (Orchestrator.impl (snd entry)) n kwargs
         = Raise e) ->
    exists summary,
      fst (run_collection_pipeline collectors collection_type limit now w)
      = Ok summary /\
      pipeline_status summary = "completed" /\
      summary_errors summary = [] /\
      bronze_layer_summary summary = [] /\
      silver_layer_summary summary = [] /\
      gold_layer_summary summary = [] /\
      overall_quality_score summary = 0 /\
      summary_quality_grade summary = "F" /\
      total_items_processed summary = total_processed (stats w) /\
      calls (snd (run_collection_pipeline collectors collection_type limit
                    now w))
      = calls w.
Proof.
  intros env factories collection_type limit now w collectors Hdown.
  destruct (collect_data_returns env factories collection_type limit now
              (fun entry He => proj1 (Hdown entry He)))
    as (config & Hcfg & Hcollect).
  fold collectors in Hcollect, Hcfg.
  unfold run_collection_pipeline, _process_and_store_data.
  rewrite Hcollect. cbn [Orchestrator.results].
  rewrite process_sources_nothing.
  - eexists. cbn. repeat split; reflexivity.
  - apply Forall_forall. intros entry' Hin.
    apply list_elem_of_In, in_map_iff in Hin as (entry & <- & Hin).
    apply list_elem_of_In in Hin. cbn [snd].
    destruct (Hcfg entry Hin) as [kw Hkw].
    destruct (Hdown entry Hin) as [Hmax Hfail].
    unfold Orchestrator.outcome_of, Orchestrator._collect_from_source.
    rewrite Hkw.
    destruct (BaseCollector.collect_with_retry_raises
                (Orchestrator.impl (snd entry)) kw
                (BaseCollector.fresh_run (Orchestrator.state (snd entry)) now)
                Hmax) as [e ->]; [|reflexivity].
    intros n. destruct (Hfail n kw) as [e He]. rewrite He. now exists e.
Qed.

Lemma process_sources_stats (collected_data : list (string * list Item)) :
  forall (pr : PipelineResults) (w : World),
    let w' := snd (process_sources collected_data pr w) in
    (successful_stores (stats w) <= successful_stores (stats w'))%Z /\
    (failed_stores (stats w) <= failed_stores (stats w'))%Z /\
    (total_processed (stats w') - total_processed (stats w)
     = (successful_stores (stats w') - successful_stores (stats w))
       + (failed_stores (stats w') - failed_stores (stats w)))%Z.
Proof.
  induction collected_data as [|[source data_items] rest IH]; intros pr w;
    cbn zeta.
  - cbn. lia.
  - cbn [process_sources]. destruct data_items as [|item items]; [apply IH|].
    unfold _process_source_data.
    pose proof (process_items_counts source (item :: items)
                  {| bronze_ids := []; silver_ids := []; gold_ids := [];
                     quality_results := [] |} w) as H.
    destruct (process_items source (item :: items) _ w) as [l w1].
    cbn [fst snd] in H. unfold tier_step in H.
    destruct H as (Hg & _ & _ & _ & _ & _ & Hs & Hf & Ht & _ & _).
    match goal with
    | |- context [process_sources rest ?p w1] =>
        destruct (IH p w1) as (Hs' & Hf' & Ht')
    end.
    lia.
Qed.

(** X26.  The [success_rate] of [get_pipeline_stats] is the share of the
    processed items that were valid and reached Gold.  Processing keeps
    the successes counted among the processed items, so from the
    counters of a new pipeline on the rate lies between 0 and 1. *)
Theorem pipeline_success_rate_bounds :
  forall (collected_data : list (string * list Item)) (w : World),
    (0 <= successful_stores (stats w) <= total_processed (stats w))%Z ->
    let w' := snd (_process_and_store_data collected_data w) in
    (0 <= successful_stores (stats w') <= total_processed (stats w'))%Z /\
    0 <= stats_success_rate (get_pipeline_stats w') /\
    stats_success_rate (get_pipeline_stats w') <= 1.
Proof.
  intros collected_data w [H0 H1]. cbn zeta. unfold _process_and_store_data.
  destruct (process_sources_stats collected_data
              {| bronze_layer := []; silver_layer := []; gold_layer := [];
                 quality_metrics := []; errors := [] |} w)
    as (Hs & Hf & Ht).
  set (w' := snd (process_sources collected_data _ w)) in *.
  assert (Hinv : (0 <= successful_stores (stats w')
                  <= total_processed (stats w'))%Z) by lia.
  split; [exact Hinv|].
  unfold get_pipeline_stats. cbn [stats_success_rate].
  assert (Hd : 0 < inject_Z (Z.max (total_processed (stats w')) 1))
    by (change 0 with (inject_Z 0); rewrite <- Zlt_Qlt; lia).
  split.
  - apply Qle_shift_div_l; [exact Hd|]. rewrite Qmult_0_l.
    change 0 with (inject_Z 0). rewrite <- Zle_Qle. lia.
  - apply Qle_shift_div_r; [exact Hd|]. rewrite Qmult_1_l.
    rewrite <- Zle_Qle. lia.
Qed.

End Pipeline.

Arguments store_bronze_data {DB} _ _ _ _ _.
Arguments store_silver_data {DB} _ _ _ _ _ _.
Arguments store_gold_data {DB} _ _ _ _ _ _.
Arguments db {DB} _.
Arguments stats {DB} _.
Arguments calls {DB} _.
Arguments log {DB} _.

(** ** The derivations of the Gold tier *)

(** The primitives of the Python runtime the derivations apply to
    payload values: [a + b], [a * b] and [a > b] on values of any type
    (each raises [TypeError] on operands it does not support), the true
    division of two integers, [len(s.split())], [len(str(item))] and
    [datetime.isoformat] of a reading of the clock. *)
Record Runtime := {
  py_add : pyval -> pyval -> result pyval;
  py_mul : pyval -> pyval -> result pyval;
  py_gt : pyval -> pyval -> result bool;
  int_truediv : Z -> Z -> float;
  word_count : string -> Z;
  repr_length : Item -> Z;
  isoformat : Z -> string
}.

(** [a or b]. *)
Definition py_or (a b : pyval) : pyval := if truthy a then a else b.

Definition high_reputation : list string :=
  ["BBC"; "Reuters"; "AP"; "CNN"; "NYT"; "WSJ"].

Definition medium_reputation : list string :=
  ["TechCrunch"; "Wired"; "Ars Technica"; "The Verge"].

(** [value in names], for a list of strings. *)
Definition in_names (value : pyval) (names : list string) : bool :=
  match value with
  | PStr s => existsb (String.eqb s) names
  | _ => false
  end.

#[warnings="-inexact-float"]
Definition _get_source_reputation (source_name : pyval) : float :=
  if in_names source_name high_reputation then 0.9%float
  else if in_names source_name medium_reputation then 0.7%float
  else 0.5%float.

Section Derivations.

Variable rt : Runtime.
Variable lib : DatetimeLib.

(** [_extract_engagement_metrics]: only the news branch can raise, on a
    [content] that has no length. *)
Definition _extract_engagement_metrics (item : Item) (source : string)
  : result pyval :=
  if String.eqb source "reddit" then
    Ok (PDict [("score", Dict.get item "score" (PInt 0));
               ("num_comments", Dict.get item "num_comments" (PInt 0));
               ("upvote_ratio",
                Dict.get item "upvote_ratio" (PFloat 0%float))])
  else if String.eqb source "news" then
    (content_length <-
       py_len (Dict.get item "content" (PStr EmptyString)) ;;
     Ok (PDict [("engagement_score",
                 Dict.get item "engagement_score" (PFloat 0%float));
                ("content_length", PInt content_length);
                ("has_image",
                 PBool (truthy (dict_get_or_none item "image_url")))]))
  else if String.eqb source "twitter" then
    Ok (PDict [("retweet_count", Dict.get item "retweet_count" (PInt 0));
               ("like_count", Dict.get item "like_count" (PInt 0));
               ("reply_count", Dict.get item "reply_count" (PInt 0));
               ("quote_count", Dict.get item "quote_count" (PInt 0))])
  else Ok (PDict []).

(** [_analyze_content]: [len(content)] raises on a content without
    length; a content that has a length, is true and is no string has
    no [split]. *)
Definition _analyze_content (item : Item) (source : string) : result pyval :=
  let content :=
    py_or (Dict.get item "text" (PStr EmptyString))
      (py_or (Dict.get item "title" (PStr EmptyString))
         (Dict.get item "content" (PStr EmptyString))) in
  content_length <- py_len content ;;
  if truthy content then
    match content with
    | PStr text =>
        Ok (PDict [("content_length", PInt content_length);
                   ("word_count", PInt (word_count rt text));
                   ("has_hashtags", PBool (contains "#" text));
                   ("has_mentions", PBool (contains "@" text));
                   ("has_urls", PBool (contains "http" text))])
    | _ => Raise (Exn "AttributeError" "object has no attribute 'split'")
    end
  else
    Ok (PDict [("content_length", PInt content_length);
               ("word_count", PInt 0);
               ("has_hashtags", PBool false);
               ("has_mentions", PBool false);
               ("has_urls", PBool false)]).

(** [_extract_temporal_features]: the [try] block answers the empty
    dictionary for whatever is raised inside it, the subtraction of an
    aware [datetime] from the naive [utcnow()] included. *)
Definition _extract_temporal_features (item : Item) (source : string)
  : pyval :=
  let timestamp :=
    py_or (dict_get_or_none item "created_at")
      (py_or (dict_get_or_none item "created_utc")
         (dict_get_or_none item "published_at")) in
  if negb (truthy timestamp) then PDict []
  else
    match convert_timestamp lib timestamp with
    | Some dt =>
        match utcoffset_us dt with
        | None =>
            let hour := ((wall_us dt / 3600000000) mod 24)%Z in
            let weekday := ((wall_us dt / 86400000000 + 3) mod 7)%Z in
            let total_seconds :=
              int_truediv rt (utc_now lib - wall_us dt) 1000000 in
            PDict [("hour_of_day", PInt hour);
                   ("day_of_week", PInt weekday);
                   ("is_weekend", PBool (5 <=? weekday)%Z);
                   ("age_hours",
                    PFloat (PrimFloat.div total_seconds 3600%float))]
        | Some _ => PDict []
        end
    | None => PDict []
    end.

Definition _generate_analytics_data (item : Item) (source : string)
  : result pyval :=
  engagement_metrics <- _extract_engagement_metrics item source ;;
  content_analysis <- _analyze_content item source ;;
  let temporal_features := _extract_temporal_features item source in
  Ok (PDict [("source", PStr source);
             ("content_type", PStr (_get_data_type source));
             ("engagement_metrics", engagement_metrics);
             ("content_analysis", content_analysis);
             ("temporal_features", temporal_features)]).

Definition _calculate_metrics (item : Item) (source : string)
  : result pyval :=
  let base :=
    [("source", PStr source);
     ("processing_timestamp", PStr (isoformat rt (utc_now lib)));
     ("data_volume_bytes", PInt (repr_length rt item))] in
  if String.eqb source "reddit" then
    (doubled <- py_mul rt (Dict.get item "num_comments" (PInt 0)) (PInt 2) ;;
     engagement_score <-
       py_add rt (Dict.get item "score" (PInt 0)) doubled ;;
     viral_potential <-
       py_gt rt (Dict.get item "score" (PInt 0)) (PInt 1000) ;;
     Ok (PDict (base ++ [("engagement_score", engagement_score);
                         ("viral_potential", PBool viral_potential)])))
  else if String.eqb source "news" then
    (content_length <-
       py_len (Dict.get item "content" (PStr EmptyString)) ;;
     let readability_score :=
       if (content_length <? 1000)%Z
       then PFloat (int_truediv rt content_length 10)
       else PInt 100 in
     Ok (PDict (base ++
                [("readability_score", readability_score);
                 ("source_reputation",
                  PFloat (_get_source_reputation
                            (Dict.get item "source_name"
                               (PStr EmptyString))))])))
  else if String.eqb source "twitter" then
    (doubled <- py_mul rt (Dict.get item "retweet_count" (PInt 0)) (PInt 2) ;;
     with_likes <- py_add rt doubled (Dict.get item "like_count" (PInt 0)) ;;
     engagement_score <-
       py_add rt with_likes (Dict.get item "reply_count" (PInt 0)) ;;
     viral_potential <-
       py_gt rt (Dict.get item "retweet_count" (PInt 0)) (PInt 100) ;;
     Ok (PDict (base ++ [("engagement_score", engagement_score);
                         ("viral_potential", PBool viral_potential)])))
  else Ok (PDict base).

End Derivations.

(** A news item whose [content] is present and null makes both
    derivations raise, whatever the runtime. *)
Lemma null_content_raises (rt : Runtime) (lib : DatetimeLib) (item : Item) :
  item !! "content" = Some PNone ->
  is_ok (_generate_analytics_data rt lib item "news") = false /\
  is_ok (_calculate_metrics rt lib item "news") = false.
Proof.
  intros H. unfold _generate_analytics_data, _extract_engagement_metrics,
    _calculate_metrics, Dict.get.
  rewrite H. split; reflexivity.
Qed.

(** C1, as the code has it.  [_process_source_data] always returns.  In
    the call trace each item has its own segment, and [store_gold_data]
    occurs in it only if the item was judged valid and its Silver record
    was stored with status "valid" under the identifier the Gold call
    refers to; it occurs exactly when that Silver record was stored and
    [_generate_analytics_data] and [_calculate_metrics] both returned
    for the item.  So the Gold count of the source is at most the number
    of results judged valid; and when the run logged no item failure
    (nothing raised while its items were processed), the Gold count
    equals the number of valid items, which is [valid_records] of the
    quality summary. *)
Theorem gold_store_only_for_valid_items :
  forall (DB : Type) (storage : Storage DB) (lib : DatetimeLib)
         (rt : Runtime) (source : string) (data_items : list Item)
         (w : World DB),
    let analytics_of := _generate_analytics_data rt lib in
    let metrics_of := _calculate_metrics rt lib in
    let run :=
      _process_source_data DB storage lib analytics_of metrics_of source
        data_items w in
    exists source_results traces,
      fst run = Ok source_results /\
      calls (snd run) = calls w ++ concat traces /\
      Forall2 (item_trace lib analytics_of metrics_of source)
        data_items traces /\
      (List.length (gold_ids (lists source_results))
       <= List.length
            (List.filter is_valid (quality_results (lists source_results))))%nat /\
      (forall summary,
         quality_summary source_results = Some summary ->
         (Z.of_nat (List.length (gold_ids (lists source_results)))
          <= valid_records summary)%Z) /\
      (log (snd run) = log w ->
       quality_results (lists source_results)
       = List.map (_validate_data lib source) data_items /\
       List.length (gold_ids (lists source_results))
       = List.length
           (List.filter (fun item => is_valid (_validate_data lib source item))
              data_items) /\
       forall summary,
         quality_summary source_results = Some summary ->
         Z.of_nat (List.length (gold_ids (lists source_results)))
         = valid_records summary).
Proof.
  intros DB storage lib rt source data_items w analytics_of metrics_of run.
  exact (process_source_data_gold DB storage lib analytics_of metrics_of
           source data_items w).
Qed.

(** ** A store in memory *)

(** The three tiers. *)
Inductive tier := Bronze | Silver | Gold.

Definition fails_at (failing : option tier) (t : tier) : bool :=
  match failing, t with
  | Some Bronze, Bronze | Some Silver, Silver | Some Gold, Gold => true
  | _, _ => false
  end.

(** A store that hands out consecutive identifiers; the operation of
    the tier [failing], if any, loses the connection on every call. *)
Definition memory_storage (failing : option tier) : Storage nat :=
  let lost := Raise (Exn "OperationalError" "connection lost") in
  {| store_bronze_data :=
       fun _ _ _ d =>
         if fails_at failing Bronze then (lost, d) else (Ok (Z.of_nat d), S d);
     store_silver_data :=
       fun _ _ _ _ d =>
         if fails_at failing Silver then (lost, d) else (Ok (Z.of_nat d), S d);
     store_gold_data :=
       fun _ _ _ _ d =>
         if fails_at failing Gold then (lost, d) else (Ok (Z.of_nat d), S d) |}.

Definition plain_payload : Item -> string -> result pyval :=
  fun _ _ => Ok (PDict []).

Definition start (d : nat) : World nat :=
  {| db := d;
     stats := {| total_processed := 0; successful_stores := 0;
                 failed_stores := 0; avg_quality_score := 0 |};
     calls := []; log := [] |}.

(** A runtime for evaluation on integers: their arithmetic, the
    division through binary64 (exact for operands below [2^53]), and the
    words between blanks.  The length of [str(item)] and the ISO text of
    the clock are left empty: the sample runs look at the calls that are
    made, not at these two values. *)
Definition type_error (operator : string) : PyExn :=
  Exn "TypeError" (String.append "unsupported operand type(s) for " operator).

Fixpoint count_words (in_word : bool) (s : string) : Z :=
  match s with
  | EmptyString => 0
  | String c rest =>
      if Ascii.eqb c " "%char then count_words false rest
      else ((if in_word then 0 else 1) + count_words true rest)%Z
  end.

Definition float_of_Z (z : Z) : float :=
  if (z <? 0)%Z
  then PrimFloat.opp (PrimFloat.of_uint63 (Uint63.of_Z (- z)))
  else PrimFloat.of_uint63 (Uint63.of_Z z).

Definition sample_runtime : Runtime :=
  {| py_add := fun a b =>
       match a, b with
       | PInt x, PInt y => Ok (PInt (x + y))
       | _, _ => Raise (type_error "+")
       end;
     py_mul := fun a b =>
       match a, b with
       | PInt x, PInt y => Ok (PInt (x * y))
       | _, _ => Raise (type_error "*")
       end;
     py_gt := fun a b =>
       match a, b with
       | PInt x, PInt y => Ok (y <? x)%Z
       | _, _ => Raise (type_error ">")
       end;
     int_truediv := fun a b => PrimFloat.div (float_of_Z a) (float_of_Z b);
     word_count := count_words false;
     repr_length := fun _ => 0%Z;
     isoformat := fun _ => EmptyString |}.

(** A process in UTC whose clock stands at 1 700 000 000 s and whose
    ISO parser knows the one string the sample article carries. *)
Definition sample_process : Process :=
  {| clock_us := 1700000000000000;
     local_offset_us := fun _ => Some 0%Z;
     float_timestamp_us := fun _ => None;
     parse_iso := fun s =>
       if String.eqb s "2023-11-14T22:00:00+00:00"
       then Some {| wall_us := 1699999200000000; utcoffset_us := Some 0%Z |}
       else None |}.

(** A news article, complete and fresh, whose [content] is null. *)
Definition article_with_null_content : Item :=
  list_to_map
    [("id", PStr "n1"); ("title", PStr "Chip makers report a record year");
     ("url", PStr "https://example.org/chips");
     ("source_name", PStr "Reuters");
     ("published_at", PStr "2023-11-14T22:00:00Z");
     ("description", PStr "Sales rose in every region of the world.");
     ("content", PNone); ("author", PStr "ann");
     ("image_url", PStr "https://example.org/chips.png")].

(** A reliable store, one valid and one invalid post: nothing is
    logged, and there is one Gold record. *)
Lemma gold_store_only_for_valid_items_witness :
  exists source_results,
    fst (_process_source_data nat (memory_storage None) sample_lib
           (_generate_analytics_data sample_runtime sample_lib)
           (_calculate_metrics sample_runtime sample_lib)
           "reddit" [fresh_post; bare_post] (start 1))
    = Ok source_results /\
    List.length (gold_ids (lists source_results)) = 1%nat.
Proof.
  destruct (gold_store_only_for_valid_items nat (memory_storage None)
              sample_lib sample_runtime "reddit"
              [fresh_post; bare_post] (start 1))
    as (source_results & traces & Hrun & _ & _ & _ & _ & Hrel).
  exists source_results. split; [exact Hrun|].
  destruct (Hrel ltac:(vm_compute; reflexivity)) as (_ & Hgold & _).
  rewrite Hgold. vm_compute. reflexivity.
Defined.

(** C1, as stated, fails.  When the Silver store raises for a valid
    item, the item has a quality result with [is_valid] true, yet
    [store_gold_data] is not invoked for it.  When the Gold store itself
    raises, the Silver record has been stored as "valid" and the Gold
    call is made, but no Gold identifier is recorded.  And with a store
    that never fails, a valid news article whose [content] is null
    makes [_generate_analytics_data] raise ([len] of [None]): its
    Silver record is stored as "valid" and the Gold store is not
    invoked.  Each time the Gold list is empty while the summary counts
    one valid record. *)
Lemma valid_item_without_gold_record :
  is_valid (_validate_data sample_lib "reddit" fresh_post) = true /\
  existsb is_gold_call
    (calls (snd (_process_source_data nat (memory_storage (Some Silver))
                   sample_lib
                   (_generate_analytics_data sample_runtime sample_lib)
                   (_calculate_metrics sample_runtime sample_lib)
                   "reddit" [fresh_post] (start 1))))
  = false /\
  match fst (_process_source_data nat (memory_storage (Some Silver))
               sample_lib
               (_generate_analytics_data sample_runtime sample_lib)
               (_calculate_metrics sample_runtime sample_lib)
               "reddit" [fresh_post] (start 1))
  with
  | Ok source_results =>
      gold_ids (lists source_results) = [] /\
      option_map valid_records (quality_summary source_results) = Some 1%Z
  | Raise _ => False
  end /\
  match fst (_process_source_data nat (memory_storage (Some Gold))
               sample_lib
               (_generate_analytics_data sample_runtime sample_lib)
               (_calculate_metrics sample_runtime sample_lib)
               "reddit" [fresh_post] (start 1))
  with
  | Ok source_results =>
      silver_ids (lists source_results) = [2%Z] /\
      gold_ids (lists source_results) = [] /\
      option_map valid_records (quality_summary source_results) = Some 1%Z
  | Raise _ => False
  end /\
  is_valid (_validate_data (process_lib sample_process) "news"
              article_with_null_content) = true /\
  _generate_analytics_data sample_runtime (process_lib sample_process)
    article_with_null_content "news"
  = Raise (Exn "TypeError" "object has no len()") /\
  existsb is_gold_call
    (calls (snd (_process_source_data nat (memory_storage None)
                   (process_lib sample_process)
                   (_generate_analytics_data sample_runtime
                      (process_lib sample_process))
                   (_calculate_metrics sample_runtime
                      (process_lib sample_process))
                   "news" [article_with_null_content] (start 1))))
  = false /\
  match fst (_process_source_data nat (memory_storage None)
               (process_lib sample_process)
               (_generate_analytics_data sample_runtime
                  (process_lib sample_process))
               (_calculate_metrics sample_runtime
                  (process_lib sample_process))
               "news" [article_with_null_content] (start 1))
  with
  | Ok source_results =>
      silver_ids (lists source_results) = [2%Z] /\
      gold_ids (lists source_results) = [] /\
      option_map valid_records (quality_summary source_results) = Some 1%Z
  | Raise _ => False
  end.
Proof.
  split; [vm_compute; reflexivity|]. split; [vm_compute; reflexivity|].
  split; [vm_compute; repeat split; reflexivity|].
  split; [vm_compute; repeat split; reflexivity|].
  split; [vm_compute; reflexivity|]. split; [vm_compute; reflexivity|].
  split; [vm_compute; reflexivity|].
  vm_compute; repeat split; reflexivity.
Qed.

(** C5, as stated, fails: the Silver store raises for both items of the
    source; both failures are logged and both items are attempted, but
    the error list of the run stays empty. *)
Lemma storage_failure_leaves_error_list_empty :
  errors (fst (_process_and_store_data nat (memory_storage (Some Silver)) sample_lib
                 plain_payload plain_payload
                 [("reddit", [fresh_post; bare_post])] (start 1)))
  = [] /\
  List.map fst
    (log (snd (_process_and_store_data nat (memory_storage (Some Silver)) sample_lib
                 plain_payload plain_payload
                 [("reddit", [fresh_post; bare_post])] (start 1))))
  = ["reddit"; "reddit"] /\
  bronze_items
    (calls (snd (_process_and_store_data nat (memory_storage (Some Silver)) sample_lib
                   plain_payload plain_payload
                   [("reddit", [fresh_post; bare_post])] (start 1))))
  = [("reddit", fresh_post); ("reddit", bare_post)].
Proof.
  split; [vm_compute; reflexivity|]. split; vm_compute; reflexivity.
Qed.

(** ** Sample runs *)

Definition down : Orchestrator.CollectorObj :=
  {| Orchestrator.impl := BaseCollector.always_failing;
     Orchestrator.state := BaseCollector.init "down" 1 3 |}.

(** Factories whose collectors are all down. *)
Definition factories_down : Orchestrator.Factories :=
  {| Orchestrator.create_twitter_collector := Ok down;
     Orchestrator.create_reddit_collector := Ok down;
     Orchestrator.create_news_collector := Ok down |}.

Lemma sample_registry_retries (factories : Orchestrator.Factories) :
  factories = Orchestrator.sample_factories \/ factories = factories_down ->
  forall entry,
    entry ∈ Orchestrator._initialize_collectors Orchestrator.full_env factories ->
    (1 <= BaseCollector.max_retries (Orchestrator.state (snd entry)))%Z.
Proof.
  intros [-> | ->] entry He;
    repeat (apply elem_of_cons in He as [-> | He]; [cbn; lia|]);
    inversion He.
Qed.

Lemma summary_lists_sources_with_items_witness :
  Orchestrator.keys
    (bronze_layer_summary
       (fst (_generate_pipeline_summary nat
               (fst (_process_and_store_data nat (memory_storage None)
                       sample_lib plain_payload plain_payload
                       [("twitter", []); ("reddit", [fresh_post])] (start 1)))
               (snd (_process_and_store_data nat (memory_storage None)
                       sample_lib plain_payload plain_payload
                       [("twitter", []); ("reddit", [fresh_post])]
                       (start 1))))))
  = ["reddit"].
Proof.
  exact (proj1 (summary_lists_sources_with_items nat (memory_storage None)
                  sample_lib plain_payload plain_payload
                  [("twitter", []); ("reddit", [fresh_post])] (start 1)
                  ltac:(by compute_done))).
Defined.

Lemma pipeline_run_always_returns_witness :
  exists summary,
    fst (run_collection_pipeline nat (memory_storage (Some Bronze)) sample_lib
           plain_payload plain_payload
           (Orchestrator._initialize_collectors Orchestrator.full_env
              Orchestrator.sample_factories)
           "technology" 100 0 (start 1))
    = Ok summary /\
    pipeline_status summary = "completed" /\
    summary_errors summary = [].
Proof.
  exact (pipeline_run_always_returns nat (memory_storage (Some Bronze))
           sample_lib plain_payload plain_payload Orchestrator.full_env
           Orchestrator.sample_factories "technology" 100 0 (start 1)
           (sample_registry_retries _ (or_introl eq_refl))).
Defined.

Lemma all_sources_down_is_reported_completed_witness :
  exists summary,
    fst (run_collection_pipeline nat (memory_storage None) sample_lib
           plain_payload plain_payload
           (Orchestrator._initialize_collectors Orchestrator.full_env
              factories_down)
           "trending" 100 0 (start 1))
    = Ok summary /\
    pipeline_status summary = "completed" /\
    summary_errors summary = [].
Proof.
  destruct (all_sources_down_is_reported_completed nat (memory_storage None)
              sample_lib plain_payload plain_payload Orchestrator.full_env
              factories_down "trending" 100 0 (start 1))
    as (summary & Hrun & Hstatus & Herrors & _).
  - intros entry He.
    split; [exact (sample_registry_retries _ (or_intror eq_refl) entry He)|].
    repeat (apply elem_of_cons in He as [-> | He];
            [intros n kwargs; eexists; reflexivity|]).
    inversion He.
  - exists summary. auto.
Defined.

Lemma pipeline_success_rate_bounds_witness :
  stats_success_rate
    (get_pipeline_stats nat
       (snd (_process_and_store_data nat (memory_storage None) sample_lib
               plain_payload plain_payload
               [("reddit", [fresh_post; bare_post])] (start 1))))
  <= 1.
Proof.
  exact (proj2 (proj2 (pipeline_success_rate_bounds nat (memory_storage None)
                         sample_lib plain_payload plain_payload
                         [("reddit", [fresh_post; bare_post])] (start 1)
                         ltac:(cbn; lia)))).
Defined.

End DataPipeline.

(** * src/collectors/reddit_collector.py and src/collectors/news_collector.py *)

Module RedditCollector.
Import BaseCollector DataQuality Dict.

Definition required_fields : list string :=
  ["id"; "title"; "author"; "subreddit"; "score"].

(** [validate_data]: a non-empty dictionary with the required keys. *)
Definition validate_data (data : Item) : bool :=
  if dict_is_empty data then false else has_fields data required_fields.

Section Transform.

(** [_calculate_engagement_score]: binary64 arithmetic on the payload's
    numbers and a rounding; it raises on values that are no numbers. *)
Variable _calculate_engagement_score : Item -> result pyval.

(** [transform_data]; the entries are evaluated in the order of the
    dictionary display, so a missing key is reported before the
    engagement score is computed.  The key order of [raw_data] is not
    kept. *)
Definition transform_data (data : Item) : result Item :=
  id <- getitem data "id" ;;
  title <- getitem data "title" ;;
  author <- getitem data "author" ;;
  subreddit <- getitem data "subreddit" ;;
  score <- getitem data "score" ;;
  engagement_score <- _calculate_engagement_score data ;;
  Ok (list_to_map
        [("id", id);
         ("title", title);
         ("text", get data "text" (PStr EmptyString));
         ("url", get data "url" (PStr EmptyString));
         ("author", author);
         ("subreddit", subreddit);
         ("score", score);
         ("upvote_ratio", get data "upvote_ratio" (PFloat 0%float));
         ("num_comments", get data "num_comments" (PInt 0));
         ("created_at", dict_get_or_none data "created_utc");
         ("engagement_score", engagement_score);
         ("source", PStr "reddit");
         ("collected_at", dict_get_or_none data "collected_at");
         ("raw_data", PDict (map_to_list data))]).

(** The collector as the retry loop sees it, around a Reddit client. *)
Definition collector (client : nat -> Item -> result (list Item))
  : CollectorImpl :=
  {| BaseCollector.collect_data := client;
     BaseCollector.validate_data := fun data => Ok (validate_data data);
     BaseCollector.transform_data := transform_data |}.

Lemma transform_data_shape (data transformed : Item) :
  transform_data data = Ok transformed ->
  has_fields data required_fields = true /\
  transformed !! "id" = data !! "id" /\
  transformed !! "created_at"
  = Some (dict_get_or_none data "created_utc") /\
  transformed !! "created_utc" = None /\
  transformed !! "selftext" = None /\
  transformed !! "source" = Some (PStr "reddit").
Proof.
  unfold transform_data, getitem, has_fields, required_fields.
  cbn [forallb].
  destruct (data !! "id") as [id|]; [|discriminate].
  destruct (data !! "title") as [title|]; [|discriminate].
  destruct (data !! "author") as [author|]; [|discriminate].
  destruct (data !! "subreddit") as [subreddit|]; [|discriminate].
  destruct (data !! "score") as [score|]; [|discriminate].
  cbn [bind].
  destruct (_calculate_engagement_score data) as [e|e]; [|discriminate].
  cbn [bind]. intros [= <-]. repeat split; reflexivity.
Qed.

(** X27.  [validate_data] checks exactly the keys [transform_data] indexes:
    the transformation of a post returns if and only if the post has
    the five required keys and its engagement score can be computed, so
    a validated post never raises [KeyError].  The transformed post
    carries the creation time under [created_at]; it has no
    [created_utc] and no [selftext]. *)
Theorem validated_reddit_post_is_transformed :
  forall (data : Item),
    ((exists transformed, transform_data data = Ok transformed) <->
     has_fields data required_fields = true /\
     exists score, _calculate_engagement_score data = Ok score) /\
    (validate_data data = true -> has_fields data required_fields = true) /\
    (forall transformed,
       transform_data data = Ok transformed ->
       transformed !! "created_at"
       = Some (dict_get_or_none data "created_utc") /\
       transformed !! "created_utc" = None /\
       transformed !! "selftext" = None).
Proof.
  intros data. split; [|split].
  - split.
    + intros [transformed H].
      split; [exact (proj1 (transform_data_shape _ _ H))|].
      unfold transform_data in H.
      destruct (getitem data "id"); [|discriminate].
      destruct (getitem data "title"); [|discriminate].
      destruct (getitem data "author"); [|discriminate].
      destruct (getitem data "subreddit"); [|discriminate].
      destruct (getitem data "score"); [|discriminate].
      cbn [bind] in H.
      destruct (_calculate_engagement_score data); [eauto | discriminate].
    + intros [Hfields [score Hscore]]. unfold transform_data.
      destruct (has_fields_getitem data required_fields "id" Hfields)
        as (? & -> & _); [cbn; tauto|].
      destruct (has_fields_getitem data required_fields "title" Hfields)
        as (? & -> & _); [cbn; tauto|].
      destruct (has_fields_getitem data required_fields "author" Hfields)
        as (? & -> & _); [cbn; tauto|].
      destruct (has_fields_getitem data required_fields "subreddit" Hfields)
        as (? & -> & _); [cbn; tauto|].
      destruct (has_fields_getitem data required_fields "score" Hfields)
        as (? & -> & _); [cbn; tauto|].
      cbn [bind]. rewrite Hscore. cbn [bind]. eauto.
  - unfold validate_data. now destruct (dict_is_empty data).
  - intros transformed H.
    destruct (transform_data_shape _ _ H) as (_ & _ & H1 & H2 & H3 & _). auto.
Qed.

End Transform.

(** X28.  The validator looks for the creation time of a Reddit post under
    [created_utc], and the collector hands it over under [created_at].
    So every post that comes out of the Reddit collector is judged
    invalid, with a score of at most 0.75, whatever Reddit returned:
    the pipeline stores it in Bronze and Silver, never calls the Gold
    store for it, and counts no successful store. *)
Theorem collected_reddit_posts_never_reach_gold :
  forall (DB : Type) (storage : DataPipeline.Storage DB) (lib : DatetimeLib)
         (_generate_analytics_data _calculate_metrics :
            Item -> string -> result pyval)
         (_calculate_engagement_score : Item -> result pyval)
         (client : nat -> Item -> result (list Item))
         (kwargs : Item) (r : Run) (items : list Item)
         (w : DataPipeline.World DB),
    fst (collect_with_retry (collector _calculate_engagement_score client)
           kwargs r)
    = Returned items ->
    let run :=
      DataPipeline._process_source_data DB storage lib
        _generate_analytics_data _calculate_metrics "reddit" items w in
    exists source_results,
      fst run = Ok source_results /\
      DataPipeline.gold_ids (DataPipeline.lists source_results) = [] /\
      Forall (fun q => is_valid q = false /\ quality_score q <= 0.75)
        (DataPipeline.quality_results (DataPipeline.lists source_results)) /\
      DataPipeline.successful_stores (DataPipeline.stats (snd run))
      = DataPipeline.successful_stores (DataPipeline.stats w) /\
      List.filter DataPipeline.is_gold_call (DataPipeline.calls (snd run))
      = List.filter DataPipeline.is_gold_call (DataPipeline.calls w).
Proof.
  intros DB storage lib gen calc eng client kwargs r items w Hreturned.
  cbn zeta.
  assert (Hinvalid : Forall
            (fun item =>
               is_valid (DataPipeline._validate_data lib "reddit" item) = false /\
               (is_valid (DataPipeline._validate_data lib "reddit" item) = false /\
                quality_score (DataPipeline._validate_data lib "reddit" item)
                <= 0.75))
            items).
  { pose proof (collect_with_retry_returned _ _ _ _ Hreturned) as Ht.
    cbn [BaseCollector.transform_data collector] in Ht.
    eapply Forall_impl; [exact Ht|].
    intros t [data Hdata].
    destruct (transform_data_shape eng data t Hdata)
      as (_ & _ & _ & Hutc & _ & _).
    assert (Hfalsy : truthy (dict_get_or_none t (timestamp_field Reddit))
                     = false)
      by (unfold dict_get_or_none; cbn [timestamp_field]; now rewrite Hutc).
    pose proof (validate_falsy_timestamp lib Reddit t Hfalsy) as Hv.
    change (validate lib Reddit t)
      with (DataPipeline._validate_data lib "reddit" t) in Hv.
    tauto. }
  unfold DataPipeline._process_source_data.
  destruct (DataPipeline.process_items_invalid DB storage lib gen calc
              "reddit"
              (fun q => is_valid q = false /\ quality_score q <= 0.75)
              items Hinvalid
              {| DataPipeline.bronze_ids := []; DataPipeline.silver_ids := [];
                 DataPipeline.gold_ids := [];
                 DataPipeline.quality_results := [] |} w)
    as (Hg & Hs & Hc & Hq).
  destruct (DataPipeline.process_items DB storage lib gen calc "reddit" items
              _ w) as [l w'].
  cbn [fst snd] in *. eexists. split; [reflexivity|].
  cbn [DataPipeline.lists]. split; [exact Hg|].
  split; [apply Hq; constructor|]. split; [exact Hs | exact Hc].
Qed.

(** A post as the Reddit client builds it. *)
Definition raw_post : Item :=
  list_to_map
    [("id", PStr "abc123"); ("title", PStr "A new release");
     ("text", PStr "Release notes."); ("url", PStr "https://example.org/p");
     ("author", PStr "alice"); ("subreddit", PStr "technology");
     ("score", PInt 120); ("upvote_ratio", PFloat 0.5%float);
     ("num_comments", PInt 14);
     ("created_utc", PStr "2024-01-01T00:00:00");
     ("source", PStr "reddit");
     ("collected_at", PStr "2024-01-01T00:30:00")].

Definition sample_client : nat -> Item -> result (list Item) :=
  fun _ _ => Ok [raw_post].

Definition sample_score : Item -> result pyval :=
  fun _ => Ok (PFloat 88%float).

Lemma collected_reddit_posts_never_reach_gold_witness :
  exists source_results,
    fst (DataPipeline._process_source_data nat
           (DataPipeline.memory_storage None) sample_lib
           DataPipeline.plain_payload DataPipeline.plain_payload "reddit"
           (Orchestrator.items_of
              (fst (collect_with_retry (collector sample_score sample_client)
                      ∅ (fresh_run (init "reddit" 1 3) 0))))
           (DataPipeline.start 1))
    = Ok source_results /\
    DataPipeline.gold_ids (DataPipeline.lists source_results) = [].
Proof.
  destruct (collected_reddit_posts_never_reach_gold nat
              (DataPipeline.memory_storage None) sample_lib
              DataPipeline.plain_payload DataPipeline.plain_payload
              sample_score sample_client ∅
              (fresh_run (init "reddit" 1 3) 0)
              (Orchestrator.items_of
                 (fst (collect_with_retry (collector sample_score sample_client)
                         ∅ (fresh_run (init "reddit" 1 3) 0))))
              (DataPipeline.start 1) eq_refl)
    as (source_results & Hrun & Hgold & _).
  exists source_results. auto.
Defined.

End RedditCollector.

Module NewsCollector.
Import BaseCollector DataQuality Dict.

Definition required_fields : list string :=
  ["id"; "title"; "source_name"; "url"].

Definition validate_data (data : Item) : bool :=
  if dict_is_empty data then false else has_fields data required_fields.

Definition reputable_sources : list string :=
  ["reuters"; "bloomberg"; "bbc-news"; "the-guardian-uk"; "cnn"].

(** [value.lower()]: only strings have the method. *)
Definition str_lower (value : pyval) : result string :=
  match value with
  | PStr s => Ok (lower s)
  | _ => Raise (Exn "AttributeError" "object has no attribute 'lower'")
  end.

Section Transform.

(** The binary64 arithmetic and the rounding of
    [_calculate_engagement_score], from the three lengths, the
    reputation of the source and the presence of an image. *)
Variable score_of : Z -> Z -> Z -> bool -> bool -> float.

Definition _calculate_engagement_score (data : Item) : result pyval :=
  title_length <- py_len (get data "title" (PStr EmptyString)) ;;
  description_length <- py_len (get data "description" (PStr EmptyString)) ;;
  content_length <- py_len (get data "content" (PStr EmptyString)) ;;
  source_name <- str_lower (get data "source_name" (PStr EmptyString)) ;;
  let reputable := existsb (String.eqb source_name) reputable_sources in
  let has_image := truthy (dict_get_or_none data "url_to_image") in
  Ok (PFloat (score_of title_length description_length content_length
                reputable has_image)).

Definition transform_data (data : Item) : result Item :=
  id <- getitem data "id" ;;
  title <- getitem data "title" ;;
  url <- getitem data "url" ;;
  source_name <- getitem data "source_name" ;;
  engagement_score <- _calculate_engagement_score data ;;
  Ok (list_to_map
        [("id", id);
         ("title", title);
         ("description", get data "description" (PStr EmptyString));
         ("content", get data "content" (PStr EmptyString));
         ("url", url);
         ("image_url", get data "url_to_image" (PStr EmptyString));
         ("source_name", source_name);
         ("source_id", get data "source_id" (PStr EmptyString));
         ("author", get data "author" (PStr EmptyString));
         ("published_at", dict_get_or_none data "published_at");
         ("category", get data "category" (PStr EmptyString));
         ("country", get data "country" (PStr EmptyString));
         ("language", get data "language" (PStr "en"));
         ("query", get data "query" (PStr EmptyString));
         ("engagement_score", engagement_score);
         ("source", PStr "news");
         ("collected_at", dict_get_or_none data "collected_at");
         ("raw_data", PDict (map_to_list data))]).

Definition collector (client : nat -> Item -> result (list Item))
  : CollectorImpl :=
  {| BaseCollector.collect_data := client;
     BaseCollector.validate_data := fun data => Ok (validate_data data);
     BaseCollector.transform_data := transform_data |}.

(** The fields whose value the engagement score takes the length or the
    lower case of. *)
Definition scored_fields : list string :=
  ["title"; "description"; "content"; "source_name"].

Lemma engagement_score_of_null (data : Item) (field : string) :
  In field scored_fields ->
  data !! field = Some PNone ->
  exists e, _calculate_engagement_score data = Raise e.
Proof.
  unfold _calculate_engagement_score, get.
  intros [<- | [<- | [<- | [<- | []]]]] ->.
  - cbn. eauto.
  - destruct (py_len _); cbn; eauto.
  - destruct (py_len _); cbn [bind]; eauto.
    destruct (py_len _); cbn; eauto.
  - destruct (py_len _); cbn [bind]; eauto.
    destruct (py_len _); cbn [bind]; eauto.
    destruct (py_len _); cbn; eauto.
Qed.

Lemma transform_data_of_null (data : Item) (field : string) :
  In field scored_fields ->
  data !! field = Some PNone ->
  exists e, transform_data data = Raise e.
Proof.
  intros Hin Hnull. destruct (engagement_score_of_null data field Hin Hnull)
    as [e He].
  unfold transform_data. rewrite He.
  destruct (getitem data "id"); cbn [bind]; eauto.
  destruct (getitem data "title"); cbn [bind]; eauto.
  destruct (getitem data "url"); cbn [bind]; eauto.
  destruct (getitem data "source_name"); cbn [bind]; eauto.
Qed.

(** X29.  The engagement score of an article can be computed exactly when
    its title, description and content (an absent one counts as the
    empty string) have a length and its source name is a string; a
    field that is present with a null value makes it raise. *)
Theorem news_engagement_score_needs_sized_fields :
  forall (data : Item),
    ((exists score, _calculate_engagement_score data = Ok score) <->
     is_ok (py_len (get data "title" (PStr EmptyString))) = true /\
     is_ok (py_len (get data "description" (PStr EmptyString))) = true /\
     is_ok (py_len (get data "content" (PStr EmptyString))) = true /\
     isinstance_str (get data "source_name" (PStr EmptyString)) = true) /\
    (forall field,
       In field scored_fields -> data !! field = Some PNone ->
       exists e, _calculate_engagement_score data = Raise e).
Proof.
  intros data. split; [|apply engagement_score_of_null].
  unfold _calculate_engagement_score.
  destruct (py_len (get data "title" _)) as [t|e]; cbn [bind is_ok];
    [|split; [intros [? H]; discriminate H | intros [H _]; discriminate H]].
  destruct (py_len (get data "description" _)) as [d|e]; cbn [bind is_ok];
    [|split; [intros [? H]; discriminate H | intros (_ & H & _); discriminate H]].
  destruct (py_len (get data "content" _)) as [c|e]; cbn [bind is_ok];
    [|split; [intros [? H]; discriminate H
             | intros (_ & _ & H & _); discriminate H]].
  destruct (get data "source_name" _); cbn;
    (split; [intros [? H]; try discriminate H; auto
            | intros (_ & _ & _ & H); try discriminate H; eauto]).
Qed.

(** X30.  One article with a null title, description, content or source name
    costs the whole collection: the article passes [validate_data], its
    transformation raises, the attempt is abandoned with every other
    article of the batch, and when the source keeps returning the
    article the retries end by raising. *)
Theorem article_with_null_field_fails_the_collection :
  forall (client : nat -> Item -> result (list Item)) (kwargs : Item)
         (r : Run) (articles : list Item) (article : Item) (field : string),
    (1 <= max_retries (self r))%Z ->
    (forall n, client n kwargs = Ok articles) ->
    In article articles ->
    validate_data article = true ->
    In field scored_fields ->
    article !! field = Some PNone ->
    (exists e, process_items (collector client) articles = Raise e) /\
    (exists e, fst (collect_with_retry (collector client) kwargs r) = Raised e).
Proof.
  intros client kwargs r articles article field Hmax Hclient Hin Hvalid
    Hfield Hnull.
  assert (Hbatch : exists e, process_items (collector client) articles = Raise e).
  { apply (process_items_raises (collector client) articles article Hin).
    - cbn. now rewrite Hvalid.
    - cbn. exact (transform_data_of_null article field Hfield Hnull). }
  split; [exact Hbatch|].
  apply collect_with_retry_raises; [exact Hmax|].
  intros n. cbn [collect_data collector]. rewrite Hclient. cbn [bind].
  exact Hbatch.
Qed.

End Transform.

(** Two articles as the client builds them; the second has no content. *)
Definition full_article : Item :=
  list_to_map
    [("id", PStr "1"); ("title", PStr "Chips"); ("description", PStr "On chips");
     ("content", PStr "Long text"); ("url", PStr "https://example.org/a");
     ("source_name", PStr "Reuters");
     ("published_at", PStr "2024-01-01T00:00:00Z")].

Definition article_without_content : Item :=
  <["content" := PNone]> (<["id" := PStr "2"]> full_article).

Definition sample_score : Z -> Z -> Z -> bool -> bool -> float :=
  fun _ _ _ _ _ => 0%float.

Lemma article_with_null_field_fails_the_collection_witness :
  exists e,
    fst (collect_with_retry
           (collector sample_score
              (fun _ _ => Ok [full_article; article_without_content]))
           ∅ (fresh_run (init "news" 1 3) 0))
    = Raised e.
Proof.
  exact (proj2 (article_with_null_field_fails_the_collection sample_score
                  (fun _ _ => Ok [full_article; article_without_content])
                  ∅ (fresh_run (init "news" 1 3) 0)
                  [full_article; article_without_content]
                  article_without_content "content"
                  ltac:(cbn; lia) (fun _ => eq_refl)
                  ltac:(right; left; reflexivity)
                  ltac:(vm_compute; reflexivity)
                  ltac:(cbn; tauto) eq_refl)).
Defined.

End NewsCollector.
